(** * pint_pal outlier utilities: a shallow embedding of
      [src/timing_analysis/outlier_utils.py]

    The Python module is glue around two scientific libraries.  The embedding
    keeps what the module itself computes (the F-test arithmetic, the
    epoch-excision loop, the dispersion-window search, the summary lines, the
    flag bookkeeping) and takes the libraries it calls (the GLS fitter, the
    samplers, scipy's [fdtr], the C library's [pow] behind [**], the cut
    helpers) as section variables.

    Python values are modelled as the interpreter has them: [float] is IEEE
    binary64 (Rocq's primitive floats), [int] is unbounded ([Z]), exceptions
    are a sum type, dictionaries are [gmap]s. *)

From Stdlib Require Import ZArith Floats String Ascii List Lia Bool.
From Stdlib Require Import DecimalString DecimalNat DecimalZ Sorted.
From stdpp Require Import gmap strings list.

Local Open Scope string_scope.
Local Open Scope list_scope.
Local Open Scope Z_scope.

(** ** Exceptions and results *)

Inductive exn : Type :=
| ZeroDivisionError
| OverflowError
| ValueError
| TypeError
| IndexError
| KeyError (key : string)
| AttributeError (attr : string)
| UnboundLocalError (var : string).

Inductive result (A : Type) : Type :=
| Return (a : A)
| Raise (e : exn).
Arguments Return {A} a.
Arguments Raise {A} e.

Definition rbind {A B} (r : result A) (k : A -> result B) : result B :=
  match r with
  | Return a => k a
  | Raise e => Raise e
  end.

Declare Scope py_scope.
Delimit Scope py_scope with py.
Notation "'let*' x := r 'in' k" := (rbind r (fun x => k))
  (at level 10, x name, r at level 100, k at level 200) : py_scope.

(** ** Python numbers *)

(** [float(n)] for a Python int: round to nearest even, [OverflowError] when
    the rounded value does not fit binary64. *)
Definition float_of_int (n : Z) : result float :=
  let x := SF2Prim (binary_normalize prec emax n 0 false) in
  if is_infinity x then Raise OverflowError else Return x.

(** [x / y] on Python floats: a zero divisor raises, everything else is the
    IEEE quotient. *)
Definition float_truediv (x y : float) : result float :=
  if is_zero y then Raise ZeroDivisionError else Return (x / y)%float.

(** [x / n] with a Python float and a Python int: the int is converted
    first. *)
Definition float_div_int (x : float) (n : Z) : result float :=
  (let* y := float_of_int n in float_truediv x y)%py.

(** [int(x)]: truncation toward zero; infinities and NaN raise. *)
Definition int_of_float (x : float) : result Z :=
  match Prim2SF x with
  | S754_zero _ => Return 0
  | S754_finite s m e =>
      Return (cond_Zopp s (if 0 <=? e then Z.pos m * 2 ^ e
                           else Z.pos m / 2 ^ (- e)))
  | S754_infinity _ => Raise OverflowError
  | S754_nan => Raise ValueError
  end.

(** [x ** 2.0] on Python floats is CPython's [float_pow].  A NaN base is
    handed back, an infinite base gives [inf], a zero base gives [0.0] and
    a base of magnitude one gives [1.0], all without the C library; for any
    other base the C library's [pow] is called on the magnitude of the base,
    with [errno] cleared before the call and read after it.  The C library is
    not required to round correctly, so [pow(x, 2.0)] need not be the rounded
    product [x * x]. *)

(** [errno] after a call into the C library: zero, [ERANGE], or another
    value. *)
Inductive c_errno : Type :=
| ENONE
| ERANGE
| EOTHER.

(** The C library's [pow]: the value it returns and the [errno] it leaves. *)
Definition c_pow : Type := float -> float -> float * c_errno.

(** [_Py_ADJUST_ERANGE1]: an infinite result counts as a range error also
    when [errno] was left clear, a zero result never does. *)
Definition adjust_erange1 (ix : float) (e : c_errno) : c_errno :=
  match e with
  | ENONE => if is_infinity ix then ERANGE else ENONE
  | ERANGE => if is_zero ix then ENONE else ERANGE
  | EOTHER => EOTHER
  end.

(** The value of [x ** 2.0]. *)
Definition py_pow2 (libm_pow : c_pow) (x : float) : float :=
  if is_nan x then x
  else if is_infinity x then infinity
  else if is_zero x then 0%float
  else if (abs x =? 1)%float then 1%float
  else fst (libm_pow (abs x) 2%float).

(** [x ** 2.0] with its errors: a range error is an [OverflowError], any
    other [errno] a [ValueError]. *)
Definition float_pow2 (libm_pow : c_pow) (x : float) : result float :=
  if is_nan x then Return x
  else if is_infinity x then Return infinity
  else if is_zero x then Return 0%float
  else if (abs x =? 1)%float then Return 1%float
  else
    let '(ix, e) := libm_pow (abs x) 2%float in
    match adjust_erange1 ix e with
    | ENONE => Return ix
    | ERANGE => Raise OverflowError
    | EOTHER => Raise ValueError
    end.

(** *** Views of a binary64 value used to state facts about signs *)

(** The float 1.0. *)
Definition SFone : spec_float := S754_finite false 4503599627370496 (-52).

(** The float 0.5. *)
Definition SFhalf : spec_float := S754_finite false 4503599627370496 (-53).

(** The sign bit of a float that is not NaN. *)
Definition sf_sign_pos (r : spec_float) : bool :=
  match r with
  | S754_zero s | S754_infinity s | S754_finite s _ _ => negb s
  | S754_nan => false
  end.

Definition sf_is_nan (r : spec_float) : bool :=
  match r with S754_nan => true | _ => false end.

(** A Python value as [Ftest] produces it: the bool [False] or a float. *)
Inductive pyval : Type :=
| PyBool (b : bool)
| PyFloat (x : float).

Definition float_of_bool (b : bool) : float := if b then 1%float else 0%float.

(** [v < t] with [t] a float: a bool compares as the int 0 or 1. *)
Definition py_lt (v : pyval) (t : float) : bool :=
  match v with
  | PyBool b => (float_of_bool b <? t)%float
  | PyFloat x => (x <? t)%float
  end.

(** ** Formatting *)

(** [format(n, 'd')] *)
Definition format_d (n : Z) : string := NilZero.string_of_int (Z.to_int n).

(** [f"{i:04d}"] for [i >= 0]: decimal digits, zero-padded on the left to
    width four. *)
Fixpoint zeros (k : nat) : string :=
  match k with
  | O => ""
  | S k' => String "0" (zeros k')
  end.

Definition format_04d (i : nat) : string :=
  let s := NilEmpty.string_of_uint (Nat.to_uint i) in
  zeros (4 - String.length s) +:+ s.

(** Reading a decimal numeral back, the inverse of the [d] formats. *)
Definition parse_nat (s : string) : option nat :=
  option_map Nat.of_uint (NilEmpty.uint_of_string s).

(** [format(x, 'e')] on a float: one digit, six decimals, exponent of at
    least two digits; the decimal digits are the exact binary value rounded
    half to even. *)
Definition le_pow10 (k num den : Z) : bool :=
  if 0 <=? k then 10 ^ k * den <=? num else den <=? num * 10 ^ (- k).

Fixpoint exp10_up (fuel : nat) (num den k : Z) : Z :=
  match fuel with
  | O => k
  | S f => if le_pow10 (k + 1) num den then exp10_up f num den (k + 1) else k
  end.

Fixpoint exp10_down (fuel : nat) (num den k : Z) : Z :=
  match fuel with
  | O => k
  | S f => if le_pow10 k num den then k else exp10_down f num den (k - 1)
  end.

Definition exp10 (num den : Z) : Z :=
  let k0 := (Z.log2 num - Z.log2 den) * 30103 / 100000 in
  exp10_up 8 num den (exp10_down 8 num den k0).

Definition round_half_even (num den : Z) : Z :=
  let q := num / den in
  let r := num mod den in
  match 2 * r ?= den with
  | Lt => q
  | Gt => q + 1
  | Eq => if Z.even q then q else q + 1
  end.

Definition digits7 (num den k : Z) : Z :=
  if 0 <=? 6 - k then round_half_even (num * 10 ^ (6 - k)) den
  else round_half_even num (den * 10 ^ (k - 6)).

Definition format_exp (k : Z) : string :=
  let a := NilEmpty.string_of_uint (N.to_uint (Z.to_N (Z.abs k))) in
  (if k <? 0 then "e-" else "e+") +:+ zeros (2 - String.length a) +:+ a.

Definition format_mantissa (n : Z) : string :=
  let s := NilEmpty.string_of_uint (N.to_uint (Z.to_N n)) in
  match s with
  | String d rest => String d (String "." rest)
  | EmptyString => ""
  end.

Definition format_e (x : float) : string :=
  match Prim2SF x with
  | S754_nan => "nan"
  | S754_infinity s => if s then "-inf" else "inf"
  | S754_zero s => (if s then "-" else "") +:+ "0.000000e+00"
  | S754_finite s m e =>
      let num := if 0 <=? e then Z.pos m * 2 ^ e else Z.pos m in
      let den := if 0 <=? e then 1 else 2 ^ (- e) in
      let k := exp10 num den in
      let n := digits7 num den k in
      let '(n, k) := if n =? 10 ^ 7 then (10 ^ 6, k + 1) else (n, k) in
      (if s then "-" else "") +:+ format_mantissa n +:+ format_exp k
  end.

(** [format(v, 'e')] on what [Ftest] returns: a bool is formatted as the
    float it converts to. *)
Definition format_e_val (v : pyval) : string :=
  match v with
  | PyBool b => format_e (float_of_bool b)
  | PyFloat x => format_e x
  end.

(** [str] of a numpy float64 (and [repr] of a Python float): the shortest
    decimal digits that read back as the same double, the closest such
    digits when there is a choice; positional for a decimal exponent from
    -4 to 15, scientific otherwise. *)

(** Whether the rational [vnum / vden] rounds to the double [m * 2^e]: it
    lies between the midpoints to the neighbouring doubles, the midpoints
    included when [m] is even. *)
Definition rounds_to (m e vnum vden : Z) : bool :=
  let low := if (m =? 2 ^ 52) && (-1074 <? e) then 4 * m - 1 else 4 * m - 2 in
  let high := 4 * m + 2 in
  let cmp (b : Z) : comparison :=
    if 0 <=? e - 2 then vnum ?= b * 2 ^ (e - 2) * vden
    else vnum * 2 ^ (2 - e) ?= b * vden in
  let closed := Z.even m in
  match cmp low, cmp high with
  | Gt, Lt => true
  | Eq, Lt | Gt, Eq => closed
  | _, _ => false
  end.

(** The closest decimal of [n] digits that rounds to the double
    [num / den = m * 2^e] with decimal exponent [k], if there is one: its
    digits as an integer. *)
Definition digits_of_length (m e num den k : Z) (n : Z) : option Z :=
  let t := n - 1 - k in
  let ynum := if 0 <=? t then num * 10 ^ t else num in
  let yden := if 0 <=? t then den else den * 10 ^ (- t) in
  let lo := ynum / yden in
  let r := ynum mod yden in
  let ok (N : Z) : bool :=
    if 0 <=? t then rounds_to m e N (10 ^ t)
    else rounds_to m e (N * 10 ^ (- t)) 1 in
  let hi := lo + 1 in
  match ok lo, ok hi with
  | true, false => Some lo
  | false, true => Some hi
  | true, true =>
      match 2 * r ?= yden with
      | Lt => Some lo
      | Gt => Some hi
      | Eq => Some (if Z.even lo then lo else hi)
      end
  | false, false => None
  end.

Fixpoint shortest_digits (fuel : nat) (m e num den k : Z) (n : Z)
  : Z * Z :=
  match fuel with
  | O => (num / den, n)
  | S fuel' =>
      match digits_of_length m e num den k n with
      | Some N => (N, n)
      | None => shortest_digits fuel' m e num den k (n + 1)
      end
  end.

Fixpoint string_take (n : nat) (s : string) : string :=
  match n, s with
  | S n', String c s' => String c (string_take n' s')
  | _, _ => ""
  end.

Fixpoint string_drop (n : nat) (s : string) : string :=
  match n, s with
  | S n', String _ s' => string_drop n' s'
  | _, _ => s
  end.

Definition str_float64 (x : float) : string :=
  match Prim2SF x with
  | S754_nan => "nan"
  | S754_infinity s => if s then "-inf" else "inf"
  | S754_zero s => if s then "-0.0" else "0.0"
  | S754_finite s m e =>
      let num := if 0 <=? e then Z.pos m * 2 ^ e else Z.pos m in
      let den := if 0 <=? e then 1 else 2 ^ (- e) in
      let k := exp10 num den in
      let '(N, n) := shortest_digits 17 (Z.pos m) e num den k 1 in
      let '(N, k) := if N =? 10 ^ n then (10 ^ (n - 1), k + 1) else (N, k) in
      let ds := NilEmpty.string_of_uint (N.to_uint (Z.to_N N)) in
      let decpt := k + 1 in
      let body :=
        if (decpt <=? -4) || (16 <? decpt) then
          string_take 1 ds
          +:+ (if 1 <? n then "." +:+ string_drop 1 ds else "")
          +:+ format_exp k
        else if decpt <=? 0 then
          "0." +:+ zeros (Z.to_nat (- decpt)) +:+ ds
        else if n <=? decpt then
          ds +:+ zeros (Z.to_nat (decpt - n)) +:+ ".0"
        else
          string_take (Z.to_nat decpt) ds +:+ "."
          +:+ string_drop (Z.to_nat decpt) ds in
      (if s then "-" else "") +:+ body
  end.

(** ** The F-test (lines 144-169) *)

Section FTEST.

(** [scipy.special.fdtr(dfn, dfd, x)]: the F-distribution CDF. *)
Variable fdtr : Z -> Z -> float -> float.

Definition Ftest (chi2_1 : float) (dof_1 : Z) (chi2_2 : float) (dof_2 : Z)
  : result pyval :=
  let delta_chi2 := (chi2_1 - chi2_2)%float in
  if (0 <? delta_chi2)%float then
    let delta_dof := dof_1 - dof_2 in
    (let* new_redchi2 := float_div_int chi2_2 dof_2 in
     let* q := float_div_int delta_chi2 delta_dof in
     let* F := float_truediv q new_redchi2 in
     Return (PyFloat (1 - fdtr delta_dof dof_2 F)%float))%py
  else Return (PyBool false).

End FTEST.

(** The part of scipy's contract for [fdtr] that the F-test relies on: for
    positive degrees of freedom and a finite, non-negative argument the
    cumulative distribution function is a number in [[0,1]]. *)
Definition fdtr_in_unit_interval (fdtr : Z -> Z -> float -> float) : Prop :=
  forall a b x, 0 < a -> 0 < b ->
    (0 <=? x)%float = true -> is_finite x = true ->
    (0 <=? fdtr a b x)%float = true /\ (fdtr a b x <=? 1)%float = true.

(** ** TOAs, timing models, configuration *)

(** A flag value: PINT stores strings; [calculate_pout] stores floats. *)
Inductive flagval : Type :=
| FlagStr (s : string)
| FlagNum (x : float).

(** Equality of flag values is decidable: floats are equal when their
    binary64 images are. *)
#[global] Instance spec_float_eq_dec : EqDecision spec_float.
Proof. solve_decision. Defined.

#[global] Instance float_eq_dec : EqDecision float.
Proof.
  intros x y. destruct (decide (Prim2SF x = Prim2SF y)) as [H | H].
  - left. apply Prim2SF_inj. exact H.
  - right. intros ->. apply H. reflexivity.
Defined.

#[global] Instance flagval_eq_dec : EqDecision flagval.
Proof. solve_decision. Defined.

(** One row of the TOA table, by the columns the module reads:
    [t[0]] index, [t[1].value] and [t[2]] the MJD, [t[3]] the error (us),
    [t[6]] the flags dict. *)
Record TOA : Type := mkTOA {
  toa_index : nat;
  toa_mjd : float;
  toa_mjd_float : float;
  toa_error : float;
  toa_flags : gmap string flagval
}.

(** The [pint.toa.TOAs] object: the current table, PINT's stack of tables
    saved by [select], and the [orig_table] the pipeline keeps. *)
Record TOAs : Type := mkTOAs {
  table : list TOA;
  table_selects : list (list TOA);
  orig_table : list TOA
}.

(** A timing model: component name to (parameter name to [.value]). *)
Record TimingModel : Type := mkModel {
  components : gmap string (gmap string float)
}.

Record timingconfiguration : Type := mkConfig {
  get_outlier_method : string;
  get_outfile_basename : string;
  get_outlier_samples : Z;
  get_outlier_burn : Z;
  get_fratio : float;
  get_sw_delay : float;
  get_toa_type : string
}.

(** [enterprise.pulsar.PintPulsar(toas, model, sort=, drop_pintpsr=)] *)
Record PintPulsar : Type := mkPintPulsar {
  pp_toas : list TOA;
  pp_model : TimingModel;
  pp_sort : bool;
  pp_drop_pintpsr : bool
}.

(** Everything the module does to the outside world, in order. *)
Inductive event : Type :=
| LogInfo (msg : string)
| LogDebug (msg : string)
| LogError (msg : string)
| Print (msg : string)
| FileOpen (path : string)
| FileWrite (text : string)
| FileClose
| CallOutlierHMC (epp : PintPulsar) (outdir : string) (nsamples nburnin : Z)
| CallOutlierGibbs (epp : PintPulsar) (outdir : string) (niter : Z)
| ApplyCutFlag (inds : list nat) (cutflag : string)
| ApplyCutSelect (reason : string)
| SetupDmx (frequency_ratio max_delta_t : float)
| WriteTim (tbl : list TOA) (m : TimingModel) (toatype outfile : string).

(** What a trace writes to the open file. *)
Definition file_writes (tr : list event) : list string :=
  omap (fun ev => match ev with FileWrite text => Some text | _ => None end) tr.

(** The [apply_cut_flag] calls of a trace. *)
Definition cut_flag_calls (tr : list event) : list (list nat * string) :=
  omap (fun ev => match ev with
                  | ApplyCutFlag inds cutflag => Some (inds, cutflag)
                  | _ => None
                  end) tr.

(** The mutable objects: the TOAs object, the store of timing-model objects
    (a model variable holds an index into it), and the trace. *)
Record state : Type := mkState {
  st_toas : TOAs;
  st_models : list TimingModel;
  st_trace : list event
}.

(** ** State and exception monad *)

Definition M (A : Type) : Type := state -> result A * state.

Definition ret {A} (a : A) : M A := fun s => (Return a, s).

Definition raise {A} (e : exn) : M A := fun s => (Raise e, s).

Definition bind {A B} (m : M A) (k : A -> M B) : M B :=
  fun s => match m s with
           | (Return a, s') => k a s'
           | (Raise e, s') => (Raise e, s')
           end.

Definition lift {A} (r : result A) : M A := fun s => (r, s).

Notation "'let!' x := m 'in' k" := (bind m (fun x => k))
  (at level 10, x name, m at level 100, k at level 200) : py_scope.
Notation "m ;;; k" := (bind m (fun _ => k))
  (at level 100, k at level 200, right associativity) : py_scope.

Definition emit (ev : event) : M unit :=
  fun s => (Return tt, mkState (st_toas s) (st_models s) (st_trace s ++ [ev])%list).

(** The state after a run of events. *)
Definition add_events (s : state) (evs : list event) : state :=
  mkState (st_toas s) (st_models s) (st_trace s ++ evs)%list.

Definition get_toas : M TOAs := fun s => (Return (st_toas s), s).

Definition put_toas (t : TOAs) : M unit :=
  fun s => (Return tt, mkState t (st_models s) (st_trace s)).

(** Reading a model variable. *)
Definition deref (r : nat) : M TimingModel :=
  fun s => (Return (default (mkModel ∅) (st_models s !! r)), s).

(** In-place update of the object a model variable points to. *)
Definition set_model (r : nat) (m : TimingModel) : M unit :=
  fun s => (Return tt, mkState (st_toas s) (<[r := m]> (st_models s)) (st_trace s)).

(** [copy.deepcopy(model)]: a new object with the same contents. *)
Definition deepcopy (r : nat) : M nat :=
  fun s => (Return (length (st_models s)),
            mkState (st_toas s)
                    (st_models s ++ [default (mkModel ∅) (st_models s !! r)])%list
                    (st_trace s)).

(** Monadic loop over a list, left to right. *)
Fixpoint for_each {A} (l : list A) (body : A -> M unit) : M unit :=
  match l with
  | [] => ret tt
  | x :: l' => (body x ;;; for_each l' body)%py
  end.

Fixpoint fold_result {A B} (f : B -> A -> result B) (l : list A) (b : B)
  : result B :=
  match l with
  | [] => Return b
  | x :: l' => (let* b' := f b x in fold_result f l' b')%py
  end.

(** ** Dictionary, attribute and list access as Python does them *)

Definition getitem (d : gmap string flagval) (k : string) : result flagval :=
  match d !! k with
  | Some v => Return v
  | None => Raise (KeyError k)
  end.

Definition getattr_value (c : gmap string float) (a : string) : result float :=
  match c !! a with
  | Some v => Return v
  | None => Raise (AttributeError a)
  end.

Definition get_component (m : TimingModel) (k : string)
  : result (gmap string float) :=
  match components m !! k with
  | Some c => Return c
  | None => Raise (KeyError k)
  end.

(** [a == b] on flag values; [b] may be [None]. *)
Definition flag_eq (a b : flagval) : bool :=
  match a, b with
  | FlagStr s, FlagStr t => String.eqb s t
  | FlagNum x, FlagNum y => (x =? y)%float
  | _, _ => false
  end.

Definition flag_eq_opt (a : flagval) (b : option flagval) : bool :=
  match b with
  | Some b => flag_eq a b
  | None => false
  end.

(** ** PINT's selection stack *)

Fixpoint mask_select {A} (mask : list bool) (l : list A) : list A :=
  match mask, l with
  | b :: mask', x :: l' => if b then x :: mask_select mask' l' else mask_select mask' l'
  | _, _ => []
  end.

(** [toas.select(mask)]: push the current table, keep the rows whose mask
    entry is true. *)
Definition select (maskarray : list bool) : M unit :=
  (let! t := get_toas in
   put_toas (mkTOAs (mask_select maskarray (table t))
                    (table t :: table_selects t)
                    (orig_table t)))%py.

(** [toas.unselect()]: pop the stack; with nothing to pop PINT logs an
    error and changes nothing. *)
Definition unselect : M unit :=
  (let! t := get_toas in
   match table_selects t with
   | prev :: rest => put_toas (mkTOAs prev rest (orig_table t))
   | [] => emit (LogError "No previous TOA table found.  No changes made.")
   end)%py.

(** [component.remove_param(name)]: the parameter must be listed. *)
Definition remove_param (r : nat) (comp name : string) : M unit :=
  (let! m := deref r in
   let! c := lift (get_component m comp) in
   match c !! name with
   | None => raise ValueError
   | Some _ => set_model r (mkModel (<[comp := delete name c]> (components m)))
   end)%py.

(** ** The dispersion-window search (lines 215-225) *)

Definition DMXR1 (idx : string) : string := "DMXR1_" +:+ idx.
Definition DMXR2 (idx : string) : string := "DMXR2_" +:+ idx.
Definition DMX_ (idx : string) : string := "DMX_" +:+ idx.

(** [toaval > lowerbound and toaval < upperbound] *)
Definition strictly_inside (lo hi x : float) : bool :=
  (lo <? x)%float && (x <? hi)%float.

(** The [while dmxindex == None] loop from index [i].  [None] means the fuel
    ran out; [dmx_search_total] below shows it never does from [dmx_fuel]. *)
Fixpoint dmx_search (fuel : nat) (m : TimingModel) (toaval : float) (i : nat)
  : option (result (string * float * float)) :=
  match fuel with
  | O => None
  | S fuel' =>
      match get_component m "DispersionDMX" with
      | Raise e => Some (Raise e)
      | Return c =>
          match getattr_value c (DMXR1 (format_04d i)) with
          | Raise e => Some (Raise e)
          | Return lowerbound =>
              match getattr_value c (DMXR2 (format_04d i)) with
              | Raise e => Some (Raise e)
              | Return upperbound =>
                  if strictly_inside lowerbound upperbound toaval
                  then Some (Return (format_04d i, lowerbound, upperbound))
                  else dmx_search fuel' m toaval (S i)
              end
          end
      end
  end.

Definition dmx_fuel (m : TimingModel) : nat :=
  S (size (default ∅ (components m !! "DispersionDMX"))).

Definition dmx_window (m : TimingModel) (toaval : float)
  : result (string * float * float) :=
  match dmx_search (dmx_fuel m) m toaval 1 with
  | Some r => r
  | None => Raise (AttributeError "")
  end.

(** Window [i] of the component [c] exists with bounds [lo], [hi]. *)
Definition window (c : gmap string float) (i : nat) (lo hi : float) : Prop :=
  c !! DMXR1 (format_04d i) = Some lo /\ c !! DMXR2 (format_04d i) = Some hi.

(** The loop passed index [j]: its window exists and does not hold the TOA. *)
Definition passed (c : gmap string float) (toaval : float) (j : nat) : Prop :=
  exists lo hi, window c j lo hi /\ strictly_inside lo hi toaval = false.

(** ** The scan of one epoch (lines 198-227) *)

Record scan : Type := mkScan {
  receiver : option flagval;
  mjd : option Z;
  toaval : option float;
  dmxindex : option string;
  dmxlower : option float;
  dmxupper : option float;
  sum : float;
  maskarray : list bool
}.

Definition scan_init (n : nat) : scan :=
  mkScan None None None None None None 0%float (replicate n true).

(** The body of [for index,t in enumerate(toas.table)]. *)
Definition scan_toa (libm_pow : c_pow) (m : TimingModel)
    (filename : option flagval) (index : nat) (t : TOA) (sc : scan)
  : result scan :=
  (let* name := getitem (toa_flags t) "name" in
   if flag_eq_opt name filename then
     let* receiver' :=
       match receiver sc with
       | None => let* f := getitem (toa_flags t) "f" in Return (Some f)
       | Some r => Return (Some r)
       end in
     let* mjd' :=
       match mjd sc with
       | None => let* d := int_of_float (toa_mjd t) in Return (Some d)
       | Some d => Return (Some d)
       end in
     let* w :=
       match toaval sc with
       | None =>
           match dmxindex sc with
           | None =>
               let* found := dmx_window m (toa_mjd_float t) in
               let '(idx, lo, hi) := found in
               Return (Some (toa_mjd_float t), Some idx, Some lo, Some hi)
           | Some idx =>
               Return (Some (toa_mjd_float t), Some idx, dmxlower sc, dmxupper sc)
           end
       | Some v => Return (Some v, dmxindex sc, dmxlower sc, dmxupper sc)
       end in
     let '(toaval', dmxindex', dmxlower', dmxupper') := w in
     let* sq := float_pow2 libm_pow (toa_error t) in
     let* inv := float_truediv 1 sq in
     Return (mkScan receiver' mjd' toaval' dmxindex' dmxlower' dmxupper'
                    (sum sc + inv)%float
                    (<[index := false]> (maskarray sc)))
   else Return sc)%py.

Fixpoint scan_table (libm_pow : c_pow) (m : TimingModel)
    (filename : option flagval) (tbl : list TOA) (index : nat) (sc : scan)
  : result scan :=
  match tbl with
  | [] => Return sc
  | t :: tbl' =>
      (let* sc' := scan_toa libm_pow m filename index t sc in
       scan_table libm_pow m filename tbl' (S index) sc')%py
  end.

(** [toa[2] > dmxlower and toa[2] < dmxupper]; comparing a float with [None]
    is a [TypeError]. *)
Definition in_dmxrange (lo hi : option float) (x : float) : result bool :=
  match lo with
  | None => Raise TypeError
  | Some lo =>
      if (lo <? x)%float then
        match hi with
        | None => Raise TypeError
        | Some hi => Return (x <? hi)%float
        end
      else Return false
  end.

(** Lines 231-234. *)
Fixpoint count_in_dmxrange (lo hi : option float) (tbl : list TOA)
  : result nat :=
  match tbl with
  | [] => Return O
  | t :: tbl' =>
      (let* b := in_dmxrange lo hi (toa_mjd_float t) in
       let* n := count_in_dmxrange lo hi tbl' in
       Return (if b then S n else n))%py
  end.

(** *** The epoch of a file name, read off the table *)

(** Whether row [t] carries the file name [filename]. *)
Definition in_epoch (filename : option flagval) (t : TOA) : bool :=
  match toa_flags t !! "name" with
  | Some n => flag_eq_opt n filename
  | None => false
  end.

(** The mask after a scan: one more [False] per row of the epoch. *)
Fixpoint update_mask (filename : option flagval) (tbl : list TOA) (i : nat)
    (mask : list bool) : list bool :=
  match tbl with
  | [] => mask
  | t :: tbl' =>
      update_mask filename tbl' (S i)
                  (if in_epoch filename t then <[i := false]> mask else mask)
  end.

Definition epoch_toas (filename : option flagval) (tbl : list TOA) : list TOA :=
  filter (fun t => in_epoch filename t = true) tbl.

Definition remaining_toas (filename : option flagval) (tbl : list TOA)
  : list TOA :=
  filter (fun t => in_epoch filename t = false) tbl.

(** [sum] after the rows [l], in a pass where [**] and [/] raised nothing:
    the running sum of [1.0 / error**2.0]. *)
Definition inverse_variance_sum (libm_pow : c_pow)
    (l : list TOA) (acc : float) : float :=
  fold_left (fun acc t => (acc + 1 / py_pow2 libm_pow (toa_error t))%float)
            l acc.

(** [1.0/np.sqrt(sum)] *)
Definition combined_uncertainty (libm_pow : c_pow)
    (l : list TOA) : float :=
  (1 / sqrt (inverse_variance_sum libm_pow l 0))%float.

(** The variables a scan has not set yet, and the values the row [t0] gives
    them when it is the first row of the epoch. *)
Definition fresh (sc : scan) : Prop :=
  receiver sc = None /\ mjd sc = None /\ toaval sc = None
  /\ dmxindex sc = None /\ dmxlower sc = None /\ dmxupper sc = None.

Definition first_of (m : TimingModel) (t0 : TOA) (sc : scan) : Prop :=
  exists r d idx lo hi,
    getitem (toa_flags t0) "f" = Return r
    /\ int_of_float (toa_mjd t0) = Return d
    /\ dmx_window m (toa_mjd_float t0) = Return (idx, lo, hi)
    /\ receiver sc = Some r /\ mjd sc = Some d
    /\ toaval sc = Some (toa_mjd_float t0)
    /\ dmxindex sc = Some idx /\ dmxlower sc = Some lo /\ dmxupper sc = Some hi.

(** Every row of the epoch lies strictly inside the window [(lo, hi)]. *)
Definition epoch_within (filename : option flagval) (tbl : list TOA)
    (lo hi : float) : Prop :=
  forall t, t ∈ epoch_toas filename tbl ->
            strictly_inside lo hi (toa_mjd_float t) = true.

(** No row left after masking the epoch lies strictly inside the window. *)
Definition window_emptied (filename : option flagval) (tbl : list TOA)
    (lo hi : float) : Prop :=
  forall t, t ∈ remaining_toas filename tbl ->
            strictly_inside lo hi (toa_mjd_float t) = false.

Definition newline : string := String (ascii_of_nat 10) EmptyString.

(** [np.where(names == etd)[0]] *)
Fixpoint where_eq (names : list flagval) (etd : option flagval) (i : nat)
  : list nat :=
  match names with
  | [] => []
  | n :: names' =>
      if flag_eq_opt n etd then i :: where_eq names' etd (S i)
      else where_eq names' etd (S i)
  end.

Fixpoint map_result {A B} (f : A -> result B) (l : list A) : result (list B) :=
  match l with
  | [] => Return []
  | x :: l' =>
      (let* y := f x in
       let* ys := map_result f l' in
       Return (y :: ys))%py
  end.

Fixpoint foldM {A B} (f : B -> A -> M B) (l : list A) (b : B) : M B :=
  match l with
  | [] => ret b
  | x :: l' => (let! b' := f b x in foldM f l' b')%py
  end.

Section OUTLIER.

(** *** The libraries the module calls *)

(** The C library's [pow], behind Python's [**] on floats. *)
Variable libm_pow : c_pow.
(** [scipy.special.fdtr] *)
Variable fdtr : Z -> Z -> float -> float.
(** [pint.fitter.GLSFitter(toas, model).fit_toas()]: the chi-squared of
    the fit; the fitter works on its own copy of the model. *)
Variable fit_toas : TimingModel -> list TOA -> float.
(** [pint.residuals.Residuals(toas, model).dof] *)
Variable residuals_dof : TimingModel -> list TOA -> Z.
(** [str] of a numpy float64 *)
Variable str_float : float -> string.
(** The order in which Python iterates over [set(filenames)]. *)
Variable set_iter : list (option flagval) -> list (option flagval).
(** [timing_analysis.utils.apply_cut_flag] and [apply_cut_select],
    [timing_analysis.dmx_utils.setup_dmx]: what they do to the objects
    they are given. *)
Variable apply_cut_flag_toas : TOAs -> list nat -> string -> TOAs.
Variable apply_cut_select_toas : TOAs -> string -> TOAs.
Variable setup_dmx_objs :
  TimingModel -> TOAs -> float -> float -> TimingModel * TOAs.
(** The samplers of [enterprise_extensions.outlier] and [np.mean(.., axis=0)]. *)
Variable OutlierHMC : PintPulsar -> string -> Z -> Z -> list float.
Variable OutlierGibbs_poutchain : PintPulsar -> string -> Z -> list (list float).
Variable np_mean_axis0 : list (list float) -> list float.

Definition apply_cut_flag (inds : list nat) (cutflag : string) : M unit :=
  (emit (ApplyCutFlag inds cutflag) ;;;
   let! t := get_toas in
   put_toas (apply_cut_flag_toas t inds cutflag))%py.

Definition apply_cut_select (reason : string) : M unit :=
  (emit (ApplyCutSelect reason) ;;;
   let! t := get_toas in
   put_toas (apply_cut_select_toas t reason))%py.

(** [toas = setup_dmx(model, toas, frequency_ratio=.., max_delta_t=..)] *)
Definition setup_dmx (model : nat) (frequency_ratio max_delta_t : float)
  : M unit :=
  (emit (SetupDmx frequency_ratio max_delta_t) ;;;
   let! t := get_toas in
   let! m := deref model in
   let '(m', t') := setup_dmx_objs m t frequency_ratio max_delta_t in
   set_model model m' ;;;
   put_toas t')%py.

(** [fo = tc_object.construct_fitter(toas, model)] followed by
    [write_tim(fo, toatype=.., outfile=..)] *)
Definition write_tim (model : nat) (toatype outfile : string) : M unit :=
  (let! t := get_toas in
   let! m := deref model in
   emit (WriteTim (table t) m toatype outfile))%py.

Definition str_flag (v : option flagval) : string :=
  match v with
  | None => "None"
  | Some (FlagStr s) => s
  | Some (FlagNum x) => str_float x
  end.

Definition str_opt (v : option string) : string :=
  match v with
  | None => "None"
  | Some s => s
  end.

(** *** One epoch (lines 197-253) *)

(** Lines 247-251: the F-test and the drop decision. *)
Definition epoch_ftest (chi2_init : float) (ndof_init : Z)
    (chi2 : float) (ndof : Z) (ftest_threshold : float)
  : result (pyval * bool) :=
  if negb (ndof_init =? ndof) then
    (let* ftest := Ftest fdtr chi2_init ndof_init chi2 ndof in
     Return (ftest, py_lt ftest ftest_threshold))%py
  else Return (PyBool false, false).

(** Line 252: the summary line. *)
Definition epoch_line (filename : option flagval) (sc : scan)
    (ntoas_init ntoas : nat) (ftest : pyval) : result string :=
  match mjd sc with
  | None => Raise TypeError
  | Some d =>
      Return (str_flag filename +:+ " " +:+ str_flag (receiver sc) +:+ " "
              +:+ format_d d +:+ " "
              +:+ format_d (Z.of_nat ntoas_init - Z.of_nat ntoas) +:+ " "
              +:+ format_e_val ftest +:+ " "
              +:+ str_float (1 / sqrt (sum sc))%float +:+ newline)
  end.

(** The summary line of an epoch with rows [rows], receiver [r] and integer
    MJD [d], out of a table of [ntoas_init] rows of which [ntoas] remain. *)
Definition summary_line (filename : option flagval) (r : flagval) (d : Z)
    (ntoas_init ntoas : nat) (ftest : pyval) (rows : list TOA) : string :=
  str_flag filename +:+ " " +:+ str_flag (Some r) +:+ " "
  +:+ format_d d +:+ " "
  +:+ format_d (Z.of_nat ntoas_init - Z.of_nat ntoas) +:+ " "
  +:+ format_e_val ftest +:+ " "
  +:+ str_float (combined_uncertainty libm_pow rows) +:+ newline.

(** Lines 235-241: the model that is refitted. *)
Definition refit_model (model : nat) (numtoas_in_dmxrange : nat)
    (dmxindex : option string) : M nat :=
  if (numtoas_in_dmxrange =? 0)%nat then
    (emit (LogDebug ("Removing DMX range " +:+ str_opt dmxindex)) ;;;
     let! newmodel := deepcopy model in
     remove_param newmodel "DispersionDMX" (DMXR1 (str_opt dmxindex)) ;;;
     remove_param newmodel "DispersionDMX" (DMXR2 (str_opt dmxindex)) ;;;
     remove_param newmodel "DispersionDMX" (DMX_ (str_opt dmxindex)) ;;;
     ret newmodel)%py
  else ret model.

Definition epoch_iteration (model : nat) (chi2_init : float)
    (ndof_init : Z) (ntoas_init nfilenames : nat) (ftest_threshold : float)
    (epochs_to_drop : list (option flagval)) (filename : option flagval)
  : M (list (option flagval)) :=
  (let! toas := get_toas in
   let! m := deref model in
   let! sc := lift (scan_table libm_pow m filename (table toas) 0
                               (scan_init nfilenames)) in
   select (maskarray sc) ;;;
   let! masked := get_toas in
   let! numtoas_in_dmxrange :=
     lift (count_in_dmxrange (dmxlower sc) (dmxupper sc) (table masked)) in
   let! newmodel := refit_model model numtoas_in_dmxrange (dmxindex sc) in
   let! nm := deref newmodel in
   let chi2 := fit_toas nm (table masked) in
   let ndof := residuals_dof nm (table masked) in
   let ntoas := length (table masked) in
   let! fd := lift (epoch_ftest chi2_init ndof_init chi2 ndof ftest_threshold) in
   let '(ftest, drop) := fd in
   let! line := lift (epoch_line filename sc ntoas_init ntoas ftest) in
   emit (FileWrite line) ;;;
   unselect ;;;
   ret (if drop then (epochs_to_drop ++ [filename])%list else epochs_to_drop))%py.

(** *** One epoch as a function of the model and the table

    The same computation as [epoch_iteration] without the objects: what
    one pass of the loop body computes from the model contents [m] and the
    table [tbl] it starts from.  [epoch_iteration_eval] relates the two. *)

Definition remove_param_value (m : TimingModel) (comp name : string)
  : result TimingModel :=
  (let* c := get_component m comp in
   match c !! name with
   | None => Raise ValueError
   | Some _ => Return (mkModel (<[comp := delete name c]> (components m)))
   end)%py.

Definition remove_window (m : TimingModel) (idx : string)
  : result TimingModel :=
  (let* m1 := remove_param_value m "DispersionDMX" (DMXR1 idx) in
   let* m2 := remove_param_value m1 "DispersionDMX" (DMXR2 idx) in
   remove_param_value m2 "DispersionDMX" (DMX_ idx))%py.

Record epoch_outcome : Type := mkOutcome {
  eo_filename : option flagval;
  eo_scan : scan;
  eo_masked : list TOA;
  eo_removed : bool;
  eo_model : TimingModel;
  eo_ftest : pyval;
  eo_drop : bool;
  eo_line : string
}.

Definition epoch_eval (m : TimingModel) (tbl : list TOA) (chi2_init : float)
    (ndof_init : Z) (ntoas_init nfilenames : nat) (ftest_threshold : float)
    (filename : option flagval) : result epoch_outcome :=
  (let* sc := scan_table libm_pow m filename tbl 0 (scan_init nfilenames) in
   let masked := mask_select (maskarray sc) tbl in
   let* n := count_in_dmxrange (dmxlower sc) (dmxupper sc) masked in
   let* nm := if (n =? 0)%nat then remove_window m (str_opt (dmxindex sc))
              else Return m in
   let* fd := epoch_ftest chi2_init ndof_init (fit_toas nm masked)
                          (residuals_dof nm masked) ftest_threshold in
   let* line := epoch_line filename sc ntoas_init (length masked) (fst fd) in
   Return (mkOutcome filename sc masked (n =? 0)%nat nm (fst fd) (snd fd) line))%py.

(** What a completed pass adds to the trace and to the store. *)
Definition epoch_events (o : epoch_outcome) : list event :=
  (if eo_removed o
   then [LogDebug ("Removing DMX range " +:+ str_opt (dmxindex (eo_scan o)))]
   else []) ++ [FileWrite (eo_line o)].

Definition epoch_allocs (o : epoch_outcome) : list TimingModel :=
  if eo_removed o then [eo_model o] else [].

Definition dropped (os : list epoch_outcome) : list (option flagval) :=
  map eo_filename (filter (fun o => eo_drop o = true) os).

(** *** [epochalyptica] (lines 171-276) *)

Definition excise_timfile (tc : timingconfiguration) : string :=
  "outlier/" +:+ get_outfile_basename tc +:+ "/"
  +:+ get_outfile_basename tc +:+ "_excise.tim".

(** Lines 256-276: what follows the loop. *)
Definition apply_epoch_cuts (model : nat) (tc : timingconfiguration)
    (epochs_to_drop : list (option flagval)) : M unit :=
  (let! toas := get_toas in
   let! names := lift (map_result (fun t => getitem (toa_flags t) "name")
                                  (orig_table toas)) in
   for_each epochs_to_drop
     (fun etd => apply_cut_flag (where_eq names etd 0) "epochdrop") ;;;
   (if negb (length epochs_to_drop =? 0)%nat then
      (apply_cut_select "epoch drop analysis" ;;;
       setup_dmx model (get_fratio tc) (get_sw_delay tc))
    else emit (LogInfo "No epochs dropped (epochalyptica).")) ;;;
   let! toas := get_toas in
   put_toas (mkTOAs (orig_table toas) (table_selects toas) (orig_table toas)) ;;;
   write_tim model (get_toa_type tc) (excise_timfile tc) ;;;
   apply_cut_select "resumption after write_tim (excise)")%py.

Definition epochalyptica (model : nat) (tc : timingconfiguration)
    (ftest_threshold : float) : M unit :=
  (let! toas := get_toas in
   let! m := deref model in
   let chi2_init := fit_toas m (table toas) in
   let ndof_init := residuals_dof m (table toas) in
   let ntoas_init := length (table toas) in
   let filenames := map (fun t => toa_flags t !! "name") (table toas) in
   let outdir := "outlier/" +:+ get_outfile_basename tc in
   let outfile := outdir +:+ "/" +:+ "epochdrop.txt" in
   emit (FileOpen outfile) ;;;
   let numepochs := length (set_iter filenames) in
   emit (LogInfo ("There are " +:+ format_d (Z.of_nat numepochs)
                  +:+ " epochs (filenames) to analyze.")) ;;;
   let! epochs_to_drop :=
     foldM (epoch_iteration model chi2_init ndof_init ntoas_init
                            (length filenames) ftest_threshold)
           (set_iter filenames) [] in
   emit FileClose ;;;
   apply_epoch_cuts model tc epochs_to_drop)%py.

(** *** The trace of a run, as a function of the initial state *)

Definition cut_flag_events (names : list flagval)
    (etds : list (option flagval)) : list event :=
  map (fun etd => ApplyCutFlag (where_eq names etd 0) "epochdrop") etds.

Definition cut_flag_toas (names : list flagval)
    (etds : list (option flagval)) (t : TOAs) : TOAs :=
  fold_left (fun t etd => apply_cut_flag_toas t (where_eq names etd 0) "epochdrop")
            etds t.

(** The trace [apply_epoch_cuts] adds when [write_tim] is given the table
    [tbl] and the model [m]. *)
Definition closing_events (tc : timingconfiguration) (names : list flagval)
    (epochs_to_drop : list (option flagval)) (tbl : list TOA) (m : TimingModel)
  : list event :=
  cut_flag_events names epochs_to_drop
  ++ (match epochs_to_drop with
      | [] => [LogInfo "No epochs dropped (epochalyptica)."]
      | _ :: _ => [ApplyCutSelect "epoch drop analysis";
                   SetupDmx (get_fratio tc) (get_sw_delay tc)]
      end)
  ++ [WriteTim tbl m (get_toa_type tc) (excise_timfile tc);
      ApplyCutSelect "resumption after write_tim (excise)"].

(** The epochs of a state, in iteration order, and their evaluations. *)
Definition filenames_of (s : state) : list (option flagval) :=
  map (fun t => toa_flags t !! "name") (table (st_toas s)).

Definition evaluate_epochs (m : TimingModel) (s : state) (thr : float)
  : result (list epoch_outcome) :=
  map_result
    (epoch_eval m (table (st_toas s)) (fit_toas m (table (st_toas s)))
          (residuals_dof m (table (st_toas s)))
          (length (table (st_toas s))) (length (filenames_of s)) thr)
    (set_iter (filenames_of s)).

Definition opening_events (tc : timingconfiguration) (s : state) : list event :=
  [FileOpen ("outlier/" +:+ get_outfile_basename tc +:+ "/" +:+ "epochdrop.txt");
   LogInfo ("There are "
            +:+ format_d (Z.of_nat (length (set_iter (filenames_of s))))
            +:+ " epochs (filenames) to analyze.")].

(** *** The outlier-probability pipeline (lines 18-120) *)

(** Lines 64-81. *)
Definition get_entPintPulsar (model : TimingModel) (toas : TOAs)
    (sort drop_pintpsr : bool) : PintPulsar :=
  mkPintPulsar (table toas) model sort drop_pintpsr.

(** Lines 18-62: the Gibbs sampler is run and the chain of outlier
    probabilities is averaged over the samples. *)
Definition gibbs_run (entPintPulsar : PintPulsar) (results_dir : string)
    (Nsamples : Z) : M (list float) :=
  (emit (CallOutlierGibbs entPintPulsar results_dir Nsamples) ;;;
   ret (np_mean_axis0
          (OutlierGibbs_poutchain entPintPulsar results_dir Nsamples)))%py.

Definition set_flag (t : TOA) (k : string) (v : flagval) : TOA :=
  mkTOA (toa_index t) (toa_mjd t) (toa_mjd_float t) (toa_error t)
        (<[k := v]> (toa_flags t)).

(** Line 111: [toas.orig_table[oi]['flags'][f'pout_{method}'] = pout[i]];
    [pout] is unbound when no branch assigned it. *)
Definition write_pout_flag (method : string) (pout : option (list float))
    (i oi : nat) : M unit :=
  match pout with
  | None => raise (UnboundLocalError "pout")
  | Some p =>
      match p !! i with
      | None => raise IndexError
      | Some v =>
          (let! toas := get_toas in
           match orig_table toas !! oi with
           | None => raise IndexError
           | Some row =>
               put_toas (mkTOAs (table toas) (table_selects toas)
                           (<[oi := set_flag row ("pout_" +:+ method) (FlagNum v)]>
                              (orig_table toas)))
           end)%py
      end
  end.

(** Lines 110-111: [for i,oi in enumerate(toas.table['index'])]. *)
Fixpoint write_pout_flags (method : string) (pout : option (list float))
    (indices : list nat) (i : nat) : M unit :=
  match indices with
  | [] => ret tt
  | oi :: rest =>
      (write_pout_flag method pout i oi ;;;
       write_pout_flags method pout rest (S i))%py
  end.

(** The [orig_table] the loop of lines 110-111 leaves, given the
    probabilities [p]. *)
Fixpoint pout_flags_written (method : string) (p : list float)
    (indices : list nat) (i : nat) (orig : list TOA) : result (list TOA) :=
  match indices with
  | [] => Return orig
  | oi :: rest =>
      match p !! i with
      | None => Raise IndexError
      | Some v =>
          match orig !! oi with
          | None => Raise IndexError
          | Some row =>
              pout_flags_written method p rest (S i)
                (<[oi := set_flag row ("pout_" +:+ method) (FlagNum v)]> orig)
          end
      end
  end.

Definition pout_timfile (tc : timingconfiguration) : string :=
  "outlier/" +:+ get_outfile_basename tc +:+ "/"
  +:+ get_outfile_basename tc +:+ "_pout.tim".

(** Lines 98-107: the choice of sampler. *)
Definition run_sampler (model : nat) (tc : timingconfiguration)
  : M (option (list float)) :=
  let method := get_outlier_method tc in
  let results_dir := "outlier/" +:+ get_outfile_basename tc in
  let Nsamples := get_outlier_samples tc in
  let Nburnin := get_outlier_burn tc in
  (let! toas := get_toas in
   let! m := deref model in
   if String.eqb method "hmc" then
     let epp := get_entPintPulsar m toas false false in
     emit (CallOutlierHMC epp results_dir Nsamples Nburnin) ;;;
     emit (Print "") ;;;
     ret (Some (OutlierHMC epp results_dir Nsamples Nburnin))
   else if String.eqb method "gibbs" then
     let epp := get_entPintPulsar m toas false true in
     let! pout := gibbs_run epp results_dir Nsamples in
     ret (Some pout)
   else
     emit (LogError ("Specified method (" +:+ method
                     +:+ ") is not recognized.")) ;;;
     ret None)%py.

Definition calculate_pout (model : nat) (tc : timingconfiguration) : M unit :=
  let method := get_outlier_method tc in
  (let! pout := run_sampler model tc in
   let! toas := get_toas in
   write_pout_flags method pout (map toa_index (table toas)) 0 ;;;
   let! toas := get_toas in
   put_toas (mkTOAs (orig_table toas) (table_selects toas) (orig_table toas)) ;;;
   write_tim model (get_toa_type tc) (pout_timfile tc) ;;;
   apply_cut_select "resumption after write_tim, pout")%py.

End OUTLIER.

(** ** Notions used to state further properties *)

(** What [1.0 / (float(t[3])**2.0)] needs of the error of a row: the square
    is computed without an error and is not zero. *)
Definition usable_error (libm_pow : c_pow) (t : TOA) : Prop :=
  float_pow2 libm_pow (toa_error t) = Return (py_pow2 libm_pow (toa_error t))
  /\ is_zero (py_pow2 libm_pow (toa_error t)) = false.

(** The events of the epoch loop: debug and error logs and lines written to
    the open file. *)
Definition loop_event (ev : event) : Prop :=
  match ev with
  | LogDebug _ | LogError _ | FileWrite _ => True
  | _ => False
  end.

(** Whatever its outcome, the computation only appends events that satisfy
    [P] to the trace. *)
Definition emits_only {A} (P : event -> Prop) (c : M A) : Prop :=
  forall s r s', c s = (r, s') ->
    exists evs, st_trace s' = st_trace s ++ evs /\ Forall P evs.

(** Row [row'] is row [row] up to the value of the flag [k]. *)
Definition same_but_flag (k : string) (row row' : TOA) : Prop :=
  toa_index row' = toa_index row /\ toa_mjd row' = toa_mjd row
  /\ toa_mjd_float row' = toa_mjd_float row /\ toa_error row' = toa_error row
  /\ forall k', k' <> k -> toa_flags row' !! k' = toa_flags row !! k'.

(** The [orig_table] the loop of lines 110-111 has reached when it stops,
    at its end or at the first failing subscript. *)
Fixpoint pout_flags_progress (method : string) (p : list float)
    (indices : list nat) (i : nat) (orig : list TOA) : list TOA :=
  match indices with
  | [] => orig
  | oi :: rest =>
      match p !! i with
      | None => orig
      | Some v =>
          match orig !! oi with
          | None => orig
          | Some row =>
              pout_flags_progress method p rest (S i)
                (<[oi := set_flag row ("pout_" +:+ method) (FlagNum v)]> orig)
          end
      end
  end.

(** The decimal numeral [acc], least significant digit first, prints in at
    most four characters. *)
Definition short_numeral (acc : Decimal.uint) : bool :=
  (String.length (NilEmpty.string_of_uint (Decimal.rev acc)) <=? 4)%nat.

(** The [n] numerals from [acc] on all print in at most four characters. *)
Fixpoint all_short (n : nat) (acc : Decimal.uint) : bool :=
  match n with
  | O => true
  | S n' => short_numeral acc && all_short n' (Decimal.Little.succ acc)
  end.

(** ** [make_pout_cuts] (lines 122-142) *)

Section MAKE_POUT_CUTS.

(** [tc_object.apply_ignore(toas, specify_keys=..)] and
    [tc_object.check_file_outliers(toas, outpct_threshold=..)]: what they do
    to the TOAs object they are given (both hand back that object). *)
Variable apply_ignore_toas : TOAs -> list string -> TOAs.
Variable check_file_outliers_toas : TOAs -> float -> TOAs.
Variable apply_cut_select_toas : TOAs -> string -> TOAs.
Variable setup_dmx_objs :
  TimingModel -> TOAs -> float -> float -> TimingModel * TOAs.

Definition make_pout_cuts (model : nat) (tc : timingconfiguration)
    (outpct_threshold : float) : M unit :=
  (let! toas := get_toas in
   put_toas (apply_ignore_toas toas ["prob-outlier"]) ;;;
   apply_cut_select apply_cut_select_toas "outlier analysis, specified key" ;;;
   setup_dmx setup_dmx_objs model (get_fratio tc) (get_sw_delay tc) ;;;
   if String.eqb (get_toa_type tc) "NB" then
     (let! toas := get_toas in
      put_toas (check_file_outliers_toas toas outpct_threshold) ;;;
      setup_dmx setup_dmx_objs model (get_fratio tc) (get_sw_delay tc))
   else emit (LogInfo "Skipping maxout cuts (wideband)."))%py.

(** The default of the keyword argument. *)
Definition default_outpct_threshold : float := 8%float.

(** The objects after the first three calls. *)
Definition key_cuts (tc : timingconfiguration) (m : TimingModel) (t : TOAs)
  : TimingModel * TOAs :=
  setup_dmx_objs m
    (apply_cut_select_toas (apply_ignore_toas t ["prob-outlier"])
                           "outlier analysis, specified key")
    (get_fratio tc) (get_sw_delay tc).

End MAKE_POUT_CUTS.

(** ** A small concrete instance of the libraries

    Used to run the embedding on explicit inputs. *)

Module Toy.

Definition nan : float := (0 / 0)%float.

(** A step function with the shape of a CDF: values in [[0,1]] on the
    domain, NaN outside it. *)
Definition fdtr (a b : Z) (x : float) : float :=
  if (0 <? a) && (0 <? b) && (0 <=? x)%float then
    if (x <? 1)%float then 0.5%float
    else if (x <? 4)%float then 0.9375%float
    else if (x <? 100)%float then 0.984375%float
    else 0x1.fffffffcp-1%float
  else nan.

(** A C library whose [pow(x, 2.0)] is the rounded product and which leaves
    [errno] alone.  The rows of
    the examples have the errors 1.0 and 0.0, whose squares Python answers
    without calling [pow], so the examples do not depend on this choice. *)
Definition libm_pow : c_pow := fun x y => ((x * x)%float, ENONE).

Definition flag_num (t : TOA) (k : string) : float :=
  match toa_flags t !! k with
  | Some (FlagNum x) => x
  | _ => 1%float
  end.

(** chi-squared: the sum of the per-TOA contributions kept in the flag
    [chi2]. *)
Definition fit_toas (m : TimingModel) (tbl : list TOA) : float :=
  fold_left (fun acc t => (acc + flag_num t "chi2")%float) tbl 0%float.

(** degrees of freedom: TOAs minus one fitted parameter per DMX window
    (three entries each) minus one. *)
Definition residuals_dof (m : TimingModel) (tbl : list TOA) : Z :=
  Z.of_nat (length tbl)
  - Z.of_nat (size (default ∅ (components m !! "DispersionDMX"))) / 3 - 1.

Definition str_float (x : float) : string := str_float64 x.

(** First occurrences, in order. *)
Definition set_iter (l : list (option flagval)) : list (option flagval) :=
  remove_dups l.

Definition cut_rows (inds : list nat) (cutflag : string) (tbl : list TOA)
  : list TOA :=
  imap (fun i t => if bool_decide (i ∈ inds)
                   then mkTOA (toa_index t) (toa_mjd t) (toa_mjd_float t)
                              (toa_error t)
                              (<["cut" := FlagStr cutflag]> (toa_flags t))
                   else t) tbl.

Definition apply_cut_flag_toas (t : TOAs) (inds : list nat) (cutflag : string)
  : TOAs :=
  mkTOAs (table t) (table_selects t) (cut_rows inds cutflag (orig_table t)).

Definition apply_cut_select_toas (t : TOAs) (reason : string) : TOAs :=
  mkTOAs (filter (fun r => toa_flags r !! "cut" = None) (orig_table t))
         (table_selects t) (orig_table t).

Definition setup_dmx_objs (m : TimingModel) (t : TOAs) (fr md : float)
  : TimingModel * TOAs := (m, t).

Definition OutlierHMC (epp : PintPulsar) (outdir : string) (ns nb : Z)
  : list float := map (fun t => flag_num t "p") (pp_toas epp).

Definition OutlierGibbs_poutchain (epp : PintPulsar) (outdir : string)
    (ns : Z) : list (list float) :=
  [map (fun t => flag_num t "p") (pp_toas epp)].

Definition np_mean_axis0 (chain : list (list float)) : list float :=
  match chain with
  | row :: _ => row
  | [] => []
  end.

Definition epochalyptica :=
  epochalyptica libm_pow fdtr fit_toas residuals_dof str_float set_iter
                apply_cut_flag_toas apply_cut_select_toas setup_dmx_objs.

Definition calculate_pout :=
  calculate_pout apply_cut_select_toas OutlierHMC OutlierGibbs_poutchain
                 np_mean_axis0.

(** Two epochs, [a.ff] with two TOAs in window 1, [b.ff] with one TOA in
    window 2. *)
Definition toa (i : nat) (day : float) (name : string) (chi2 : float) : TOA :=
  mkTOA i day day 1%float
        (<["name" := FlagStr name]> (<["f" := FlagStr "Rcvr_800"]>
           (<["chi2" := FlagNum chi2]> ∅))).

Definition dmx2 : gmap string float :=
  <["DMXR1_0001" := 55000%float]> (<["DMXR2_0001" := 55010%float]>
  (<["DMX_0001" := 0%float]>
  (<["DMXR1_0002" := 55010%float]> (<["DMXR2_0002" := 55020%float]>
  (<["DMX_0002" := 0%float]> ∅))))).

Definition model2 : TimingModel := mkModel (<["DispersionDMX" := dmx2]> ∅).

Definition tc : timingconfiguration :=
  mkConfig "hmc" "J0000+0000" 1000 100 1.5%float 0.125%float "NB".

Definition tc_unknown : timingconfiguration :=
  mkConfig "nuts" "J0000+0000" 1000 100 1.5%float 0.125%float "NB".

Definition ftest_threshold : float := 0x1.0c6f7a0b5ed8dp-20%float.

Definition tbl9 : list TOA :=
  [toa 0 55001 "a.ff" 500; toa 1 55012 "b.ff" 1; toa 2 55002 "a.ff" 500;
   toa 3 55013 "b.ff" 1; toa 4 55014 "b.ff" 1; toa 5 55015 "b.ff" 1;
   toa 6 55016 "c.ff" 2; toa 7 55017 "c.ff" 2; toa 8 55018 "c.ff" 2].

Definition st9 : state := mkState (mkTOAs tbl9 [] tbl9) [model2] [].

(** The same epochs with even chi-squared contributions: nothing is
    significant. *)
Definition tbl_quiet : list TOA :=
  [toa 0 55001 "a.ff" 1; toa 1 55012 "b.ff" 1; toa 2 55002 "a.ff" 1;
   toa 3 55013 "b.ff" 1; toa 4 55014 "b.ff" 1; toa 5 55015 "b.ff" 1;
   toa 6 55016 "c.ff" 1; toa 7 55017 "c.ff" 1; toa 8 55018 "c.ff" 1].

Definition st_quiet : state :=
  mkState (mkTOAs tbl_quiet [] tbl_quiet) [model2] [].

(** Removing epoch [a.ff] makes the fit worse: its rows lower chi-squared. *)
Definition tbl_worse : list TOA :=
  [toa 0 55001 "a.ff" (-1); toa 1 55012 "b.ff" 30; toa 2 55002 "a.ff" (-1);
   toa 3 55013 "b.ff" 30; toa 4 55014 "b.ff" 30; toa 5 55015 "b.ff" 30;
   toa 6 55016 "c.ff" 2; toa 7 55017 "c.ff" 2; toa 8 55018 "c.ff" 2].

Definition st_worse : state :=
  mkState (mkTOAs tbl_worse [] tbl_worse) [model2] [].

(** Epoch [a.ff] straddles two windows: one row in window 1, one in
    window 2. *)
Definition tbl_split : list TOA :=
  [toa 0 55001 "a.ff" 500; toa 1 55012 "a.ff" 500; toa 2 55013 "b.ff" 1;
   toa 3 55014 "b.ff" 1; toa 4 55015 "b.ff" 1; toa 5 55016 "c.ff" 2;
   toa 6 55017 "c.ff" 2; toa 7 55018 "c.ff" 2; toa 8 55019 "c.ff" 2].

Definition eval_split (filename : option flagval) : result epoch_outcome :=
  epoch_eval libm_pow fdtr fit_toas residuals_dof str_float model2 tbl_split
             (fit_toas model2 tbl_split) (residuals_dof model2 tbl_split)
             9 9 ftest_threshold filename.

Definition outcome_split (filename : option flagval) : option epoch_outcome :=
  match eval_split filename with
  | Return o => Some o
  | Raise _ => None
  end.

Definition evaluate (s : state) : list epoch_outcome :=
  match evaluate_epochs libm_pow fdtr fit_toas residuals_dof str_float set_iter
                        model2 s ftest_threshold with
  | Return os => os
  | Raise _ => []
  end.

Definition names_of (s : state) : list flagval :=
  match map_result (fun t => getitem (toa_flags t) "name")
                   (orig_table (st_toas s)) with
  | Return names => names
  | Raise _ => []
  end.

Definition iteration9 :=
  epoch_iteration libm_pow fdtr fit_toas residuals_dof str_float 0%nat
                  (fit_toas model2 tbl9) (residuals_dof model2 tbl9) 9 9
                  ftest_threshold.

End Toy.

(** Inputs on the edges: a row with error zero, a model whose windows are
    not numbered consecutively, a sampler that hands back too little,
    helpers that do nothing. *)
Module Edge.

(** Windows 1 and 3, no window 2. *)
Definition dmx_gap : gmap string float :=
  <["DMXR1_0001" := 55000%float]> (<["DMXR2_0001" := 55010%float]>
  (<["DMX_0001" := 0%float]>
  (<["DMXR1_0003" := 55010%float]> (<["DMXR2_0003" := 55020%float]>
  (<["DMX_0003" := 0%float]> ∅))))).

Definition model_gap : TimingModel :=
  mkModel (<["DispersionDMX" := dmx_gap]> ∅).

(** One epoch that evaluates, then a row with error zero. *)
Definition tbl_zero_error : list TOA :=
  [Toy.toa 0 55001 "a.ff" 1;
   mkTOA 1 55012 55012 0
         (<["name" := FlagStr "b.ff"]> (<["f" := FlagStr "Rcvr_800"]> ∅))].

Definition st_zero_error : state :=
  mkState (mkTOAs tbl_zero_error [] tbl_zero_error) [Toy.model2] [].

(** A sampler that hands back a single probability. *)
Definition OutlierHMC_short (epp : PintPulsar) (outdir : string) (ns nb : Z)
  : list float := take 1 (Toy.OutlierHMC epp outdir ns nb).

(** Helpers that leave the TOAs as they are. *)
Definition apply_ignore_toas (t : TOAs) (keys : list string) : TOAs := t.
Definition check_file_outliers_toas (t : TOAs) (thr : float) : TOAs := t.

End Edge.

(** * Properties *)

(** ** IEEE binary64 facts the F-test needs

    Primitive floats are specified by their image in [spec_float]
    ([Prim2SF]); the lemmas below are proved on that image. *)

Lemma digits2_pos_log2 (m : positive) :
  Z.pos (digits2_pos m) = Z.log2 (Z.pos m) + 1.
Proof.
  induction m as [m IH | m IH |]; simpl; try reflexivity.
  - rewrite Pos2Z.inj_succ, IH. destruct m; simpl; lia.
  - rewrite Pos2Z.inj_succ, IH. destruct m; simpl; lia.
Qed.

Lemma digits2_pos_bounds (m : positive) :
  2 ^ (Z.pos (digits2_pos m) - 1) <= Z.pos m < 2 ^ Z.pos (digits2_pos m).
Proof.
  rewrite digits2_pos_log2.
  replace (Z.log2 (Z.pos m) + 1 - 1) with (Z.log2 (Z.pos m)) by lia.
  replace (Z.log2 (Z.pos m) + 1) with (Z.succ (Z.log2 (Z.pos m))) by lia.
  apply Z.log2_spec. lia.
Qed.

Lemma shl_align_value (mx : positive) (ex ez : Z) :
  ez <= ex -> Z.pos (fst (shl_align mx ex ez)) = Z.pos mx * 2 ^ (ex - ez).
Proof.
  intros H. unfold shl_align.
  destruct (ez - ex) as [| d | d] eqn:E; try lia.
  - replace (ex - ez) with 0 by lia. simpl. lia.
  - simpl fst. fold (shift_pos d mx). rewrite shift_pos_correct.
    replace (ex - ez) with (Z.pos d) by lia.
    change (Z.pow_pos 2 d) with (2 ^ Z.pos d). lia.
Qed.

(** Validity of a finite float, unpacked. *)
Lemma valid_finite_inv (s : bool) (m : positive) (e : Z) :
  valid_binary (S754_finite s m e) = true ->
  -1074 <= e <= 971 /\ Z.pos m < 2 ^ 53 /\ (-1074 < e -> 2 ^ 52 <= Z.pos m).
Proof.
  unfold SpecFloat.valid_binary, bounded, canonical_mantissa, fexp, SpecFloat.emin, emax, prec.
  intros H. apply andb_prop in H as [H1 H2].
  apply Z.eqb_eq in H1. apply Z.leb_le in H2.
  pose proof (digits2_pos_bounds m) as [Hlo Hhi].
  assert (Hd : Z.pos (digits2_pos m) <= 53) by lia.
  split; [lia|]. split.
  - eapply Z.lt_le_trans; [exact Hhi|]. apply Z.pow_le_mono_r; lia.
  - intros He. assert (Z.pos (digits2_pos m) = 53) as Hd' by lia.
    rewrite Hd' in Hlo. exact Hlo.
Qed.

(** Comparison of valid finite floats of the same sign is comparison of the
    aligned mantissas. *)
Lemma aligned_lt_of_exp_lt (m1 m2 : positive) (e1 e2 : Z) :
  valid_binary (S754_finite false m1 e1) = true ->
  valid_binary (S754_finite false m2 e2) = true ->
  e1 < e2 ->
  Z.pos m1 < Z.pos m2 * 2 ^ (e2 - e1).
Proof.
  intros V1 V2 He.
  apply valid_finite_inv in V1 as (R1 & U1 & _).
  apply valid_finite_inv in V2 as (R2 & _ & L2).
  specialize (L2 ltac:(lia)).
  assert (2 ^ 1 <= 2 ^ (e2 - e1)) by (apply Z.pow_le_mono_r; lia).
  change (2 ^ 1) with 2 in *. change (2 ^ 53) with (2 ^ 52 * 2) in U1. nia.
Qed.

Lemma binary_round_aux_neg_not_pos (m e : Z) (l : location) :
  SFltb (S754_zero false) (binary_round_aux prec emax true m e l) = false.
Proof.
  unfold binary_round_aux.
  destruct (shr_fexp prec emax m e l) as [mrs' e'].
  destruct (shr_fexp prec emax _ e' loc_Exact) as [mrs'' e''].
  destruct (shr_m mrs''); try reflexivity.
  destruct (e'' <=? emax - prec); reflexivity.
Qed.

Lemma binary_normalize_nonpos_not_pos (m e : Z) :
  m <= 0 ->
  SFltb (S754_zero false) (binary_normalize prec emax m e false) = false.
Proof.
  intros H. destruct m as [| p | p]; try lia; try reflexivity.
  unfold binary_normalize, binary_round.
  destruct (shl_align p e _) as [mz ez].
  apply binary_round_aux_neg_not_pos.
Qed.

Lemma SFcompare_finite_lt (s1 s2 : bool) (m1 m2 : positive) (e1 e2 : Z) :
  valid_binary (S754_finite s1 m1 e1) = true ->
  valid_binary (S754_finite s2 m2 e2) = true ->
  cond_Zopp s1 (Z.pos (fst (shl_align m1 e1 (Z.min e2 e1))))
  < cond_Zopp s2 (Z.pos (fst (shl_align m2 e2 (Z.min e2 e1)))) ->
  SFcompare (S754_finite s1 m1 e1) (S754_finite s2 m2 e2) = Some Lt.
Proof.
  intros V1 V2.
  rewrite !shl_align_value by lia.
  assert (V1' : valid_binary (S754_finite false m1 e1) = true) by exact V1.
  assert (V2' : valid_binary (S754_finite false m2 e2) = true) by exact V2.
  pose proof (aligned_lt_of_exp_lt m1 m2 e1 e2 V1' V2') as H12.
  pose proof (aligned_lt_of_exp_lt m2 m1 e2 e1 V2' V1') as H21.
  assert (P1 : 0 < 2 ^ (e1 - Z.min e2 e1)) by (apply Z.pow_pos_nonneg; lia).
  assert (P2 : 0 < 2 ^ (e2 - Z.min e2 e1)) by (apply Z.pow_pos_nonneg; lia).
  unfold SFcompare.
  destruct s1, s2; unfold cond_Zopp; intros H; try reflexivity; try nia.
  - destruct (Z.compare_spec e1 e2) as [E | E | E].
    + subst e2. rewrite Z.min_id, Z.sub_diag, Z.pow_0_r in H.
      f_equal. rewrite Pos.compare_cont_spec. simpl.
      destruct (Pos.compare_spec m1 m2); simpl; try reflexivity; lia.
    + exfalso. specialize (H12 E). rewrite Z.min_r in H by lia.
      rewrite Z.sub_diag, Z.pow_0_r in H. lia.
    + reflexivity.
  - destruct (Z.compare_spec e1 e2) as [E | E | E].
    + subst e2. rewrite Z.min_id, Z.sub_diag, Z.pow_0_r in H.
      f_equal. rewrite Pos.compare_cont_spec. simpl.
      destruct (Pos.compare_spec m1 m2); simpl; try reflexivity; lia.
    + reflexivity.
    + exfalso. specialize (H21 E). rewrite Z.min_l in H by lia.
      rewrite Z.sub_diag, Z.pow_0_r in H. lia.
Qed.

(** The sign of an IEEE difference: [x - y] is positive only if [y < x]. *)
Lemma SFsub_pos_lt (x y : spec_float) :
  valid_binary x = true -> valid_binary y = true ->
  SFltb (S754_zero false) (SFsub prec emax x y) = true ->
  SFltb y x = true.
Proof.
  intros Vx Vy.
  destruct x as [sx | sx | | sx mx ex], y as [sy | sy | | sy my ey];
    try (unfold SFsub, SFltb, SFcompare;
         repeat match goal with s : bool |- _ => destruct s end;
         intros; (reflexivity || discriminate)).
  unfold SFsub.
  match goal with |- SFltb _ (binary_normalize _ _ ?d _ _) = true -> _ =>
    destruct (Z_lt_le_dec 0 d) as [Hd | Hd] end.
  - intros _. unfold SFltb.
    rewrite (SFcompare_finite_lt sy sx my mx ey ex Vy Vx); [reflexivity | lia].
  - rewrite binary_normalize_nonpos_not_pos by exact Hd. discriminate.
Qed.

Lemma float_sub_pos_lt (x y : float) :
  (0 <? x - y)%float = true -> (y <? x)%float = true.
Proof.
  rewrite !ltb_spec, sub_spec. change (Prim2SF 0) with (S754_zero false).
  apply SFsub_pos_lt; apply Prim2SF_valid.
Qed.


(** *** Rounding: what [binary_round_aux] returns *)

Lemma fexp_eq (x : Z) : fexp prec emax x = Z.max (x - 53) (-1074).
Proof. reflexivity. Qed.

Lemma Zdigits2_log2 (m : Z) : 0 < m -> Zdigits2 m = Z.log2 m + 1.
Proof.
  destruct m as [| p | p]; try lia. intros _. apply digits2_pos_log2.
Qed.

Lemma shr_1_m (r : shr_record) :
  0 <= shr_m r -> shr_m (shr_1 r) = shr_m r / 2.
Proof.
  destruct r as [m rr ss]. cbn [shr_m]. intros H.
  destruct m as [| p | p]; try lia; [reflexivity |].
  destruct p as [p | p |]; cbn [shr_1 shr_m].
  - apply Z.div_unique with (r := 1); lia.
  - apply Z.div_unique with (r := 0); lia.
  - reflexivity.
Qed.

Lemma iter_shr_m (n : positive) (r : shr_record) :
  0 <= shr_m r ->
  shr_m (SpecFloat.iter_pos shr_1 n r) = shr_m r / 2 ^ Z.pos n.
Proof.
  revert r. induction n as [n IH | n IH |]; intros r H; cbn [SpecFloat.iter_pos].
  - assert (H1 : 0 <= shr_m (shr_1 r)).
    { rewrite shr_1_m by exact H. apply Z.div_pos; lia. }
    assert (H2 : 0 <= shr_m (SpecFloat.iter_pos shr_1 n (shr_1 r))).
    { rewrite IH by exact H1. apply Z.div_pos; [exact H1 |]. apply Z.pow_pos_nonneg; lia. }
    rewrite IH by exact H2. rewrite IH by exact H1. rewrite shr_1_m by exact H.
    rewrite !Z.div_div by (try apply Z.pow_pos_nonneg; lia).
    f_equal.
    assert (E : 2 ^ Z.pos n~1 = 2 * (2 ^ Z.pos n * 2 ^ Z.pos n)).
    { rewrite <- Z.pow_add_r, <- Z.pow_succ_r by lia. f_equal. lia. }
    rewrite E. reflexivity.
  - assert (H2 : 0 <= shr_m (SpecFloat.iter_pos shr_1 n r)).
    { rewrite IH by exact H. apply Z.div_pos; [exact H |]. apply Z.pow_pos_nonneg; lia. }
    rewrite IH by exact H2. rewrite IH by exact H.
    rewrite !Z.div_div by (try apply Z.pow_pos_nonneg; lia).
    f_equal.
    assert (E : 2 ^ Z.pos n~0 = 2 ^ Z.pos n * 2 ^ Z.pos n).
    { rewrite <- Z.pow_add_r by lia. f_equal. lia. }
    rewrite E. reflexivity.
  - rewrite shr_1_m by exact H. reflexivity.
Qed.

Lemma shr_record_of_loc_m (m : Z) (l : location) :
  shr_m (shr_record_of_loc m l) = m.
Proof. destruct l as [| []]; reflexivity. Qed.

(** [shr_fexp] divides by the power of two that brings the exponent to
    [fexp], when that exponent is above the current one. *)
Lemma shr_fexp_m (m e : Z) (l : location) :
  0 <= m ->
  let n := fexp prec emax (Zdigits2 m + e) - e in
  shr_m (fst (shr_fexp prec emax m e l)) = m / 2 ^ Z.max 0 n
  /\ snd (shr_fexp prec emax m e l) = e + Z.max 0 n.
Proof.
  intros H n. unfold shr_fexp, shr. fold n.
  destruct n as [| p | p] eqn:En; cbn [fst snd].
  - rewrite shr_record_of_loc_m. rewrite Z.max_l by lia.
    rewrite Z.pow_0_r, Z.div_1_r. lia.
  - rewrite iter_shr_m by (rewrite shr_record_of_loc_m; exact H).
    rewrite shr_record_of_loc_m. rewrite Z.max_r by lia. lia.
  - rewrite shr_record_of_loc_m. rewrite Z.max_l by lia.
    rewrite Z.pow_0_r, Z.div_1_r. lia.
Qed.

Lemma round_nearest_even_bounds (m : Z) (l : location) :
  m <= round_nearest_even m l <= m + 1.
Proof.
  unfold round_nearest_even. destruct l as [| []]; try lia.
  destruct (Z.even m); lia.
Qed.

Lemma log2_div_pow2 (m k : Z) :
  0 < m -> 0 <= k <= Z.log2 m -> Z.log2 (m / 2 ^ k) = Z.log2 m - k.
Proof.
  intros Hm Hk. rewrite <- Z.shiftr_div_pow2 by lia.
  rewrite Z.log2_shiftr by exact Hm. lia.
Qed.

Lemma div_pow2_pos (m k : Z) :
  0 < m -> 0 <= k <= Z.log2 m -> 0 < m / 2 ^ k.
Proof.
  intros Hm Hk. apply Z.div_str_pos. split; [apply Z.pow_pos_nonneg; lia |].
  apply Z.le_trans with (2 ^ Z.log2 m).
  - apply Z.pow_le_mono_r; lia.
  - apply Z.log2_spec. exact Hm.
Qed.

(** Adding at most one to [m] either keeps its number of digits or makes it
    the next power of two. *)
Lemma log2_round_up (m1 m2 : Z) :
  0 < m1 -> m1 <= m2 <= m1 + 1 ->
  Z.log2 m2 = Z.log2 m1 \/ m2 = 2 ^ (Z.log2 m1 + 1).
Proof.
  intros H1 H2.
  pose proof (Z.log2_spec m1 H1) as [Hlo Hhi].
  replace (Z.succ (Z.log2 m1)) with (Z.log2 m1 + 1) in Hhi by lia.
  destruct (Z.eq_dec m2 (2 ^ (Z.log2 m1 + 1))) as [E | E]; [right; exact E |].
  left. apply Z.log2_unique; [apply Z.log2_nonneg |].
  replace (Z.succ (Z.log2 m1)) with (Z.log2 m1 + 1) by lia. lia.
Qed.

Lemma canonical_of_log2 (m3 : positive) (e3 : Z) :
  Z.max (Z.log2 (Z.pos m3) + 1 + e3 - 53) (-1074) = e3 ->
  canonical_mantissa prec emax m3 e3 = true.
Proof.
  intros H. unfold canonical_mantissa. rewrite fexp_eq, digits2_pos_log2.
  apply Z.eqb_eq. exact H.
Qed.

Lemma binary_round_aux_shape (s : bool) (m e : Z) (l : location) :
  0 < m -> -1074 <= e -> e <= fexp prec emax (Zdigits2 m + e) ->
  exists (m3 : positive) (e3 : Z),
    binary_round_aux prec emax s m e l
    = (if e3 <=? 971 then S754_finite s m3 e3 else S754_infinity s)
    /\ canonical_mantissa prec emax m3 e3 = true
    /\ fexp prec emax (Zdigits2 m + e) <= e3
    /\ Z.pos m3 * 2 ^ (e3 - fexp prec emax (Zdigits2 m + e))
       <= m / 2 ^ (fexp prec emax (Zdigits2 m + e) - e) + 1.
Proof.
  intros Hm He Hf. rewrite fexp_eq in *. rewrite Zdigits2_log2 in * by exact Hm.
  set (L := Z.log2 m) in *.
  assert (HL : 0 <= L) by apply Z.log2_nonneg.
  set (f := Z.max (L + 1 + e - 53) (-1074)) in *.
  assert (Hk : 0 <= f - e <= L) by lia.
  unfold binary_round_aux.
  pose proof (shr_fexp_m m e l (Z.lt_le_incl _ _ Hm)) as [S1 S2].
  rewrite fexp_eq, Zdigits2_log2 in S1, S2 by exact Hm. fold L f in S1, S2.
  rewrite Z.max_r in S1, S2 by lia.
  destruct (shr_fexp prec emax m e l) as [mrs1 e1]. cbn [fst snd] in S1, S2.
  replace (e + (f - e)) with f in S2 by lia. subst e1.
  set (m1 := m / 2 ^ (f - e)) in *.
  assert (Hm1 : 0 < m1) by (apply div_pow2_pos; assumption).
  assert (HL1 : Z.log2 m1 = L - (f - e)) by (apply log2_div_pow2; assumption).
  rewrite S1.
  set (m2 := round_nearest_even m1 (loc_of_shr_record mrs1)).
  pose proof (round_nearest_even_bounds m1 (loc_of_shr_record mrs1)) as Hr.
  fold m2 in Hr.
  assert (Hm2 : 0 < m2) by lia.
  pose proof (shr_fexp_m m2 f loc_Exact (Z.lt_le_incl _ _ Hm2)) as [T1 T2].
  rewrite fexp_eq, Zdigits2_log2 in T1, T2 by exact Hm2.
  destruct (shr_fexp prec emax m2 f loc_Exact) as [mrs2 e2].
  cbn [fst snd] in T1, T2.
  destruct (log2_round_up m1 m2 Hm1 Hr) as [Hsame | Hpow].
  - (* the rounded mantissa has as many digits *)
    rewrite Hsame, HL1 in T1, T2.
    rewrite Z.max_l in T1, T2 by lia.
    rewrite Z.pow_0_r, Z.div_1_r in T1. rewrite Z.add_0_r in T2. subst e2.
    rewrite T1. destruct m2 as [| p2 | p2] eqn:E2; try lia.
    exists p2, f. split; [reflexivity |]. split.
    + apply canonical_of_log2. rewrite Hsame, HL1. lia.
    + split; [lia |]. rewrite Z.sub_diag, Z.pow_0_r. lia.
  - (* the rounded mantissa is the next power of two *)
    assert (HL2 : Z.log2 m2 = Z.log2 m1 + 1).
    { rewrite Hpow. apply Z.log2_pow2. lia. }
    rewrite HL2, HL1 in T1, T2.
    destruct (Z_le_gt_dec (-1074) (L - (f - e) + 1 + f - 53)) as [Hn | Hs].
    + (* normal: one more shift *)
      assert (HL52 : L - (f - e) = 52) by lia.
      replace (Z.max 0 (Z.max (L - (f - e) + 1 + 1 + f - 53) (-1074) - f))
        with 1 in T1, T2 by lia.
      rewrite Hpow, HL1, HL52 in T1. change (2 ^ (52 + 1) / 2 ^ 1) with (2 ^ 52) in T1.
      subst e2. rewrite T1.
      exists (4503599627370496)%positive, (f + 1). split; [reflexivity |]. split.
      * apply canonical_of_log2. change (Z.log2 4503599627370496) with 52. lia.
      * split; [lia |]. replace (f + 1 - f) with 1 by lia.
        change (Z.pos 4503599627370496 * 2 ^ 1) with (2 ^ (52 + 1)).
        rewrite <- HL52, <- HL1, <- Hpow. lia.
    + (* subnormal: the exponent stays *)
      rewrite Z.max_l in T1, T2 by lia.
      rewrite Z.pow_0_r, Z.div_1_r in T1. rewrite Z.add_0_r in T2. subst e2.
      rewrite T1. destruct m2 as [| p2 | p2] eqn:E2; try lia.
      exists p2, f. split; [reflexivity |]. split.
      * apply canonical_of_log2. rewrite HL2, HL1. lia.
      * split; [lia |]. rewrite Z.sub_diag, Z.pow_0_r. lia.
Qed.

(** Rounding a positive integer multiple of [2^e], [e] at least the least
    exponent: the result is positive, finite and canonical unless it
    overflows, and it is at most any power of two above the value. *)
Lemma binary_round_shape (s : bool) (D : positive) (e : Z) :
  -1074 <= e ->
  exists (m3 : positive) (e3 : Z),
    binary_round prec emax s D e
    = (if e3 <=? 971 then S754_finite s m3 e3 else S754_infinity s)
    /\ canonical_mantissa prec emax m3 e3 = true
    /\ (forall K, e <= K -> -1074 <= K -> Z.pos D < 2 ^ (K - e) ->
                  e3 <= K /\ Z.pos m3 <= 2 ^ (K - e3)).
Proof.
  intros He. unfold binary_round.
  set (f := fexp prec emax (Z.pos (digits2_pos D) + e)).
  assert (Hfv : f = Z.max (Z.log2 (Z.pos D) + 1 + e - 53) (-1074)).
  { unfold f. rewrite fexp_eq, digits2_pos_log2. reflexivity. }
  assert (HLD : 0 <= Z.log2 (Z.pos D)) by apply Z.log2_nonneg.
  destruct (shl_align D e f) as [mz ez] eqn:Esh.
  assert (Hsh : (f < e /\ Z.pos mz = Z.pos D * 2 ^ (e - f) /\ ez = f)
                \/ (e <= f /\ mz = D /\ ez = e)).
  { unfold shl_align in Esh. destruct (f - e) as [| d | d] eqn:Ed.
    - right. injection Esh as <- <-. split; [lia |]. split; reflexivity.
    - right. injection Esh as <- <-. split; [lia |]. split; reflexivity.
    - left. injection Esh as <- <-. split; [lia |]. split; [| reflexivity].
      fold (shift_pos d D). rewrite shift_pos_correct.
      replace (e - f) with (Z.pos d) by lia.
      change (Z.pow_pos 2 d) with (2 ^ Z.pos d). lia. }
  assert (Hpre : 0 < Z.pos mz /\ -1074 <= ez
                 /\ fexp prec emax (Zdigits2 (Z.pos mz) + ez) = f /\ ez <= f).
  { split; [lia |]. destruct Hsh as [(Hlt & Hmz & ->) | (Hle & -> & ->)].
    - split; [lia |]. split; [| lia].
      rewrite fexp_eq, Zdigits2_log2 by lia. rewrite Hmz.
      rewrite Z.log2_mul_pow2 by lia. lia.
    - split; [lia |]. split; [reflexivity | lia]. }
  destruct Hpre as (Hpos & Hez & Hfz & Hle).
  destruct (binary_round_aux_shape s (Z.pos mz) ez loc_Exact Hpos Hez
              ltac:(rewrite Hfz; exact Hle))
    as (m3 & e3 & Hr & Hcan & Hfe & Hb).
  rewrite Hfz in Hfe, Hb.
  exists m3, e3. split; [exact Hr |]. split; [exact Hcan |].
  intros K HK HK' HD.
  assert (Hf_le_K : f <= K).
  { assert (Z.log2 (Z.pos D) < K - e) by (apply Z.log2_lt_pow2; lia). lia. }
  assert (Hq : Z.pos mz / 2 ^ (f - ez) + 1 <= 2 ^ (K - f)).
  { destruct Hsh as [(Hlt & Hmz & ->) | (Hle' & -> & ->)].
    - rewrite Z.sub_diag, Z.pow_0_r, Z.div_1_r, Hmz.
      assert (Z.pos D + 1 <= 2 ^ (K - e)) by lia.
      assert (1 <= 2 ^ (e - f)) by (apply Z.pow_le_mono_r with (b := 0); lia).
      replace (K - f) with ((K - e) + (e - f)) by lia.
      rewrite Z.pow_add_r by lia. nia.
    - assert (Z.pos D / 2 ^ (f - e) < 2 ^ (K - f)); [| lia].
      apply Z.div_lt_upper_bound; [apply Z.pow_pos_nonneg; lia |].
      rewrite <- Z.pow_add_r by lia. replace (f - e + (K - f)) with (K - e) by lia.
      exact HD. }
  assert (Hm3 : Z.pos m3 * 2 ^ (e3 - f) <= 2 ^ (K - f)) by lia.
  assert (He3 : e3 <= K).
  { destruct (Z_le_gt_dec e3 K) as [| Hgt]; [assumption | exfalso].
    assert (2 ^ (K - f) < 2 ^ (e3 - f)) by (apply Z.pow_lt_mono_r; lia).
    assert (0 < 2 ^ (e3 - f)) by (apply Z.pow_pos_nonneg; lia). nia. }
  split; [exact He3 |].
  replace (K - f) with ((K - e3) + (e3 - f)) in Hm3 by lia.
  rewrite Z.pow_add_r in Hm3 by lia.
  assert (0 < 2 ^ (e3 - f)) by (apply Z.pow_pos_nonneg; lia). nia.
Qed.

(** Normalising a positive integer multiple of [2^e]. *)
Lemma binary_normalize_pos (D e : Z) :
  0 < D -> -1074 <= e ->
  exists (m3 : positive) (e3 : Z),
    binary_normalize prec emax D e false
    = (if e3 <=? 971 then S754_finite false m3 e3 else S754_infinity false)
    /\ canonical_mantissa prec emax m3 e3 = true.
Proof.
  intros HD He. destruct D as [| p | p]; try lia.
  destruct (binary_round_shape false p e He) as (m3 & e3 & Hr & Hc & _).
  exists m3, e3. split; [exact Hr | exact Hc].
Qed.

Lemma binary_normalize_pos_is_pos (D e : Z) :
  0 < D -> -1074 <= e ->
  SFltb (S754_zero false) (binary_normalize prec emax D e false) = true.
Proof.
  intros HD He.
  destruct (binary_normalize_pos D e HD He) as (m3 & e3 & -> & _).
  destruct (e3 <=? 971); reflexivity.
Qed.

Lemma SFcompare_finite_not_lt (s1 s2 : bool) (m1 m2 : positive) (e1 e2 : Z) :
  valid_binary (S754_finite s1 m1 e1) = true ->
  valid_binary (S754_finite s2 m2 e2) = true ->
  cond_Zopp s2 (Z.pos (fst (shl_align m2 e2 (Z.min e2 e1))))
  <= cond_Zopp s1 (Z.pos (fst (shl_align m1 e1 (Z.min e2 e1)))) ->
  SFcompare (S754_finite s1 m1 e1) (S754_finite s2 m2 e2) <> Some Lt.
Proof.
  intros V1 V2.
  rewrite !shl_align_value by lia.
  assert (V1' : valid_binary (S754_finite false m1 e1) = true) by exact V1.
  assert (V2' : valid_binary (S754_finite false m2 e2) = true) by exact V2.
  pose proof (aligned_lt_of_exp_lt m1 m2 e1 e2 V1' V2') as H12.
  pose proof (aligned_lt_of_exp_lt m2 m1 e2 e1 V2' V1') as H21.
  assert (P1 : 0 < 2 ^ (e1 - Z.min e2 e1)) by (apply Z.pow_pos_nonneg; lia).
  assert (P2 : 0 < 2 ^ (e2 - Z.min e2 e1)) by (apply Z.pow_pos_nonneg; lia).
  unfold SFcompare.
  destruct s1, s2; unfold cond_Zopp; intros H; try discriminate; try nia.
  - destruct (Z.compare_spec e1 e2) as [E | E | E].
    + subst e2. rewrite Z.min_id, Z.sub_diag, Z.pow_0_r in H.
      rewrite Pos.compare_cont_spec. simpl.
      destruct (Pos.compare_spec m1 m2); simpl; try discriminate; lia.
    + discriminate.
    + exfalso. specialize (H21 E). rewrite Z.min_l in H by lia.
      rewrite Z.sub_diag, Z.pow_0_r in H. lia.
  - destruct (Z.compare_spec e1 e2) as [E | E | E].
    + subst e2. rewrite Z.min_id, Z.sub_diag, Z.pow_0_r in H.
      rewrite Pos.compare_cont_spec. simpl.
      destruct (Pos.compare_spec m1 m2); simpl; try discriminate; lia.
    + exfalso. specialize (H12 E). rewrite Z.min_r in H by lia.
      rewrite Z.sub_diag, Z.pow_0_r in H. lia.
    + discriminate.
Qed.

(** The converse sign rule: when [y < x], the IEEE difference [x - y] is
    positive (it may round, but never down to zero). *)
Lemma SFsub_lt_pos (x y : spec_float) :
  valid_binary x = true -> valid_binary y = true ->
  SFltb y x = true ->
  SFltb (S754_zero false) (SFsub prec emax x y) = true.
Proof.
  intros Vx Vy.
  destruct x as [sx | sx | | sx mx ex], y as [sy | sy | | sy my ey];
    try (unfold SFsub, SFltb, SFcompare;
         repeat match goal with s : bool |- _ => destruct s end;
         intros; (reflexivity || discriminate)).
  unfold SFsub. intros Hlt.
  pose proof (valid_finite_inv _ _ _ Vx) as (Rx & _).
  pose proof (valid_finite_inv _ _ _ Vy) as (Ry & _).
  match goal with |- SFltb _ (binary_normalize _ _ ?d ?ez _) = true =>
    destruct (Z_lt_le_dec 0 d) as [Hd | Hd] end.
  - apply binary_normalize_pos_is_pos; [exact Hd |].
    change IntDef.Z.min with Z.min. lia.
  - exfalso. unfold SFltb in Hlt.
    pose proof (SFcompare_finite_not_lt sy sx my mx ey ex Vy Vx) as Hn.
    destruct (SFcompare (S754_finite sy my ey) (S754_finite sx mx ex))
      as [[| |] |] eqn:Ec; try discriminate.
    apply Hn; [| reflexivity]. lia.
Qed.

Lemma float_lt_sub_pos (x y : float) :
  (y <? x)%float = true -> (0 <? x - y)%float = true.
Proof.
  rewrite !ltb_spec, sub_spec. change (Prim2SF 0) with (S754_zero false).
  apply SFsub_lt_pos; apply Prim2SF_valid.
Qed.

(** *** Comparison with one *)

Lemma SFleb_finite_same_exp (m c : positive) (e : Z) :
  SFleb (S754_finite false m e) (S754_finite false c e) = (Z.pos m <=? Z.pos c).
Proof.
  unfold SFleb, SFcompare. rewrite Z.compare_refl, Pos.compare_cont_spec.
  unfold Z.leb. change (Z.pos m ?= Z.pos c) with (m ?= c)%positive.
  destruct (m ?= c)%positive; reflexivity.
Qed.

Lemma SFleb_finite_exp_lt (m c : positive) (e1 e2 : Z) :
  e1 < e2 -> SFleb (S754_finite false m e1) (S754_finite false c e2) = true.
Proof.
  intros H. unfold SFleb, SFcompare.
  rewrite (proj2 (Z.compare_lt_iff e1 e2) H). reflexivity.
Qed.

Lemma SFleb_finite_exp_gt (m c : positive) (e1 e2 : Z) :
  e2 < e1 -> SFleb (S754_finite false m e1) (S754_finite false c e2) = false.
Proof.
  intros H. unfold SFleb, SFcompare.
  rewrite (proj2 (Z.compare_gt_iff e1 e2) H). reflexivity.
Qed.

Lemma pow2_52 : 2 ^ 52 = 4503599627370496.
Proof. reflexivity. Qed.

Lemma SFleb_one_inv (m : positive) (e : Z) :
  valid_binary (S754_finite false m e) = true ->
  SFleb (S754_finite false m e) SFone = true ->
  e <= -52 /\ Z.pos m <= 2 ^ (- e).
Proof.
  intros V. pose proof (valid_finite_inv _ _ _ V) as (R & U & L).
  unfold SFone.
  destruct (Z.lt_total e (-52)) as [E | [E | E]].
  - intros _. split; [lia |].
    assert (2 ^ 53 <= 2 ^ (- e)) by (apply Z.pow_le_mono_r; lia). lia.
  - subst e. rewrite SFleb_finite_same_exp. intros H. apply Z.leb_le in H.
    split; [lia |]. exact H.
  - rewrite SFleb_finite_exp_gt by exact E. discriminate.
Qed.

Lemma SFleb_one_intro (m : positive) (e : Z) :
  valid_binary (S754_finite false m e) = true ->
  e <= 0 -> Z.pos m <= 2 ^ (- e) ->
  SFleb (S754_finite false m e) SFone = true.
Proof.
  intros V He Hm. pose proof (valid_finite_inv _ _ _ V) as (R & U & L).
  unfold SFone.
  destruct (Z.lt_total e (-52)) as [E | [E | E]].
  - apply SFleb_finite_exp_lt. exact E.
  - subst e. rewrite SFleb_finite_same_exp. apply Z.leb_le. exact Hm.
  - exfalso. specialize (L ltac:(lia)).
    assert (2 ^ (- e) < 2 ^ 52) by (apply Z.pow_lt_mono_r; lia). lia.
Qed.

Lemma SFsub_one_finite (m : positive) (e : Z) :
  e <= -52 ->
  SFsub prec emax SFone (S754_finite false m e)
  = binary_normalize prec emax (2 ^ (- e) - Z.pos m) e false.
Proof.
  intros He. unfold SFsub, SFone.
  change (IntDef.Z.min (-52) e) with (Z.min (-52) e).
  rewrite Z.min_r by lia.
  rewrite !shl_align_value by lia.
  rewrite Z.sub_diag, Z.pow_0_r, Z.mul_1_r. unfold cond_Zopp.
  rewrite <- pow2_52, <- Z.pow_add_r by lia.
  replace (52 + (-52 - e)) with (- e) by lia. reflexivity.
Qed.

Lemma SFsub_one_unit (p : spec_float) :
  valid_binary p = true ->
  SFleb (S754_zero false) p = true -> SFleb p SFone = true ->
  SFleb (S754_zero false) (SFsub prec emax SFone p) = true
  /\ SFleb (SFsub prec emax SFone p) SFone = true.
Proof.
  intros V H0 H1.
  destruct p as [s | s | | s m e]; try (destruct s; discriminate); try discriminate.
  - split; [reflexivity |]. unfold SFsub, SFone.
    rewrite SFleb_finite_same_exp. apply Z.leb_refl.
  - destruct s; [discriminate |].
    destruct (SFleb_one_inv m e V H1) as (He & Hm).
    pose proof (valid_finite_inv _ _ _ V) as (R & _).
    rewrite SFsub_one_finite by exact He.
    destruct (2 ^ (- e) - Z.pos m) as [| D | D] eqn:ED; try lia.
    + split; reflexivity.
    + unfold binary_normalize.
      destruct (binary_round_shape false D e ltac:(lia))
        as (m3 & e3 & Hr & Hc & Hb).
      destruct (Hb 0 ltac:(lia) ltac:(lia) ltac:(rewrite Z.sub_0_l; lia))
        as (He3 & Hm3).
      rewrite Hr. replace (e3 <=? 971) with true by (symmetry; apply Z.leb_le; lia).
      split; [reflexivity |].
      apply SFleb_one_intro; [| exact He3 | rewrite Z.sub_0_l in Hm3; exact Hm3].
      unfold SpecFloat.valid_binary, bounded. rewrite Hc.
      apply andb_true_intro. split; [reflexivity |].
      apply Z.leb_le. change (emax - prec) with 971. lia.
Qed.

Lemma float_one_minus_unit (p : float) :
  (0 <=? p)%float = true -> (p <=? 1)%float = true ->
  (0 <=? 1 - p)%float = true /\ (1 - p <=? 1)%float = true.
Proof.
  rewrite !leb_spec, sub_spec.
  change (Prim2SF 0) with (S754_zero false). change (Prim2SF 1) with SFone.
  apply SFsub_one_unit, Prim2SF_valid.
Qed.

Lemma SFltb_finite_same_exp (m c : positive) (e : Z) :
  SFltb (S754_finite false m e) (S754_finite false c e) = (Z.pos m <? Z.pos c).
Proof.
  unfold SFltb, SFcompare. rewrite Z.compare_refl, Pos.compare_cont_spec.
  unfold Z.ltb. change (Z.pos m ?= Z.pos c) with (m ?= c)%positive.
  destruct (m ?= c)%positive; reflexivity.
Qed.

Lemma SFltb_finite_exp_lt (m c : positive) (e1 e2 : Z) :
  e1 < e2 -> SFltb (S754_finite false m e1) (S754_finite false c e2) = true.
Proof.
  intros H. unfold SFltb, SFcompare.
  rewrite (proj2 (Z.compare_lt_iff e1 e2) H). reflexivity.
Qed.

Lemma SFltb_finite_exp_gt (m c : positive) (e1 e2 : Z) :
  e2 < e1 -> SFltb (S754_finite false m e1) (S754_finite false c e2) = false.
Proof.
  intros H. unfold SFltb, SFcompare.
  rewrite (proj2 (Z.compare_gt_iff e1 e2) H). reflexivity.
Qed.

(** A float from 0.5 up to, not including, 1 has exponent -53. *)
Lemma SF_half_to_one_inv (m : positive) (e : Z) :
  valid_binary (S754_finite false m e) = true ->
  SFleb SFhalf (S754_finite false m e) = true ->
  SFltb (S754_finite false m e) SFone = true ->
  e = -53 /\ 2 ^ 52 <= Z.pos m < 2 ^ 53.
Proof.
  intros V Hh H1. pose proof (valid_finite_inv _ _ _ V) as (R & U & L).
  unfold SFhalf in Hh. unfold SFone in H1.
  destruct (Z.lt_total e (-53)) as [E | [E | E]].
  - rewrite SFleb_finite_exp_gt in Hh by exact E. discriminate.
  - split; [exact E |]. split; [apply L; lia | exact U].
  - exfalso. destruct (Z.lt_total e (-52)) as [E' | [E' | E']]; [lia | |].
    + subst e. rewrite SFltb_finite_same_exp in H1. apply Z.ltb_lt in H1.
      specialize (L ltac:(lia)). rewrite pow2_52 in L. lia.
    + rewrite SFltb_finite_exp_gt in H1 by exact E'. discriminate.
Qed.

Lemma SFltb_one_intro (m : positive) (e : Z) :
  valid_binary (S754_finite false m e) = true ->
  e <= -1 -> Z.pos m <= 2 ^ (-1 - e) ->
  SFltb (S754_finite false m e) SFone = true.
Proof.
  intros V He Hm. pose proof (valid_finite_inv _ _ _ V) as (R & U & L).
  unfold SFone.
  destruct (Z.lt_total e (-52)) as [E | [E | E]].
  - apply SFltb_finite_exp_lt. exact E.
  - subst e. exfalso. specialize (L ltac:(lia)).
    change (2 ^ (-1 - -52)) with (2 ^ 51) in Hm.
    assert (2 ^ 51 < 2 ^ 52) by (apply Z.pow_lt_mono_r; lia). lia.
  - exfalso. specialize (L ltac:(lia)).
    assert (2 ^ (-1 - e) < 2 ^ 52) by (apply Z.pow_lt_mono_r; lia). lia.
Qed.

(** For [p] from 0.5 up to, not including, 1 the difference [1 - p] is
    strictly between 0 and 1. *)
Lemma SFsub_one_strict (p : spec_float) :
  valid_binary p = true ->
  SFleb SFhalf p = true -> SFltb p SFone = true ->
  SFltb (S754_zero false) (SFsub prec emax SFone p) = true
  /\ SFltb (SFsub prec emax SFone p) SFone = true.
Proof.
  intros V Hh H1. split.
  { apply SFsub_lt_pos; [reflexivity | exact V | exact H1]. }
  destruct p as [s | s | | s m e]; try (destruct s; discriminate); try discriminate.
  destruct s; [discriminate |].
  destruct (SF_half_to_one_inv m e V Hh H1) as (-> & Hlo & Hhi).
  rewrite SFsub_one_finite by lia.
  change (2 ^ (- -53)) with (2 ^ 53).
  destruct (2 ^ 53 - Z.pos m) as [| D | D] eqn:ED; try lia.
  destruct (Z.eq_dec (Z.pos D) (2 ^ 52)) as [E | NE].
  - rewrite pow2_52 in E. injection E as ->. vm_compute. reflexivity.
  - unfold binary_normalize.
    destruct (binary_round_shape false D (-53) ltac:(lia))
      as (m3 & e3 & Hr & Hc & Hb).
    destruct (Hb (-1) ltac:(lia) ltac:(lia)
                 ltac:(change (2 ^ (-1 - -53)) with (2 ^ 52); lia))
      as (He3 & Hm3).
    rewrite Hr. replace (e3 <=? 971) with true by (symmetry; apply Z.leb_le; lia).
    apply SFltb_one_intro; [| exact He3 | exact Hm3].
    unfold SpecFloat.valid_binary, bounded. rewrite Hc.
    apply andb_true_intro. split; [reflexivity |].
    apply Z.leb_le. change (emax - prec) with 971. lia.
Qed.

Lemma float_one_minus_strict (p : float) :
  (0.5 <=? p)%float = true -> (p <? 1)%float = true ->
  (0 <? 1 - p)%float = true /\ (1 - p <? 1)%float = true.
Proof.
  rewrite leb_spec, !ltb_spec, sub_spec.
  change (Prim2SF 0) with (S754_zero false). change (Prim2SF 1) with SFone.
  change (Prim2SF 0.5) with SFhalf.
  apply SFsub_one_strict, Prim2SF_valid.
Qed.

Lemma binary_round_aux_sign (s : bool) (m e : Z) (l : location) :
  sf_is_nan (binary_round_aux prec emax s m e l) = true
  \/ sf_sign_pos (binary_round_aux prec emax s m e l) = negb s.
Proof.
  unfold binary_round_aux.
  destruct (shr_fexp prec emax m e l) as [mrs' e'].
  destruct (shr_fexp prec emax _ e' loc_Exact) as [mrs'' e''].
  destruct (shr_m mrs''); [right; reflexivity | | left; reflexivity].
  destruct (e'' <=? emax - prec); right; reflexivity.
Qed.

(** A quotient of two floats with a clear sign bit is NaN or has a clear
    sign bit. *)
Lemma SFdiv_sign_pos (x y : spec_float) :
  sf_sign_pos x = true -> sf_sign_pos y = true ->
  sf_is_nan (SFdiv prec emax x y) = true
  \/ sf_sign_pos (SFdiv prec emax x y) = true.
Proof.
  destruct x as [sx | sx | | sx mx ex], y as [sy | sy | | sy my ey];
    simpl sf_sign_pos; intros Hx Hy; try discriminate;
    try (destruct sx; [discriminate |]); try (destruct sy; [discriminate |]);
    try (left; reflexivity); try (right; reflexivity).
  unfold SFdiv.
  destruct (SFdiv_core_binary prec emax (Z.pos mx) ex (Z.pos my) ey) as [[mz ez] lz].
  apply binary_round_aux_sign.
Qed.

Lemma SFdiv_nan_l (y : spec_float) : SFdiv prec emax S754_nan y = S754_nan.
Proof. reflexivity. Qed.

Lemma SFdiv_nan_r (x : spec_float) : SFdiv prec emax x S754_nan = S754_nan.
Proof. destruct x; reflexivity. Qed.

Lemma sf_is_nan_eq (r : spec_float) : sf_is_nan r = true -> r = S754_nan.
Proof. destruct r; try discriminate; reflexivity. Qed.

Lemma SFltb_zero_sign_pos (r : spec_float) :
  SFltb (S754_zero false) r = true -> sf_sign_pos r = true.
Proof. destruct r as [s | s | | s m e]; try destruct s; try discriminate; reflexivity. Qed.

(** A finite float, seen through its specification. *)
Lemma is_finite_spec (x : float) :
  is_finite x = true ->
  match Prim2SF x with
  | S754_zero _ | S754_finite _ _ _ => True
  | _ => False
  end.
Proof.
  intros H. rewrite <- (SF2Prim_Prim2SF x) in H.
  destruct (Prim2SF x) as [s | s | | s m e]; try exact I.
  - destruct s; discriminate H.
  - discriminate H.
Qed.

Lemma nonneg_of_sign_pos_finite (x : float) :
  sf_sign_pos (Prim2SF x) = true -> is_finite x = true ->
  (0 <=? x)%float = true.
Proof.
  intros Hs Hf. apply is_finite_spec in Hf.
  rewrite leb_spec. change (Prim2SF 0) with (S754_zero false).
  destruct (Prim2SF x) as [s | s | | s m e]; try contradiction.
  - reflexivity.
  - destruct s; [discriminate | reflexivity].
Qed.

Lemma is_zero_finite (x : float) (s : bool) (m : positive) (e : Z) :
  Prim2SF x = S754_finite s m e -> is_zero x = false.
Proof.
  intros H. unfold is_zero. rewrite FloatAxioms.eqb_spec, H.
  change (Prim2SF PrimFloat.zero) with (S754_zero false). destruct s; reflexivity.
Qed.

(** [float(n)] for a positive int is a positive finite float. *)
Lemma float_of_int_pos_spec (n : Z) (f : float) :
  0 < n ->
  SF2Prim (binary_normalize prec emax n 0 false) = f ->
  is_infinity f = false ->
  exists m e, Prim2SF f = S754_finite false m e.
Proof.
  intros Hn Hf Hi.
  destruct (binary_normalize_pos n 0 Hn ltac:(lia)) as (m3 & e3 & Hr & Hc).
  rewrite Hr in Hf. destruct (e3 <=? 971) eqn:E.
  - exists m3, e3. rewrite <- Hf. apply Prim2SF_SF2Prim.
    unfold SpecFloat.valid_binary, bounded. rewrite Hc.
    apply andb_true_intro. split; [reflexivity | exact E].
  - subst f. discriminate Hi.
Qed.

(** *** Python's division by a positive int *)

Lemma float_of_int_pos (n : Z) (f : float) :
  0 < n -> float_of_int n = Return f ->
  exists m e, Prim2SF f = S754_finite false m e.
Proof.
  intros Hn H. unfold float_of_int in H.
  destruct (is_infinity (SF2Prim (binary_normalize prec emax n 0 false))) eqn:E;
    [discriminate |].
  injection H as H. apply (float_of_int_pos_spec n f Hn H).
  rewrite <- H. exact E.
Qed.

Lemma float_div_int_pos (x : float) (n : Z) (f : float) :
  0 < n -> float_of_int n = Return f ->
  float_div_int x n = Return (x / f)%float
  /\ sf_sign_pos (Prim2SF f) = true.
Proof.
  intros Hn H. destruct (float_of_int_pos n f Hn H) as (m & e & Hf).
  unfold float_div_int. rewrite H. cbn [rbind]. unfold float_truediv.
  rewrite (is_zero_finite f false m e Hf). rewrite Hf. split; reflexivity.
Qed.

Lemma float_div_sign_pos (x y : float) :
  sf_sign_pos (Prim2SF x) = true -> sf_sign_pos (Prim2SF y) = true ->
  Prim2SF (x / y) = S754_nan \/ sf_sign_pos (Prim2SF (x / y)) = true.
Proof.
  intros Hx Hy. rewrite div_spec.
  destruct (SFdiv_sign_pos _ _ Hx Hy) as [H | H]; [left | right; exact H].
  apply sf_is_nan_eq, H.
Qed.

Lemma float_ltb_zero_sign_pos (x : float) :
  (0 <? x)%float = true -> sf_sign_pos (Prim2SF x) = true.
Proof. rewrite ltb_spec. apply SFltb_zero_sign_pos. Qed.

Lemma is_finite_not_nan (x : float) :
  is_finite x = true -> Prim2SF x <> S754_nan.
Proof. intros H E. apply is_finite_spec in H. rewrite E in H. exact H. Qed.

Lemma float_div_int_zero (x : float) :
  float_div_int x 0 = Raise ZeroDivisionError.
Proof. reflexivity. Qed.

(** ** The F-test *)

Section FTEST_FACTS.

Variable fdtr : Z -> Z -> float -> float.

Lemma Ftest_not_lower (chi2_1 : float) (dof_1 : Z)
    (chi2_2 : float) (dof_2 : Z) :
  (chi2_2 <? chi2_1)%float = false ->
  Ftest fdtr chi2_1 dof_1 chi2_2 dof_2 = Return (PyBool false).
Proof.
  intros H. unfold Ftest.
  destruct (0 <? chi2_1 - chi2_2)%float eqn:E; [| reflexivity].
  apply float_sub_pos_lt in E. congruence.
Qed.

(** C2. Whenever the candidate chi-squared [chi2_2] is not lower than the
    baseline [chi2_1] (larger, equal, or unordered because of a NaN),
    [Ftest] returns the bool [False], not a float, and raises nothing. *)
Theorem Ftest_not_lower_is_False (chi2_1 : float) (dof_1 : Z)
    (chi2_2 : float) (dof_2 : Z) :
  (chi2_2 <? chi2_1)%float = false ->
  Ftest fdtr chi2_1 dof_1 chi2_2 dof_2 = Return (PyBool false).
Proof.
  intros H. unfold Ftest.
  destruct (0 <? chi2_1 - chi2_2)%float eqn:E; [| reflexivity].
  apply float_sub_pos_lt in E. rewrite E in H. discriminate H.
Qed.

Lemma Ftest_numeric_needs_dof_change (chi2_1 : float) (dof_1 : Z)
    (chi2_2 : float) (dof_2 : Z) (v : pyval) :
  (0 <? chi2_1 - chi2_2)%float = true ->
  Ftest fdtr chi2_1 dof_1 chi2_2 dof_2 = Return v ->
  dof_1 <> dof_2.
Proof.
  intros E H Heq. subst dof_2. unfold Ftest in H. rewrite E in H.
  rewrite Z.sub_diag, float_div_int_zero in H.
  destruct (float_div_int chi2_2 dof_1); discriminate.
Qed.

(** C9. [Ftest] is partial in the degrees of freedom: with
    [chi2_1 > chi2_2] and [dof_1 = dof_2] it raises [ZeroDivisionError]
    (shown at 120, 50, 100, 50); whenever it returns a number the two
    degrees of freedom differ; and the caller in [epochalyptica] calls it
    only when they differ, answering [False] itself when they are equal. *)
Theorem Ftest_equal_dof_divides_by_zero :
  ((100 <? 120)%float = true
   /\ Ftest fdtr 120 50 100 50 = Raise ZeroDivisionError)
  /\ (forall chi2_1 dof_1 chi2_2 dof_2 p,
        Ftest fdtr chi2_1 dof_1 chi2_2 dof_2 = Return (PyFloat p) ->
        dof_1 <> dof_2)
  /\ (forall chi2_init chi2 ndof thr,
        epoch_ftest fdtr chi2_init ndof chi2 ndof thr
        = Return (PyBool false, false))
  /\ (forall chi2_init ndof_init chi2 ndof thr,
        ndof_init <> ndof ->
        epoch_ftest fdtr chi2_init ndof_init chi2 ndof thr
        = rbind (Ftest fdtr chi2_init ndof_init chi2 ndof)
                (fun ftest => Return (ftest, py_lt ftest thr))).
Proof.
  split; [split; reflexivity |]. split; [| split].
  - intros chi2_1 dof_1 chi2_2 dof_2 p H.
    destruct (0 <? chi2_1 - chi2_2)%float eqn:E.
    + eapply Ftest_numeric_needs_dof_change; eassumption.
    + unfold Ftest in H. rewrite E in H. discriminate.
  - intros. unfold epoch_ftest. rewrite Z.eqb_refl. reflexivity.
  - intros chi2_init ndof_init chi2 ndof thr H. unfold epoch_ftest.
    destruct (Z.eqb_spec ndof_init ndof); [contradiction | reflexivity].
Qed.

(** C1. An epoch whose refit changes the degrees of freedom but does not
    lower chi-squared gets the sentinel [False] from [Ftest]; the test
    [ftest < ftest_threshold] then compares [False] as 0, so with a
    positive threshold the epoch is recorded as to drop although no
    F-test value is below the threshold. *)
Theorem sentinel_epoch_is_dropped (chi2_init : float) (ndof_init : Z)
    (chi2 : float) (ndof : Z) (ftest_threshold : float) :
  ndof_init <> ndof ->
  (chi2 <? chi2_init)%float = false ->
  (0 <? ftest_threshold)%float = true ->
  epoch_ftest fdtr chi2_init ndof_init chi2 ndof ftest_threshold
  = Return (PyBool false, true).
Proof.
  intros Hd Hc Ht. unfold epoch_ftest.
  destruct (Z.eqb_spec ndof_init ndof); [contradiction |].
  simpl negb. cbv iota.
  rewrite Ftest_not_lower by exact Hc.
  simpl. rewrite Ht. reflexivity.
Qed.

(** For a numeric F-test value the decision is the comparison with the
    threshold. *)
Lemma numeric_epoch_dropped_iff_below (chi2_init : float) (ndof_init : Z)
    (chi2 : float) (ndof : Z) (ftest_threshold p : float) :
  ndof_init <> ndof ->
  Ftest fdtr chi2_init ndof_init chi2 ndof = Return (PyFloat p) ->
  epoch_ftest fdtr chi2_init ndof_init chi2 ndof ftest_threshold
  = Return (PyFloat p, (p <? ftest_threshold)%float).
Proof.
  intros Hd Hf. unfold epoch_ftest.
  destruct (Z.eqb_spec ndof_init ndof); [contradiction |].
  simpl negb. cbv iota. rewrite Hf. reflexivity.
Qed.

(** When chi-squared improves and both conversions of the degrees of
    freedom succeed, [Ftest] raises [ZeroDivisionError] if the new reduced
    chi-squared was rounded to zero, and returns the survival function at
    the statistic otherwise. *)
Lemma Ftest_numeric_value (chi2_1 : float) (dof_1 : Z)
    (chi2_2 : float) (dof_2 : Z) (fa fb : float) :
  (chi2_2 <? chi2_1)%float = true ->
  0 < dof_2 < dof_1 ->
  float_of_int (dof_1 - dof_2) = Return fa ->
  float_of_int dof_2 = Return fb ->
  let F := ((chi2_1 - chi2_2) / fa / (chi2_2 / fb))%float in
  Ftest fdtr chi2_1 dof_1 chi2_2 dof_2
  = if is_zero (chi2_2 / fb) then Raise ZeroDivisionError
    else Return (PyFloat (1 - fdtr (dof_1 - dof_2) dof_2 F)%float).
Proof.
  intros Hlt Hdof Hfa Hfb F.
  pose proof (float_lt_sub_pos _ _ Hlt) as Hd.
  destruct (float_div_int_pos chi2_2 dof_2 fb ltac:(lia) Hfb) as (Eb & Sb).
  destruct (float_div_int_pos (chi2_1 - chi2_2) (dof_1 - dof_2) fa ltac:(lia) Hfa)
    as (Ea & Sa).
  unfold Ftest. rewrite Hd, Eb. cbn [rbind]. rewrite Ea. cbn [rbind].
  unfold float_truediv. destruct (is_zero (chi2_2 / fb)); reflexivity.
Qed.

(** A finite statistic is not negative. *)
Lemma Ftest_statistic_nonneg (chi2_1 chi2_2 : float) (dof_1 dof_2 : Z)
    (fa fb : float) :
  (chi2_2 <? chi2_1)%float = true -> (0 <? chi2_2)%float = true ->
  0 < dof_2 < dof_1 ->
  float_of_int (dof_1 - dof_2) = Return fa ->
  float_of_int dof_2 = Return fb ->
  let F := ((chi2_1 - chi2_2) / fa / (chi2_2 / fb))%float in
  is_finite F = true -> (0 <=? F)%float = true.
Proof.
  intros Hlt Hpos Hdof Hfa Hfb F HF.
  pose proof (float_lt_sub_pos _ _ Hlt) as Hd.
  destruct (float_div_int_pos chi2_2 dof_2 fb ltac:(lia) Hfb) as (Eb & Sb).
  destruct (float_div_int_pos (chi2_1 - chi2_2) (dof_1 - dof_2) fa ltac:(lia) Hfa)
    as (Ea & Sa).
  apply nonneg_of_sign_pos_finite; [| exact HF].
  pose proof (is_finite_not_nan F HF) as Hnn.
  destruct (float_div_sign_pos _ _ (float_ltb_zero_sign_pos _ Hd) Sa)
    as [Na | Pa].
  { exfalso. apply Hnn. unfold F. rewrite div_spec, Na. reflexivity. }
  destruct (float_div_sign_pos _ _ (float_ltb_zero_sign_pos _ Hpos) Sb)
    as [Nb | Pb].
  { exfalso. apply Hnn. unfold F. rewrite div_spec, Nb. apply SFdiv_nan_r. }
  destruct (float_div_sign_pos _ _ Pa Pb) as [N | P];
    [contradiction | exact P].
Qed.

(** C3, as the code has it.  For [chi2_1 > chi2_2 > 0] and
    [dof_1 > dof_2 > 0] whose two degrees of freedom convert to floats,
    with [F = ((chi2_1 - chi2_2) / (dof_1 - dof_2)) / (chi2_2 / dof_2)] and
    [p = fdtr(dof_1 - dof_2, dof_2, F)]:
    - if the new reduced chi-squared [chi2_2 / dof_2] is rounded to zero,
      [Ftest] raises [ZeroDivisionError];
    - otherwise [Ftest] returns the float [1 - p], whatever [F] is;
    - that float lies in [[0,1]] whenever [p] does, which is the case when
      [F] is finite and [fdtr] takes its values in [[0,1]] on finite,
      non-negative arguments; and it lies strictly between 0 and 1 when
      [0.5 <= p < 1].
    At 120, 50, 100, 48 the statistic is the double nearest 4.8 and the
    result is [1 - fdtr(2, 48, F)], with the same bounds. *)
Theorem Ftest_value_in_unit_interval :
  (forall chi2_1 dof_1 chi2_2 dof_2 fa fb,
      (chi2_2 <? chi2_1)%float = true -> (0 <? chi2_2)%float = true ->
      0 < dof_2 < dof_1 ->
      float_of_int (dof_1 - dof_2) = Return fa ->
      float_of_int dof_2 = Return fb ->
      let F := ((chi2_1 - chi2_2) / fa / (chi2_2 / fb))%float in
      let p := fdtr (dof_1 - dof_2) dof_2 F in
      (is_zero (chi2_2 / fb) = true ->
       Ftest fdtr chi2_1 dof_1 chi2_2 dof_2 = Raise ZeroDivisionError)
      /\ (is_zero (chi2_2 / fb) = false ->
          Ftest fdtr chi2_1 dof_1 chi2_2 dof_2 = Return (PyFloat (1 - p)%float))
      /\ ((0 <=? p)%float = true -> (p <=? 1)%float = true ->
          (0 <=? 1 - p)%float = true /\ (1 - p <=? 1)%float = true)
      /\ (fdtr_in_unit_interval fdtr -> is_finite F = true ->
          (0 <=? 1 - p)%float = true /\ (1 - p <=? 1)%float = true)
      /\ ((0.5 <=? p)%float = true -> (p <? 1)%float = true ->
          (0 <? 1 - p)%float = true /\ (1 - p <? 1)%float = true))
  /\ (let p := fdtr 2 48 0x1.3333333333333p+2 in
      Ftest fdtr 120 50 100 48 = Return (PyFloat (1 - p)%float)
      /\ ((0 <=? p)%float = true -> (p <=? 1)%float = true ->
          (0 <=? 1 - p)%float = true /\ (1 - p <=? 1)%float = true)
      /\ (fdtr_in_unit_interval fdtr ->
          (0 <=? 1 - p)%float = true /\ (1 - p <=? 1)%float = true)
      /\ ((0.5 <=? p)%float = true -> (p <? 1)%float = true ->
          (0 <? 1 - p)%float = true /\ (1 - p <? 1)%float = true)).
Proof.
  assert (Hgen : forall chi2_1 dof_1 chi2_2 dof_2 fa fb,
      (chi2_2 <? chi2_1)%float = true -> (0 <? chi2_2)%float = true ->
      0 < dof_2 < dof_1 ->
      float_of_int (dof_1 - dof_2) = Return fa ->
      float_of_int dof_2 = Return fb ->
      let F := ((chi2_1 - chi2_2) / fa / (chi2_2 / fb))%float in
      let p := fdtr (dof_1 - dof_2) dof_2 F in
      (is_zero (chi2_2 / fb) = true ->
       Ftest fdtr chi2_1 dof_1 chi2_2 dof_2 = Raise ZeroDivisionError)
      /\ (is_zero (chi2_2 / fb) = false ->
          Ftest fdtr chi2_1 dof_1 chi2_2 dof_2 = Return (PyFloat (1 - p)%float))
      /\ ((0 <=? p)%float = true -> (p <=? 1)%float = true ->
          (0 <=? 1 - p)%float = true /\ (1 - p <=? 1)%float = true)
      /\ (fdtr_in_unit_interval fdtr -> is_finite F = true ->
          (0 <=? 1 - p)%float = true /\ (1 - p <=? 1)%float = true)
      /\ ((0.5 <=? p)%float = true -> (p <? 1)%float = true ->
          (0 <? 1 - p)%float = true /\ (1 - p <? 1)%float = true)).
  { intros chi2_1 dof_1 chi2_2 dof_2 fa fb Hlt Hpos Hdof Hfa Hfb F p.
    pose proof (Ftest_numeric_value chi2_1 dof_1 chi2_2 dof_2 fa fb
                  Hlt Hdof Hfa Hfb) as Hv.
    cbv zeta in Hv. fold F in Hv. fold p in Hv.
    split; [intros Hz; rewrite Hz in Hv; exact Hv |].
    split; [intros Hz; rewrite Hz in Hv; exact Hv |].
    split; [apply float_one_minus_unit |].
    split; [| apply float_one_minus_strict].
    intros Hfdtr HF.
    pose proof (Ftest_statistic_nonneg chi2_1 chi2_2 dof_1 dof_2 fa fb
                  Hlt Hpos Hdof Hfa Hfb HF) as H0.
    destruct (Hfdtr (dof_1 - dof_2) dof_2 F ltac:(lia) ltac:(lia) H0 HF)
      as (L & U).
    apply float_one_minus_unit; assumption. }
  split; [exact Hgen |].
  destruct (Hgen 120%float 50 100%float 48 2%float 48%float
              eq_refl eq_refl ltac:(lia) eq_refl eq_refl)
    as (_ & Hret & Hunit & Hcontract & Hstrict).
  split; [apply Hret; reflexivity |].
  split; [exact Hunit |].
  split; [intros Hfdtr; apply Hcontract; [exact Hfdtr | reflexivity] |].
  exact Hstrict.
Qed.

End FTEST_FACTS.

Lemma Ftest_not_lower_is_False_witness :
  (110 <? 100)%float = false
  /\ Ftest Toy.fdtr 100 50 110 48 = Return (PyBool false).
Proof.
  split; [reflexivity |].
  apply (Ftest_not_lower_is_False Toy.fdtr 100 50 110 48). reflexivity.
Defined.

Lemma Ftest_equal_dof_witness :
  Ftest Toy.fdtr 120 50 100 48 = Return (PyFloat 0.015625) /\ 50 <> 48.
Proof.
  split; [reflexivity |].
  apply (proj1 (proj2 (Ftest_equal_dof_divides_by_zero Toy.fdtr))
           120%float 50 100%float 48 0.015625%float).
  reflexivity.
Defined.

Lemma sentinel_epoch_is_dropped_witness :
  50 <> 48 /\ (110 <? 100)%float = false
  /\ (0 <? Toy.ftest_threshold)%float = true
  /\ epoch_ftest Toy.fdtr 100 50 110 48 Toy.ftest_threshold
     = Return (PyBool false, true).
Proof.
  assert (H : 50 <> 48) by lia.
  split; [exact H |]. split; [reflexivity |]. split; [reflexivity |].
  apply (sentinel_epoch_is_dropped Toy.fdtr 100 50 110 48 Toy.ftest_threshold);
    [exact H | reflexivity | reflexivity].
Defined.

Lemma Toy_fdtr_in_unit_interval : fdtr_in_unit_interval Toy.fdtr.
Proof.
  intros a b x Ha Hb H0 _. unfold Toy.fdtr.
  rewrite (proj2 (Z.ltb_lt 0 a) Ha), (proj2 (Z.ltb_lt 0 b) Hb), H0. cbn [andb].
  destruct (x <? 1)%float; [split; reflexivity |].
  destruct (x <? 4)%float; [split; reflexivity |].
  destruct (x <? 100)%float; split; reflexivity.
Qed.

Lemma Ftest_value_witness :
  ((100 <? 120)%float = true /\ (0 <? 100)%float = true /\ 0 < 48 < 50
   /\ float_of_int (50 - 48) = Return 2%float
   /\ float_of_int 48 = Return 48%float
   /\ is_zero (100 / 48) = false
   /\ is_finite (((120 - 100) / 2) / (100 / 48)) = true
   /\ (0.5 <=? 0.984375)%float = true /\ (0.984375 <? 1)%float = true)
  /\ (Ftest Toy.fdtr 120 50 100 48 = Return (PyFloat 0.015625)
      /\ (0 <? 0.015625)%float = true /\ (0.015625 <? 1)%float = true
      /\ (0 <=? 0.015625)%float = true /\ (0.015625 <=? 1)%float = true)
  /\ ((0x0.0000000000001p-1022 <? 1)%float = true
      /\ (0 <? 0x0.0000000000001p-1022)%float = true /\ 0 < 4 < 5
      /\ is_zero (0x0.0000000000001p-1022 / 4) = true
      /\ Ftest Toy.fdtr 1 5 0x0.0000000000001p-1022 4 = Raise ZeroDivisionError).
Proof.
  split.
  { split; [reflexivity |]. split; [reflexivity |]. split; [lia |].
    repeat split; reflexivity. }
  split.
  - destruct (proj1 (Ftest_value_in_unit_interval Toy.fdtr)
                120%float 50 100%float 48 2%float 48%float
                eq_refl eq_refl ltac:(lia) eq_refl eq_refl)
      as (_ & Hret & _ & Hcontract & Hstrict).
    split; [exact (Hret eq_refl) |].
    destruct (Hstrict eq_refl eq_refl) as (S0 & S1).
    destruct (Hcontract Toy_fdtr_in_unit_interval eq_refl) as (U0 & U1).
    split; [exact S0 |]. split; [exact S1 |]. split; [exact U0 | exact U1].
  - split; [reflexivity |]. split; [reflexivity |]. split; [lia |].
    split; [reflexivity |].
    destruct (proj1 (Ftest_value_in_unit_interval Toy.fdtr)
                1%float 5 0x0.0000000000001p-1022%float 4 1%float 4%float
                eq_refl eq_refl ltac:(lia) eq_refl eq_refl)
      as (Hraise & _).
    exact (Hraise eq_refl).
Defined.

(** With [chi2_1 > chi2_2 > 0] and [dof_1 > dof_2 > 0] the call can still
    raise: for the least positive double as [chi2_2], [chi2_2 / dof_2]
    rounds to zero and the next division raises [ZeroDivisionError]. *)
Lemma Ftest_underflow_divides_by_zero :
  ((0x0.0000000000001p-1022 <? 1)%float = true
   /\ (0 <? 0x0.0000000000001p-1022)%float = true /\ 0 < 4 < 5)
  /\ Ftest Toy.fdtr 1 5 0x0.0000000000001p-1022 4 = Raise ZeroDivisionError.
Proof. split; [split; [reflexivity | split; [reflexivity | lia]] | reflexivity]. Qed.

Lemma map_result_Forall2 {A B} (f : A -> result B) (l : list A) (ys : list B) :
  map_result f l = Return ys -> Forall2 (fun x y => f x = Return y) l ys.
Proof.
  revert ys. induction l as [| x l IH]; intros ys H.
  - injection H as <-. constructor.
  - cbn [map_result] in H.
    destruct (f x) as [y |] eqn:Ex; [| discriminate]. cbn [rbind] in H.
    destruct (map_result f l) as [ys' |]; [| discriminate].
    injection H as <-. constructor; [exact Ex | apply IH; reflexivity].
Qed.

(** ** The dispersion-window search *)

Lemma parse_nat_zero (s : string) :
  parse_nat (String "0" s) = parse_nat s.
Proof.
  unfold parse_nat. cbn [NilEmpty.uint_of_string].
  destruct (NilEmpty.uint_of_string s); reflexivity.
Qed.

Lemma parse_nat_zeros (k : nat) (s : string) :
  parse_nat (zeros k +:+ s) = parse_nat s.
Proof.
  induction k as [| k IH]; [reflexivity |].
  change (zeros (S k) +:+ s) with (String "0" (zeros k +:+ s)).
  rewrite parse_nat_zero. exact IH.
Qed.

Lemma parse_format_04d (i : nat) : parse_nat (format_04d i) = Some i.
Proof.
  unfold format_04d. rewrite parse_nat_zeros. unfold parse_nat.
  rewrite NilEmpty.usu. cbn [option_map]. rewrite Unsigned.of_to. reflexivity.
Qed.

Lemma format_04d_inj (i j : nat) : format_04d i = format_04d j -> i = j.
Proof.
  intros H. apply (f_equal parse_nat) in H.
  rewrite !parse_format_04d in H. congruence.
Qed.

Lemma DMXR1_inj (a b : string) : DMXR1 a = DMXR1 b -> a = b.
Proof.
  unfold DMXR1. intros H.
  change ("DMXR1_" +:+ a) with
    (String "D" (String "M" (String "X" (String "R" (String "1" (String "_" a)))))) in H.
  change ("DMXR1_" +:+ b) with
    (String "D" (String "M" (String "X" (String "R" (String "1" (String "_" b)))))) in H.
  congruence.
Qed.

Section DMX_SEARCH.

Variable m : TimingModel.
Variable c : gmap string float.
Variable toaval : float.
Hypothesis Hc : components m !! "DispersionDMX" = Some c.

Abbreviation window := (window c).
Abbreviation passed := (passed c toaval).

Lemma dmx_search_step (fuel i : nat) :
  dmx_search (S fuel) m toaval i
  = match c !! DMXR1 (format_04d i) with
    | None => Some (Raise (AttributeError (DMXR1 (format_04d i))))
    | Some lo =>
        match c !! DMXR2 (format_04d i) with
        | None => Some (Raise (AttributeError (DMXR2 (format_04d i))))
        | Some hi =>
            if strictly_inside lo hi toaval
            then Some (Return (format_04d i, lo, hi))
            else dmx_search fuel m toaval (S i)
        end
    end.
Proof.
  cbn [dmx_search]. unfold get_component, getattr_value. rewrite Hc.
  destruct (c !! DMXR1 (format_04d i)); [| reflexivity].
  destruct (c !! DMXR2 (format_04d i)); reflexivity.
Qed.

Lemma dmx_search_return (fuel i : nat) (idx : string) (lo hi : float) :
  dmx_search fuel m toaval i = Some (Return (idx, lo, hi)) ->
  exists k, (i <= k)%nat /\ idx = format_04d k /\ window k lo hi
            /\ strictly_inside lo hi toaval = true
            /\ forall j, (i <= j < k)%nat -> passed j.
Proof.
  revert i. induction fuel as [| fuel IH]; intros i H; [discriminate |].
  rewrite dmx_search_step in H.
  destruct (c !! DMXR1 (format_04d i)) as [l |] eqn:E1; [| discriminate].
  destruct (c !! DMXR2 (format_04d i)) as [h |] eqn:E2; [| discriminate].
  destruct (strictly_inside l h toaval) eqn:Ei.
  - injection H as <- <- <-. exists i.
    split; [lia |]. split; [reflexivity |]. split; [split; assumption |].
    split; [exact Ei |]. intros j Hj. lia.
  - apply IH in H as (k & Hk & -> & Hw & Hin & Hp).
    exists k. split; [lia |]. split; [reflexivity |]. split; [exact Hw |].
    split; [exact Hin |]. intros j Hj.
    destruct (decide (j = i)) as [-> | Hne].
    + exists l, h. split; [split; assumption | exact Ei].
    + apply Hp. lia.
Qed.

Lemma dmx_search_raise (fuel i : nat) (e : exn) :
  dmx_search fuel m toaval i = Some (Raise e) ->
  exists k, (i <= k)%nat
            /\ (forall j, (i <= j < k)%nat -> passed j)
            /\ ((e = AttributeError (DMXR1 (format_04d k))
                 /\ c !! DMXR1 (format_04d k) = None)
                \/ (e = AttributeError (DMXR2 (format_04d k))
                    /\ is_Some (c !! DMXR1 (format_04d k))
                    /\ c !! DMXR2 (format_04d k) = None)).
Proof.
  revert i. induction fuel as [| fuel IH]; intros i H; [discriminate |].
  rewrite dmx_search_step in H.
  destruct (c !! DMXR1 (format_04d i)) as [l |] eqn:E1.
  - destruct (c !! DMXR2 (format_04d i)) as [h |] eqn:E2.
    + destruct (strictly_inside l h toaval) eqn:Ei; [discriminate |].
      apply IH in H as (k & Hk & Hp & He).
      exists k. split; [lia |]. split; [| exact He]. intros j Hj.
      destruct (decide (j = i)) as [-> | Hne].
      * exists l, h. split; [split; assumption | exact Ei].
      * apply Hp. lia.
    + injection H as <-. exists i. split; [lia |]. split; [intros j Hj; lia |].
      right. rewrite E1. split; [reflexivity |]. split; [eexists; reflexivity | exact E2].
  - injection H as <-. exists i. split; [lia |]. split; [intros j Hj; lia |].
    left. split; [reflexivity | exact E1].
Qed.

Lemma dmx_search_out_of_fuel (fuel i : nat) :
  dmx_search fuel m toaval i = None ->
  forall j, (i <= j < i + fuel)%nat -> passed j.
Proof.
  revert i. induction fuel as [| fuel IH]; intros i H j Hj; [lia |].
  rewrite dmx_search_step in H.
  destruct (c !! DMXR1 (format_04d i)) as [l |] eqn:E1; [| discriminate].
  destruct (c !! DMXR2 (format_04d i)) as [h |] eqn:E2; [| discriminate].
  destruct (strictly_inside l h toaval) eqn:Ei; [discriminate |].
  destruct (decide (j = i)) as [-> | Hne].
  - exists l, h. split; [split; assumption | exact Ei].
  - apply (IH (S i) H). lia.
Qed.

(** Windows [i], ..., [i + n - 1] all exist only if the component has at
    least [n] parameters. *)
Lemma passed_le_size (i n : nat) :
  (forall j, (i <= j < i + n)%nat -> passed j) -> (n <= size c)%nat.
Proof.
  intros H.
  set (keys := map (fun j => DMXR1 (format_04d j)) (seq i n)).
  assert (Hnd : NoDup keys).
  { apply NoDup_fmap_2; [| apply NoDup_seq].
    intros a b Hab. apply format_04d_inj, DMXR1_inj. exact Hab. }
  assert (Hsub : (list_to_set keys : gset string) ⊆ dom c).
  { intros k Hk. apply elem_of_list_to_set in Hk.
    apply list_elem_of_fmap in Hk as (j & -> & Hj).
    apply elem_of_seq in Hj.
    destruct (H j ltac:(lia)) as (lo & hi & (Hw & _) & _).
    apply elem_of_dom. eexists. exact Hw. }
  apply subseteq_size in Hsub.
  rewrite size_list_to_set in Hsub by exact Hnd.
  rewrite size_dom in Hsub. unfold keys in Hsub.
  rewrite length_map, length_seq in Hsub. exact Hsub.
Qed.

(** The fuel [dmx_fuel] always suffices: the loop ends, with a window or
    with an exception. *)
Lemma dmx_search_total : dmx_search (dmx_fuel m) m toaval 1 <> None.
Proof.
  intros H. unfold dmx_fuel in H. rewrite Hc in H.
  change (default ∅ (Some c)) with c in H.
  pose proof (dmx_search_out_of_fuel _ _ H) as Hp.
  apply (passed_le_size 1 (S (size c))) in Hp. lia.
Qed.

(** With the indices [i], ..., [k - 1] passed, the loop reaches index [k]. *)
Lemma dmx_search_reaches (fuel i k : nat) :
  (i <= k)%nat -> (k - i < fuel)%nat ->
  (forall j, (i <= j < k)%nat -> passed j) ->
  dmx_search fuel m toaval i = dmx_search (fuel - (k - i)) m toaval k.
Proof.
  revert i. induction fuel as [| fuel IH]; intros i Hik Hf Hp; [lia |].
  destruct (decide (i = k)) as [-> | Hne].
  - replace (S fuel - (k - k))%nat with (S fuel) by lia. reflexivity.
  - rewrite dmx_search_step.
    destruct (Hp i ltac:(lia)) as (lo & hi & (H1 & H2) & Hout).
    rewrite H1, H2, Hout.
    rewrite (IH (S i)) by (try lia; intros j Hj; apply Hp; lia).
    f_equal. lia.
Qed.

(** What the search does at the first index that is not passed. *)
Lemma dmx_window_at (k : nat) :
  (1 <= k)%nat ->
  (forall j, (1 <= j < k)%nat -> passed j) ->
  dmx_window m toaval
  = match c !! DMXR1 (format_04d k) with
    | None => Raise (AttributeError (DMXR1 (format_04d k)))
    | Some lo =>
        match c !! DMXR2 (format_04d k) with
        | None => Raise (AttributeError (DMXR2 (format_04d k)))
        | Some hi =>
            if strictly_inside lo hi toaval
            then Return (format_04d k, lo, hi)
            else dmx_window m toaval
        end
    end.
Proof.
  intros Hk Hp.
  assert (Hsz : (k - 1 <= size c)%nat).
  { apply (passed_le_size 1). intros j Hj. apply Hp. lia. }
  assert (Hv : dmx_window m toaval
               = match dmx_search (S (size c - (k - 1))) m toaval k with
                 | Some r => r
                 | None => Raise (AttributeError "")
                 end).
  { unfold dmx_window, dmx_fuel. rewrite Hc.
    change (default ∅ (Some c)) with c.
    rewrite (dmx_search_reaches (S (size c)) 1 k Hk ltac:(lia) Hp).
    replace (S (size c) - (k - 1))%nat with (S (size c - (k - 1))) by lia.
    reflexivity. }
  rewrite dmx_search_step in Hv. revert Hv.
  destruct (c !! DMXR1 (format_04d k)) as [lo |]; [| trivial].
  destruct (c !! DMXR2 (format_04d k)) as [hi |]; [| trivial].
  destruct (strictly_inside lo hi toaval); [trivial | reflexivity].
Qed.

Lemma dmx_window_search :
  dmx_window m toaval = match dmx_search (dmx_fuel m) m toaval 1 with
                        | Some r => r
                        | None => Raise (AttributeError "")
                        end
  /\ exists r, dmx_search (dmx_fuel m) m toaval 1 = Some r
               /\ dmx_window m toaval = r.
Proof.
  split; [reflexivity |]. unfold dmx_window.
  destruct (dmx_search (dmx_fuel m) m toaval 1) as [r |] eqn:E.
  - exists r. split; reflexivity.
  - exfalso. exact (dmx_search_total E).
Qed.

End DMX_SEARCH.

Lemma float_ltb_irrefl (x : float) : (x <? x)%float = false.
Proof.
  rewrite ltb_spec. unfold SFltb, SFcompare.
  destruct (Prim2SF x) as [s | s | | s mx ex]; try (destruct s; reflexivity);
    try reflexivity.
  rewrite Z.compare_refl, Pos.compare_cont_refl. destruct s; reflexivity.
Qed.

(** C10, as the code has it.  The search visits the indices 1, 2, ... in
    turn.  It returns window [k] exactly when window [k] strictly contains
    the TOA and every window of a smaller index exists and does not; it
    raises exactly at the first index whose lower or upper bound is missing,
    every smaller index having a window that does not contain the TOA, and
    the exception is the [AttributeError] of the missing parameter.  So with
    the model's windows indexed 1..n without a gap (window n+1 absent): the
    search returns only a window that strictly contains the TOA; if some
    window does, the search returns the first such window and no lookup
    fails; if none does (a TOA on a window boundary is outside that window),
    the index runs past the last window and the lookup of [DMXR1_<n+1>]
    raises [AttributeError]. *)
Theorem dmx_search_finds_or_raises (m : TimingModel) (c : gmap string float)
    (toaval : float) :
  components m !! "DispersionDMX" = Some c ->
  (forall idx lo hi,
      dmx_window m toaval = Return (idx, lo, hi) <->
      exists k, (1 <= k)%nat /\ idx = format_04d k /\ window c k lo hi
                /\ strictly_inside lo hi toaval = true
                /\ forall j, (1 <= j < k)%nat -> passed c toaval j)
  /\ (forall e,
      dmx_window m toaval = Raise e <->
      exists k, (1 <= k)%nat
                /\ (forall j, (1 <= j < k)%nat -> passed c toaval j)
                /\ ((e = AttributeError (DMXR1 (format_04d k))
                     /\ c !! DMXR1 (format_04d k) = None)
                    \/ (e = AttributeError (DMXR2 (format_04d k))
                        /\ is_Some (c !! DMXR1 (format_04d k))
                        /\ c !! DMXR2 (format_04d k) = None)))
  /\ (forall n,
      (forall i, (1 <= i <= n)%nat -> exists lo hi, window c i lo hi) ->
      c !! DMXR1 (format_04d (S n)) = None ->
      (forall idx lo hi,
          dmx_window m toaval = Return (idx, lo, hi) ->
          exists k, (1 <= k <= n)%nat /\ idx = format_04d k /\ window c k lo hi
                    /\ strictly_inside lo hi toaval = true)
      /\ ((exists k lo hi, (1 <= k <= n)%nat /\ window c k lo hi
                           /\ strictly_inside lo hi toaval = true) ->
          exists k lo hi,
            (1 <= k <= n)%nat /\ window c k lo hi
            /\ strictly_inside lo hi toaval = true
            /\ (forall j, (1 <= j < k)%nat -> passed c toaval j)
            /\ dmx_window m toaval = Return (format_04d k, lo, hi))
      /\ ((forall k lo hi, (1 <= k <= n)%nat -> window c k lo hi ->
                           strictly_inside lo hi toaval = false) ->
          dmx_window m toaval
          = Raise (AttributeError (DMXR1 (format_04d (S n))))))
  /\ (forall lo hi, strictly_inside lo hi lo = false
                    /\ strictly_inside lo hi hi = false).
Proof.
  intros Hc.
  destruct (dmx_window_search m c toaval Hc) as (_ & r & Hr & Hw).
  split; [| split; [| split]].
  - intros idx lo hi. split.
    + intros H. rewrite Hw in H. rewrite H in Hr.
      apply (dmx_search_return m c toaval Hc) in Hr
        as (k & Hk & -> & Hwin & Hin & Hp).
      exists k. repeat split; try assumption; apply Hwin.
    + intros (k & Hk & -> & (H1 & H2) & Hin & Hp).
      rewrite (dmx_window_at m c toaval Hc k Hk Hp), H1, H2, Hin. reflexivity.
  - intros e. split.
    + intros H. rewrite Hw in H. rewrite H in Hr.
      apply (dmx_search_raise m c toaval Hc) in Hr as (k & Hk & Hp & He).
      exists k. split; [exact Hk |]. split; [exact Hp | exact He].
    + intros (k & Hk & Hp & He).
      rewrite (dmx_window_at m c toaval Hc k Hk Hp).
      destruct He as [(-> & H1) | (-> & [lo H1] & H2)].
      * rewrite H1. reflexivity.
      * rewrite H1, H2. reflexivity.
  - intros n Hseq Hlast.
    assert (Hbound : forall k, (1 <= k)%nat ->
              is_Some (c !! DMXR1 (format_04d k)) ->
              (forall j, (1 <= j < k)%nat -> passed c toaval j) -> (k <= n)%nat).
    { intros k Hk Hsome Hp. destruct (le_lt_dec k n) as [| Hgt]; [assumption |].
      exfalso. destruct (decide (k = S n)) as [-> | Hne].
      - rewrite Hlast in Hsome. destruct Hsome; discriminate.
      - destruct (Hp (S n) ltac:(lia)) as (lo & hi & (H1 & _) & _). congruence. }
    split; [| split].
    + intros idx lo hi H. rewrite Hw in H. rewrite H in Hr.
      apply (dmx_search_return m c toaval Hc) in Hr
        as (k & Hk & -> & Hwin & Hin & Hp).
      exists k. split; [| auto].
      split; [exact Hk |]. apply Hbound; [exact Hk | | exact Hp].
      destruct Hwin as [H1 _]. eexists; exact H1.
    + intros (k0 & lo0 & hi0 & Hk0 & Hw0 & Hin0).
      destruct r as [[[idx lo] hi] | e].
      * apply (dmx_search_return m c toaval Hc) in Hr
          as (k & Hk & -> & Hwin & Hin & Hp).
        exists k, lo, hi. split.
        { split; [exact Hk |]. apply Hbound; [exact Hk | | exact Hp].
          destruct Hwin as [H1 _]. eexists; exact H1. }
        repeat split; try assumption; apply Hwin.
      * exfalso.
        apply (dmx_search_raise m c toaval Hc) in Hr as (k & Hk & Hp & He).
        destruct (le_lt_dec k k0) as [Hle | Hgt].
        -- destruct (Hseq k ltac:(lia)) as (l & h & H1 & H2).
           destruct He as [(_ & He) | (_ & _ & He)]; congruence.
        -- destruct (Hp k0 ltac:(lia)) as (l & h & (H1 & H2) & Hout).
           destruct Hw0 as [H3 H4]. congruence.
    + intros Hnone. rewrite Hw.
      destruct r as [[[idx lo] hi] | e].
      * exfalso.
        apply (dmx_search_return m c toaval Hc) in Hr
          as (k & Hk & -> & Hwin & Hin & Hp).
        assert (k <= n)%nat as Hkn.
        { apply Hbound; [exact Hk | | exact Hp].
          destruct Hwin as [H1 _]. eexists; exact H1. }
        rewrite (Hnone k lo hi ltac:(lia) Hwin) in Hin. discriminate.
      * apply (dmx_search_raise m c toaval Hc) in Hr as (k & Hk & Hp & He).
        assert (Hkn : (k <= S n)%nat).
        { destruct (le_lt_dec k (S n)) as [| Hgt]; [assumption |].
          exfalso. destruct (Hp (S n) ltac:(lia)) as (l & h & (H1 & _) & _).
          congruence. }
        destruct (decide (k = S n)) as [-> | Hne].
        -- destruct He as [(-> & _) | (_ & Hs & _)]; [reflexivity |].
           rewrite Hlast in Hs. destruct Hs; discriminate.
        -- exfalso. destruct (Hseq k ltac:(lia)) as (l & h & H1 & H2).
           destruct He as [(_ & He) | (_ & _ & He)]; congruence.
  - intros lo hi. unfold strictly_inside.
    rewrite !float_ltb_irrefl. split; [reflexivity |].
    apply andb_false_r.
Qed.

(** ** What the scan of an epoch computes *)

Lemma float_pow2_inv (libm_pow : c_pow) (x y : float) :
  float_pow2 libm_pow x = Return y -> y = py_pow2 libm_pow x.
Proof.
  unfold float_pow2, py_pow2.
  destruct (is_nan x); [congruence |].
  destruct (is_infinity x); [congruence |].
  destruct (is_zero x); [congruence |].
  destruct (abs x =? 1)%float; [congruence |].
  destruct (libm_pow (abs x) 2%float) as [ix e]. cbn [fst].
  destruct (adjust_erange1 ix e); [congruence | discriminate | discriminate].
Qed.

Lemma float_truediv_inv (x y q : float) :
  float_truediv x y = Return q -> q = (x / y)%float.
Proof.
  unfold float_truediv. destruct (is_zero y); [discriminate |]. congruence.
Qed.

Ltac step_rbind H E :=
  match type of H with
  | rbind ?x _ = _ => destruct x eqn:E; [| discriminate]; cbn [rbind] in H
  end.

Lemma scan_toa_inv (libm_pow : c_pow) (m : TimingModel)
    (filename : option flagval) (i : nat) (t : TOA) (sc sc' : scan) :
  scan_toa libm_pow m filename i t sc = Return sc' ->
  if in_epoch filename t then
    sum sc' = (sum sc + 1 / py_pow2 libm_pow (toa_error t))%float
    /\ maskarray sc' = <[i := false]> (maskarray sc)
    /\ (fresh sc -> first_of m t sc')
    /\ (forall t0, first_of m t0 sc -> first_of m t0 sc')
  else sc' = sc.
Proof.
  unfold scan_toa, in_epoch, getitem.
  destruct (toa_flags t !! "name") as [n |]; [| discriminate].
  cbn [rbind]. destruct (flag_eq_opt n filename); [| congruence].
  intros H.
  step_rbind H E1. step_rbind H E2. step_rbind H E3.
  match goal with w : (_ * _ * _ * _)%type |- _ =>
    destruct w as [[[tv ix] lo] hi] end.
  step_rbind H E4. step_rbind H E5.
  injection H as <-. cbn [sum maskarray receiver mjd toaval dmxindex dmxlower dmxupper].
  apply float_pow2_inv in E4. apply float_truediv_inv in E5. subst.
  split; [reflexivity |]. split; [reflexivity |]. split.
  - intros (F1 & F2 & F3 & F4 & F5 & F6).
    rewrite F1 in E1. rewrite F2 in E2. rewrite F3, F4 in E3.
    unfold first_of.
    cbn [sum maskarray receiver mjd toaval dmxindex dmxlower dmxupper].
    unfold getitem.
    destruct (toa_flags t !! "f") as [r |]; [| discriminate].
    destruct (int_of_float (toa_mjd t)) as [d |]; [| discriminate].
    destruct (dmx_window m (toa_mjd_float t)) as [[[idx l] h] |]; [| discriminate].
    cbn [rbind] in *.
    exists r, d, idx, l, h. repeat split; congruence.
  - intros t0 (r & d & idx & l & h & G1 & G2 & G3 & G4 & G5 & G6 & G7 & G8 & G9).
    rewrite G4 in E1. rewrite G5 in E2. rewrite G6 in E3.
    exists r, d, idx, l, h.
    cbn [sum maskarray receiver mjd toaval dmxindex dmxlower dmxupper].
    repeat split; congruence.
Qed.

Lemma scan_table_inv (libm_pow : c_pow) (m : TimingModel)
    (filename : option flagval) (tbl : list TOA) (i : nat) (sc0 sc : scan) :
  scan_table libm_pow m filename tbl i sc0 = Return sc ->
  sum sc = inverse_variance_sum libm_pow (epoch_toas filename tbl) (sum sc0)
  /\ maskarray sc = update_mask filename tbl i (maskarray sc0)
  /\ (fresh sc0 ->
      match epoch_toas filename tbl with
      | [] => fresh sc
      | t0 :: _ => first_of m t0 sc
      end)
  /\ (forall t0, first_of m t0 sc0 -> first_of m t0 sc).
Proof.
  revert i sc0. induction tbl as [| t tbl IH]; intros i sc0 H.
  - injection H as <-.
    split; [reflexivity |]. split; [reflexivity |].
    split; [intros F; exact F | intros t0 F; exact F].
  - cbn [scan_table] in H. step_rbind H E.
    apply scan_toa_inv in E. apply IH in H as (Hs & Hk & Hf & Hp).
    unfold epoch_toas in *. rewrite filter_cons.
    cbn [update_mask].
    destruct (in_epoch filename t) eqn:Et.
    + destruct E as (Es & Ek & Ef & Ep).
      rewrite decide_True by reflexivity.
      cbn [inverse_variance_sum fold_left].
      rewrite Hs, Hk, Es, Ek. repeat split; auto.
    + subst. rewrite decide_False by discriminate.
      repeat split; auto.
Qed.

Lemma update_mask_fresh (filename : option flagval) (tbl : list TOA)
    (done : list bool) :
  update_mask filename tbl (length done) (done ++ replicate (length tbl) true)
  = done ++ map (fun t => negb (in_epoch filename t)) tbl.
Proof.
  revert done. induction tbl as [| t tbl IH]; intros done.
  - reflexivity.
  - cbn [update_mask length replicate map].
    specialize (IH (done ++ [negb (in_epoch filename t)])).
    rewrite length_app, Nat.add_1_r, <- !app_assoc in IH. cbn [app] in IH.
    rewrite <- IH. f_equal.
    destruct (in_epoch filename t); cbn [negb].
    + rewrite insert_app_r_alt, Nat.sub_diag by lia. reflexivity.
    + reflexivity.
Qed.

Lemma mask_select_remaining (filename : option flagval) (tbl : list TOA) :
  mask_select (map (fun t => negb (in_epoch filename t)) tbl) tbl
  = remaining_toas filename tbl.
Proof.
  unfold remaining_toas. induction tbl as [| t tbl IH]; [reflexivity |].
  cbn [map mask_select]. rewrite filter_cons, IH.
  destruct (in_epoch filename t); cbn [negb].
  - rewrite decide_False by discriminate. reflexivity.
  - rewrite decide_True by reflexivity. reflexivity.
Qed.

(** A scan of the whole table from the initial variables: the rows it masks
    out are the epoch, and the sum runs over the epoch. *)
Lemma scan_table_epoch (libm_pow : c_pow) (m : TimingModel)
    (filename : option flagval) (tbl : list TOA) (sc : scan) :
  scan_table libm_pow m filename tbl 0 (scan_init (length tbl)) = Return sc ->
  sum sc = inverse_variance_sum libm_pow (epoch_toas filename tbl) 0
  /\ mask_select (maskarray sc) tbl = remaining_toas filename tbl
  /\ match epoch_toas filename tbl with
     | [] => fresh sc
     | t0 :: _ => first_of m t0 sc
     end.
Proof.
  intros H. apply scan_table_inv in H as (Hs & Hk & Hf & _).
  split; [exact Hs |]. split.
  - rewrite Hk. cbn [scan_init maskarray].
    pose proof (update_mask_fresh filename tbl []) as Hu.
    cbn [length app] in Hu. rewrite Hu. apply mask_select_remaining.
  - apply Hf. repeat split.
Qed.

Lemma epoch_remaining_length (filename : option flagval) (tbl : list TOA) :
  (length (epoch_toas filename tbl) + length (remaining_toas filename tbl)
   = length tbl)%nat.
Proof.
  unfold epoch_toas, remaining_toas.
  induction tbl as [| t tbl IH]; [reflexivity |].
  rewrite !filter_cons. destruct (in_epoch filename t).
  - rewrite decide_True, decide_False by (reflexivity || discriminate).
    cbn [length]. lia.
  - rewrite decide_False, decide_True by (reflexivity || discriminate).
    cbn [length]. lia.
Qed.

(** ** The epoch loop as a function of the initial state *)

Section EPOCH_FACTS.

Variable libm_pow : c_pow.
Variable fdtr : Z -> Z -> float -> float.
Variable fit_toas : TimingModel -> list TOA -> float.
Variable residuals_dof : TimingModel -> list TOA -> Z.
Variable str_float : float -> string.

Lemma toas_eta (t : TOAs) :
  mkTOAs (table t) (table_selects t) (orig_table t) = t.
Proof. destruct t; reflexivity. Qed.

Lemma state_eta (s : state) :
  mkState (st_toas s) (st_models s) (st_trace s) = s.
Proof. destruct s; reflexivity. Qed.

Lemma remove_param_run (r : nat) (comp name : string) (s : state)
    (m : TimingModel) :
  st_models s !! r = Some m ->
  remove_param r comp name s =
    match remove_param_value m comp name with
    | Return m' =>
        (Return tt,
         mkState (st_toas s) (<[r := m']> (st_models s)) (st_trace s))
    | Raise e => (Raise e, s)
    end.
Proof.
  intros H.
  unfold remove_param, remove_param_value, bind, deref, lift, set_model, raise.
  rewrite H. simpl.
  destruct (get_component m comp) as [c | e]; simpl; [| reflexivity].
  destruct (c !! name); reflexivity.
Qed.

Lemma refit_model_keep (model n : nat) (idx : option string) (s : state) :
  n <> O -> refit_model model n idx s = (Return model, s).
Proof.
  intros H. unfold refit_model.
  destruct (Nat.eqb_spec n 0); [contradiction | reflexivity].
Qed.

Lemma bind_run {A B} (m : M A) (k : A -> M B) (s : state) :
  bind m k s = match m s with
               | (Return a, s') => k a s'
               | (Raise e, s') => (Raise e, s')
               end.
Proof. reflexivity. Qed.

Lemma lookup_snoc_last (ms : list TimingModel) (m0 : TimingModel) :
  (ms ++ [m0]) !! length ms = Some m0.
Proof. rewrite lookup_app_r, Nat.sub_diag by lia. reflexivity. Qed.

Lemma insert_snoc_last (ms : list TimingModel) (m0 m1 : TimingModel) :
  <[length ms := m1]> (ms ++ [m0]) = ms ++ [m1].
Proof. rewrite insert_app_r_alt, Nat.sub_diag by lia. reflexivity. Qed.

(** Three removals on the fresh copy at the end of the store. *)
Lemma remove_three_run (t : TOAs) (ms : list TimingModel) (m : TimingModel)
    (tr : list event) (idx : string) :
  (remove_param (length ms) "DispersionDMX" (DMXR1 idx) ;;;
   remove_param (length ms) "DispersionDMX" (DMXR2 idx) ;;;
   remove_param (length ms) "DispersionDMX" (DMX_ idx) ;;;
   ret (length ms))%py (mkState t (ms ++ [m]) tr)
  = match remove_window m idx with
    | Return m' => (Return (length ms), mkState t (ms ++ [m']) tr)
    | Raise e =>
        (Raise e,
         snd ((remove_param (length ms) "DispersionDMX" (DMXR1 idx) ;;;
               remove_param (length ms) "DispersionDMX" (DMXR2 idx) ;;;
               remove_param (length ms) "DispersionDMX" (DMX_ idx) ;;;
               ret (length ms))%py (mkState t (ms ++ [m]) tr)))
    end.
Proof.
  unfold remove_window.
  rewrite !bind_run.
  rewrite (remove_param_run _ _ _ _ m) by apply lookup_snoc_last.
  destruct (remove_param_value m _ _) as [m1 | e]; simpl rbind; [| reflexivity].
  cbn [st_toas st_models st_trace]. rewrite insert_snoc_last.
  rewrite !bind_run.
  rewrite (remove_param_run _ _ _ _ m1) by apply lookup_snoc_last.
  destruct (remove_param_value m1 _ _) as [m2 | e]; simpl rbind; [| reflexivity].
  cbn [st_toas st_models st_trace]. rewrite insert_snoc_last.
  rewrite !bind_run.
  rewrite (remove_param_run _ _ _ _ m2) by apply lookup_snoc_last.
  destruct (remove_param_value m2 _ _) as [m3 | e]; simpl rbind; [| reflexivity].
  cbn [st_toas st_models st_trace]. rewrite insert_snoc_last. reflexivity.
Qed.

Lemma refit_model_remove (model : nat) (idx : option string) (s : state)
    (m : TimingModel) :
  st_models s !! model = Some m ->
  let s1 := mkState (st_toas s) (st_models s ++ [m])
                    (st_trace s ++ [LogDebug ("Removing DMX range " +:+ str_opt idx)]) in
  exists s2,
    refit_model model 0 idx s =
      match remove_window m (str_opt idx) with
      | Return m' =>
          (Return (length (st_models s)),
           mkState (st_toas s1) (st_models s ++ [m']) (st_trace s1))
      | Raise e => (Raise e, s2)
      end.
Proof.
  intros H s1.
  change (refit_model model 0 idx s) with
    ((remove_param (length (st_models s)) "DispersionDMX" (DMXR1 (str_opt idx)) ;;;
      remove_param (length (st_models s)) "DispersionDMX" (DMXR2 (str_opt idx)) ;;;
      remove_param (length (st_models s)) "DispersionDMX" (DMX_ (str_opt idx)) ;;;
      ret (length (st_models s)))%py
       (mkState (st_toas s)
          (st_models s ++ [default (mkModel ∅) (st_models s !! model)])
          (st_trace s ++ [LogDebug ("Removing DMX range " +:+ str_opt idx)]))).
  rewrite H. change (default (mkModel ∅) (Some m)) with m.
  rewrite remove_three_run.
  destruct (remove_window m (str_opt idx)); [exists s | eexists]; reflexivity.
Qed.

Abbreviation iteration := (epoch_iteration libm_pow fdtr fit_toas residuals_dof str_float).
Abbreviation eval := (epoch_eval libm_pow fdtr fit_toas residuals_dof str_float).

(** Lines 242-253 on a masked TOAs object. *)
Lemma epoch_tail_run (a : nat) (nm : TimingModel) (masked tbl : list TOA)
    (sel : list (list TOA)) (orig : list TOA) (ms : list TimingModel)
    (tr : list event) (chi2_init : float) (ndof_init : Z) (ntoas_init : nat)
    (thr : float) (etd : list (option flagval)) (filename : option flagval)
    (sc : scan) :
  ms !! a = Some nm ->
  exists s2,
    (let! nm := deref a in
     let! fd := lift (epoch_ftest fdtr chi2_init ndof_init (fit_toas nm masked)
                                  (residuals_dof nm masked) thr) in
     let '(ftest, drop) := fd in
     let! line := lift (epoch_line str_float filename sc ntoas_init
                                   (length masked) ftest) in
     emit (FileWrite line) ;;;
     unselect ;;;
     ret (if drop then etd ++ [filename] else etd))%py
      (mkState (mkTOAs masked (tbl :: sel) orig) ms tr)
    = match (let* fd := epoch_ftest fdtr chi2_init ndof_init (fit_toas nm masked)
                                    (residuals_dof nm masked) thr in
             let* line := epoch_line str_float filename sc ntoas_init
                                     (length masked) (fst fd) in
             Return (fd, line))%py with
      | Return (fd, line) =>
          (Return (if snd fd then etd ++ [filename] else etd),
           mkState (mkTOAs tbl sel orig) ms (tr ++ [FileWrite line]))
      | Raise e => (Raise e, s2)
      end.
Proof.
  intros Ha.
  rewrite bind_run. unfold deref at 1. cbn [st_models]. rewrite Ha.
  change (default (mkModel ∅) (Some nm)) with nm.
  rewrite bind_run. unfold lift at 1.
  destruct (epoch_ftest fdtr chi2_init ndof_init _ _ thr) as [[ftest drop] | e];
    [| eexists; reflexivity].
  simpl rbind. rewrite bind_run. unfold lift at 1. cbn [fst snd].
  destruct (epoch_line str_float filename sc ntoas_init (length masked) ftest)
    as [line | e]; [| eexists; reflexivity].
  exists (mkState (mkTOAs masked (tbl :: sel) orig) ms tr). reflexivity.
Qed.

(** One pass of the loop body is [epoch_eval] on the model and the table
    it starts from; it leaves the TOAs object as it found it, appends to
    the store and to the trace, and touches nothing else. *)
Lemma epoch_iteration_eval (model : nat) (chi2_init : float) (ndof_init : Z)
    (ntoas_init nfilenames : nat) (thr : float)
    (etd : list (option flagval)) (filename : option flagval)
    (s : state) (m : TimingModel) :
  st_models s !! model = Some m ->
  exists s2,
    iteration model chi2_init ndof_init ntoas_init nfilenames thr etd filename s
    = match eval m (table (st_toas s)) chi2_init ndof_init ntoas_init
                 nfilenames thr filename with
      | Return o =>
          (Return (if eo_drop o then etd ++ [filename] else etd),
           mkState (st_toas s) (st_models s ++ epoch_allocs o)
                   (st_trace s ++ epoch_events o))
      | Raise e => (Raise e, s2)
      end.
Proof.
  intros Hm. unfold epoch_iteration, epoch_eval.
  rewrite bind_run. unfold get_toas at 1.
  rewrite bind_run. unfold deref at 1. rewrite Hm.
  change (default (mkModel ∅) (Some m)) with m.
  rewrite bind_run. unfold lift at 1.
  destruct (scan_table libm_pow m filename (table (st_toas s)) 0 (scan_init nfilenames))
    as [sc | e]; [| eexists; reflexivity].
  simpl rbind.
  rewrite bind_run. unfold select at 1. rewrite bind_run.
  unfold get_toas at 1. unfold put_toas at 1.
  cbn [st_toas st_models st_trace table table_selects orig_table].
  rewrite bind_run. unfold get_toas at 1.
  cbn [st_toas st_models st_trace table table_selects orig_table].
  rewrite bind_run. unfold lift at 1.
  set (masked := mask_select (maskarray sc) (table (st_toas s))).
  destruct (count_in_dmxrange (dmxlower sc) (dmxupper sc) masked)
    as [n | e]; [| eexists; reflexivity].
  simpl rbind.
  rewrite bind_run.
  destruct (Nat.eqb_spec n 0) as [-> | Hn].
  - match goal with |- context [refit_model model 0 ?i ?st] =>
      destruct (refit_model_remove model i st m Hm) as [s2 Heq]; rewrite Heq
    end.
    destruct (remove_window m (str_opt (dmxindex sc))) as [m' | e];
      [| eexists; reflexivity].
    simpl rbind. cbn [st_toas st_models st_trace].
    match goal with |- context [mkState (mkTOAs _ (?tbl :: ?sel) ?orig) ?ms ?tr] =>
      destruct (epoch_tail_run (length (st_models s)) m' masked tbl sel orig ms tr
                  chi2_init ndof_init ntoas_init thr etd filename sc
                  (lookup_snoc_last _ _)) as [s3 Ht]
    end.
    rewrite Ht.
    destruct (epoch_ftest fdtr chi2_init ndof_init _ _ thr) as [[ftest drop] | e];
      [| eexists; reflexivity].
    simpl rbind. cbn [fst snd].
    destruct (epoch_line str_float filename sc ntoas_init (length masked) ftest)
      as [line | e]; [| eexists; reflexivity].
    exists s. simpl rbind. unfold epoch_allocs, epoch_events.
    cbn [eo_removed eo_model eo_drop eo_line eo_scan].
    rewrite toas_eta, <- app_assoc. reflexivity.
  - rewrite refit_model_keep by exact Hn.
    match goal with |- context [mkState (mkTOAs _ (?tbl :: ?sel) ?orig) ?ms ?tr] =>
      destruct (epoch_tail_run model m masked tbl sel orig ms tr
                  chi2_init ndof_init ntoas_init thr etd filename sc Hm)
        as [s3 Ht]
    end.
    simpl rbind. rewrite Ht.
    destruct (epoch_ftest fdtr chi2_init ndof_init _ _ thr) as [[ftest drop] | e];
      [| eexists; reflexivity].
    simpl rbind. cbn [fst snd].
    destruct (epoch_line str_float filename sc ntoas_init (length masked) ftest)
      as [line | e]; [| eexists; reflexivity].
    exists s. simpl rbind. unfold epoch_allocs, epoch_events.
    cbn [eo_removed eo_model eo_drop eo_line eo_scan].
    rewrite toas_eta, app_nil_r. reflexivity.
Qed.

Lemma epoch_eval_filename (m : TimingModel) (tbl : list TOA)
    (chi2_init : float) (ndof_init : Z) (ntoas_init nfilenames : nat)
    (thr : float) (filename : option flagval) (o : epoch_outcome) :
  eval m tbl chi2_init ndof_init ntoas_init nfilenames thr filename = Return o ->
  eo_filename o = filename.
Proof.
  unfold epoch_eval. intros H.
  destruct (scan_table _ _ _ _ _); simpl in H; [| discriminate].
  destruct (count_in_dmxrange _ _ _); simpl in H; [| discriminate].
  destruct (if (_ =? _)%nat then _ else _); simpl in H; [| discriminate].
  destruct (epoch_ftest _ _ _ _ _ _); simpl in H; [| discriminate].
  destruct (epoch_line _ _ _ _ _ _); simpl in H; [| discriminate].
  injection H as <-. reflexivity.
Qed.

(** Everything an outcome records, in terms of the epoch's rows. *)
Lemma epoch_eval_inv (m : TimingModel) (tbl : list TOA) (chi2_init : float)
    (ndof_init : Z) (ntoas_init : nat) (thr : float)
    (filename : option flagval) (o : epoch_outcome) :
  eval m tbl chi2_init ndof_init ntoas_init (length tbl) thr filename = Return o ->
  eo_filename o = filename
  /\ eo_masked o = remaining_toas filename tbl
  /\ sum (eo_scan o) = inverse_variance_sum libm_pow (epoch_toas filename tbl) 0
  /\ match epoch_toas filename tbl with
     | [] => fresh (eo_scan o)
     | t0 :: _ => first_of m t0 (eo_scan o)
     end
  /\ (exists n,
        count_in_dmxrange (dmxlower (eo_scan o)) (dmxupper (eo_scan o))
                          (eo_masked o) = Return n
        /\ eo_removed o = (n =? 0)%nat)
  /\ (if eo_removed o
      then remove_window m (str_opt (dmxindex (eo_scan o))) = Return (eo_model o)
      else eo_model o = m)
  /\ epoch_ftest fdtr chi2_init ndof_init (fit_toas (eo_model o) (eo_masked o))
                 (residuals_dof (eo_model o) (eo_masked o)) thr
     = Return (eo_ftest o, eo_drop o)
  /\ epoch_line str_float filename (eo_scan o) ntoas_init
                (length (eo_masked o)) (eo_ftest o)
     = Return (eo_line o).
Proof.
  unfold epoch_eval. intros H.
  step_rbind H Esc. step_rbind H En. step_rbind H Em. step_rbind H Ef.
  step_rbind H El. injection H as <-.
  cbn [eo_filename eo_scan eo_masked eo_removed eo_model eo_ftest eo_drop eo_line].
  apply scan_table_epoch in Esc as (Hs & Hk & Hf).
  rewrite Hk in *.
  split; [reflexivity |]. split; [reflexivity |]. split; [exact Hs |].
  split; [exact Hf |]. split; [eexists; split; [exact En | reflexivity] |].
  split.
  - destruct (_ =? _)%nat; [exact Em | congruence].
  - split; [| exact El]. rewrite Ef.
    match goal with x : (pyval * bool)%type |- _ => destruct x end.
    reflexivity.
Qed.

Lemma count_in_dmxrange_zero (lo hi : float) (l : list TOA) (n : nat) :
  count_in_dmxrange (Some lo) (Some hi) l = Return n ->
  (n = 0%nat <-> forall t, t ∈ l -> strictly_inside lo hi (toa_mjd_float t) = false).
Proof.
  revert n. induction l as [| t l IH]; intros n H.
  - injection H as <-. split; [| reflexivity]. intros _ t Ht. inversion Ht.
  - cbn [count_in_dmxrange in_dmxrange] in H.
    assert (Hb : (if (lo <? toa_mjd_float t)%float
                  then Return (toa_mjd_float t <? hi)%float
                  else Return false)
                 = Return (strictly_inside lo hi (toa_mjd_float t))).
    { unfold strictly_inside. destruct (lo <? toa_mjd_float t)%float; reflexivity. }
    rewrite Hb in H. cbn [rbind] in H.
    destruct (count_in_dmxrange (Some lo) (Some hi) l) as [n' |]; [| discriminate].
    cbn [rbind] in H. injection H as <-.
    specialize (IH n' eq_refl).
    destruct (strictly_inside lo hi (toa_mjd_float t)) eqn:Ei.
    + split; [discriminate |]. intros Hall.
      rewrite (Hall t) in Ei by (left). discriminate.
    + rewrite IH. split.
      * intros Hall t' Ht'. apply elem_of_cons in Ht' as [-> | Ht'];
          [exact Ei | apply Hall; exact Ht'].
      * intros Hall t' Ht'. apply Hall. right. exact Ht'.
Qed.

Lemma remove_param_value_inv (m m' : TimingModel) (comp name : string) :
  remove_param_value m comp name = Return m' ->
  exists c, components m !! comp = Some c /\ is_Some (c !! name)
            /\ components m' = <[comp := delete name c]> (components m).
Proof.
  unfold remove_param_value, get_component. intros H.
  destruct (components m !! comp) as [c |]; [| discriminate].
  cbn [rbind] in H. destruct (c !! name) eqn:E; [| discriminate].
  injection H as <-. exists c. split; [reflexivity |].
  split; [rewrite E; eexists; reflexivity | reflexivity].
Qed.

Lemma remove_window_inv (m m' : TimingModel) (idx : string) :
  remove_window m idx = Return m' ->
  exists c, components m !! "DispersionDMX" = Some c
            /\ components m'
               = <["DispersionDMX" := delete (DMX_ idx) (delete (DMXR2 idx)
                                        (delete (DMXR1 idx) c))]> (components m).
Proof.
  unfold remove_window. intros H.
  step_rbind H E1. step_rbind H E2.
  apply remove_param_value_inv in E1 as (c & Hc & _ & H1).
  apply remove_param_value_inv in E2 as (c2 & Hc2 & _ & H2).
  apply remove_param_value_inv in H as (c3 & Hc3 & _ & H3).
  rewrite H1, lookup_insert_eq in Hc2. injection Hc2 as <-.
  rewrite H2, lookup_insert_eq in Hc3. injection Hc3 as <-.
  exists c. split; [exact Hc |].
  rewrite H3, H2, H1, !insert_insert_eq. reflexivity.
Qed.

(** C5, as the code has it. The window is the first one that strictly
    contains the first row of the epoch; its three parameters are removed,
    on a copy, exactly when no row left after masking the epoch lies
    strictly inside it, and otherwise the model is refitted as it is.
    Whether the other rows of the epoch lie in that window is not looked
    at. *)
Theorem window_removed_iff_emptied (m : TimingModel) (tbl : list TOA)
    (chi2_init : float) (ndof_init : Z) (ntoas_init : nat) (thr : float)
    (filename : option flagval) (o : epoch_outcome) :
  eval m tbl chi2_init ndof_init ntoas_init (length tbl) thr filename = Return o ->
  exists t0 rest idx lo hi,
    epoch_toas filename tbl = t0 :: rest
    /\ dmx_window m (toa_mjd_float t0) = Return (idx, lo, hi)
    /\ eo_masked o = remaining_toas filename tbl
    /\ (eo_removed o = true <-> window_emptied filename tbl lo hi)
    /\ (eo_removed o = true ->
        exists c, components m !! "DispersionDMX" = Some c
                  /\ components (eo_model o)
                     = <["DispersionDMX" := delete (DMX_ idx) (delete (DMXR2 idx)
                                              (delete (DMXR1 idx) c))]>
                         (components m))
    /\ (eo_removed o = false -> eo_model o = m).
Proof.
  intros H. pose proof H as H'.
  apply epoch_eval_inv in H
    as (_ & Hk & _ & Hf & (n & Hn & Hr) & Hm & _ & Hl).
  destruct (epoch_toas filename tbl) as [| t0 rest] eqn:Ee.
  - exfalso. unfold epoch_line in Hl. destruct Hf as (_ & F & _).
    rewrite F in Hl. discriminate.
  - destruct Hf as (r & d & idx & lo & hi & _ & _ & G3 & _ & _ & _ & G7 & G8 & G9).
    exists t0, rest, idx, lo, hi.
    split; [reflexivity |]. split; [exact G3 |]. split; [exact Hk |].
    rewrite G8, G9, Hk in Hn. apply count_in_dmxrange_zero in Hn.
    split.
    { unfold window_emptied. rewrite <- Hn, Hr.
      split; intros Hz; [apply Nat.eqb_eq in Hz | apply Nat.eqb_eq]; exact Hz. }
    split.
    + intros Ht. rewrite Ht, G7 in Hm. cbn [str_opt] in Hm.
      apply remove_window_inv in Hm. exact Hm.
    + intros Ht. rewrite Ht in Hm. exact Hm.
Qed.

Lemma dropped_cons (o : epoch_outcome) (os : list epoch_outcome) :
  dropped (o :: os) = (if eo_drop o then [eo_filename o] else []) ++ dropped os.
Proof.
  unfold dropped. rewrite filter_cons.
  destruct (decide (eo_drop o = true)) as [E | E];
    destruct (eo_drop o); try congruence; reflexivity.
Qed.

(** The whole loop (lines 197-253): every epoch is [epoch_eval] on the
    model and table the loop started from. *)
Lemma epoch_loop_eval (model : nat) (chi2_init : float) (ndof_init : Z)
    (ntoas_init nfilenames : nat) (thr : float)
    (epochs etd : list (option flagval)) (s : state) (m : TimingModel) :
  st_models s !! model = Some m ->
  exists s2,
    foldM (iteration model chi2_init ndof_init ntoas_init nfilenames thr)
          epochs etd s
    = match map_result (eval m (table (st_toas s)) chi2_init ndof_init
                             ntoas_init nfilenames thr) epochs with
      | Return os =>
          (Return (etd ++ dropped os),
           mkState (st_toas s)
                   (st_models s ++ concat (map epoch_allocs os))
                   (st_trace s ++ concat (map epoch_events os)))
      | Raise e => (Raise e, s2)
      end.
Proof.
  revert etd s. induction epochs as [| f epochs IH]; intros etd s Hm.
  - exists s. simpl. unfold ret, dropped. simpl.
    rewrite !app_nil_r, state_eta. reflexivity.
  - simpl foldM. rewrite bind_run.
    destruct (epoch_iteration_eval model chi2_init ndof_init ntoas_init
                nfilenames thr etd f s m Hm) as [s1 H1].
    rewrite H1. simpl map_result.
    destruct (eval m (table (st_toas s)) chi2_init ndof_init ntoas_init
                   nfilenames thr f) as [o | e] eqn:Ef;
      [| eexists; reflexivity].
    simpl rbind.
    set (s' := mkState (st_toas s) (st_models s ++ epoch_allocs o)
                       (st_trace s ++ epoch_events o)).
    assert (Hm' : st_models s' !! model = Some m).
    { subst s'. cbn [st_models]. apply lookup_app_l_Some. exact Hm. }
    destruct (IH (if eo_drop o then etd ++ [f] else etd) s' Hm') as [s2 H2].
    rewrite H2. subst s'. cbn [st_toas st_models st_trace].
    destruct (map_result _ epochs) as [os | e]; [| eexists; reflexivity].
    exists s. simpl rbind. cbv iota beta. rewrite dropped_cons.
    rewrite (epoch_eval_filename _ _ _ _ _ _ _ _ _ Ef).
    simpl concat. rewrite <- !app_assoc.
    destruct (eo_drop o); simpl; rewrite <- ?app_assoc; reflexivity.
Qed.

(** C4. The state in which any iteration of the epoch loop starts (the
    state reached after a completed prefix [pre] of iterations) holds the
    same TOAs object as before the loop, so the same table, TOA count and
    flags, and the same baseline model, since parameters are removed on a
    copy; the next iteration therefore computes [epoch_eval] on the original
    model and the original full table, whatever the earlier epochs were. *)
Theorem epoch_loop_restores_state (model : nat) (chi2_init : float)
    (ndof_init : Z) (ntoas_init nfilenames : nat) (thr : float)
    (pre etd0 etd_k : list (option flagval)) (s s_k : state) (m : TimingModel) :
  st_models s !! model = Some m ->
  foldM (iteration model chi2_init ndof_init ntoas_init nfilenames thr)
        pre etd0 s = (Return etd_k, s_k) ->
  st_toas s_k = st_toas s
  /\ length (table (st_toas s_k)) = length (table (st_toas s))
  /\ map toa_flags (table (st_toas s_k)) = map toa_flags (table (st_toas s))
  /\ st_models s_k !! model = Some m
  /\ forall etd filename, exists s2,
       iteration model chi2_init ndof_init ntoas_init nfilenames thr
                 etd filename s_k
       = match eval m (table (st_toas s)) chi2_init ndof_init ntoas_init
                    nfilenames thr filename with
         | Return o =>
             (Return (if eo_drop o then etd ++ [filename] else etd),
              mkState (st_toas s) (st_models s_k ++ epoch_allocs o)
                      (st_trace s_k ++ epoch_events o))
         | Raise e => (Raise e, s2)
         end.
Proof.
  intros Hm Hrun.
  destruct (epoch_loop_eval model chi2_init ndof_init ntoas_init nfilenames
              thr pre etd0 s m Hm) as [s2 Heq].
  rewrite Hrun in Heq.
  destruct (map_result _ pre) as [os | e]; [| discriminate].
  injection Heq as _ ->. cbn [st_toas st_models st_trace].
  assert (Hk : (st_models s ++ concat (map epoch_allocs os)) !! model = Some m)
    by (apply lookup_app_l_Some; exact Hm).
  repeat split; try reflexivity; try exact Hk.
  intros etd filename.
  match goal with |- context [iteration _ _ _ _ _ _ _ _ ?sk] =>
    destruct (epoch_iteration_eval model chi2_init ndof_init ntoas_init
                nfilenames thr etd filename sk m Hk) as [s3 H3]
  end.
  exists s3. exact H3.
Qed.

Section CUTS.

Variable set_iter : list (option flagval) -> list (option flagval).
Variable apply_cut_flag_toas : TOAs -> list nat -> string -> TOAs.
Variable apply_cut_select_toas : TOAs -> string -> TOAs.
Variable setup_dmx_objs :
  TimingModel -> TOAs -> float -> float -> TimingModel * TOAs.

Abbreviation cut_flag_toas := (cut_flag_toas apply_cut_flag_toas).
Abbreviation evaluate_all :=
  (evaluate_epochs libm_pow fdtr fit_toas residuals_dof str_float set_iter).
Abbreviation opening_events := (opening_events set_iter).
Abbreviation summary_line := (summary_line libm_pow str_float).

Lemma for_each_cut_flags (names : list flagval) (etds : list (option flagval))
    (s : state) :
  for_each etds
    (fun etd => apply_cut_flag apply_cut_flag_toas (where_eq names etd 0) "epochdrop") s
  = (Return tt,
     mkState (cut_flag_toas names etds (st_toas s)) (st_models s)
             (st_trace s ++ cut_flag_events names etds)).
Proof.
  revert s. induction etds as [| etd etds IH]; intros s.
  - simpl. unfold ret, cut_flag_events. simpl.
    rewrite app_nil_r, state_eta. reflexivity.
  - simpl for_each. rewrite bind_run.
    unfold apply_cut_flag at 1. rewrite bind_run. unfold emit at 1.
    rewrite bind_run. unfold get_toas at 1. unfold put_toas at 1.
    cbn [st_toas st_models st_trace]. rewrite IH.
    cbn [st_toas st_models st_trace]. unfold cut_flag_events. simpl map.
    rewrite <- app_assoc. reflexivity.
Qed.

Lemma apply_cut_select_run (reason : string) (s : state) :
  apply_cut_select apply_cut_select_toas reason s
  = (Return tt,
     mkState (apply_cut_select_toas (st_toas s) reason) (st_models s)
             (st_trace s ++ [ApplyCutSelect reason])).
Proof. reflexivity. Qed.

Lemma setup_dmx_run (model : nat) (fr md : float) (s : state)
    (m : TimingModel) :
  st_models s !! model = Some m ->
  setup_dmx setup_dmx_objs model fr md s
  = (Return tt,
     mkState (snd (setup_dmx_objs m (st_toas s) fr md))
             (<[model := fst (setup_dmx_objs m (st_toas s) fr md)]> (st_models s))
             (st_trace s ++ [SetupDmx fr md])).
Proof.
  intros Hm. unfold setup_dmx, bind, emit, get_toas, deref, set_model, put_toas.
  cbn [st_toas st_models st_trace]. rewrite Hm.
  change (default (mkModel ∅) (Some m)) with m.
  destruct (setup_dmx_objs m (st_toas s) fr md) as [m' t']. reflexivity.
Qed.

Lemma apply_epoch_cuts_run (model : nat) (tc : timingconfiguration)
    (epochs_to_drop : list (option flagval)) (s : state) (m : TimingModel)
    (names : list flagval) :
  st_models s !! model = Some m ->
  map_result (fun t => getitem (toa_flags t) "name") (orig_table (st_toas s))
  = Return names ->
  exists s',
    apply_epoch_cuts apply_cut_flag_toas apply_cut_select_toas setup_dmx_objs
                     model tc epochs_to_drop s = (Return tt, s')
    /\ match epochs_to_drop with
       | [] =>
           st_trace s' = st_trace s
             ++ closing_events tc names [] (orig_table (st_toas s)) m
           /\ st_models s' = st_models s
       | _ :: _ =>
           exists tbl' m',
             st_trace s' = st_trace s
               ++ closing_events tc names epochs_to_drop tbl' m'
       end.
Proof.
  intros Hm Hn. unfold apply_epoch_cuts.
  rewrite bind_run. unfold get_toas at 1.
  rewrite bind_run. unfold lift at 1. rewrite Hn.
  rewrite bind_run, for_each_cut_flags.
  destruct epochs_to_drop as [| etd etds].
  - eexists. split; [reflexivity |].
    cbn [st_trace st_models st_toas snd]. unfold closing_events, deref.
    cbn [st_trace st_models st_toas cut_flag_toas fold_left orig_table].
    rewrite Hm. split; [| reflexivity].
    rewrite <- !app_assoc. reflexivity.
  - set (t1 := cut_flag_toas names (etd :: etds) (st_toas s)).
    cbn [length negb Nat.eqb]. rewrite !bind_run.
    rewrite apply_cut_select_run. cbv beta iota.
    rewrite (setup_dmx_run _ _ _ _ m) by exact Hm.
    cbv beta iota. cbn [st_toas st_models st_trace].
    eexists. split; [reflexivity |].
    cbn [st_trace st_models st_toas snd].
    do 2 eexists. unfold closing_events. rewrite <- !app_assoc.
    reflexivity.
Qed.

Abbreviation run_epochalyptica :=
  (epochalyptica libm_pow fdtr fit_toas residuals_dof str_float set_iter
                 apply_cut_flag_toas apply_cut_select_toas setup_dmx_objs).

(** [epochalyptica] returns whenever every epoch evaluates and every row of
    [orig_table] carries a name, and its trace is the opening events, the
    events of the epochs, [FileClose], and the closing events. *)
Lemma epochalyptica_run (model : nat) (tc : timingconfiguration)
    (thr : float) (s : state) (m : TimingModel)
    (os : list epoch_outcome) (names : list flagval) :
  st_models s !! model = Some m ->
  evaluate_all m s thr = Return os ->
  map_result (fun t => getitem (toa_flags t) "name") (orig_table (st_toas s))
  = Return names ->
  exists s' tbl' m',
    run_epochalyptica model tc thr s = (Return tt, s')
    /\ st_trace s' = st_trace s ++ opening_events tc s
         ++ concat (map epoch_events os) ++ [FileClose]
         ++ closing_events tc names (dropped os) tbl' m'
    /\ (dropped os = [] ->
        tbl' = orig_table (st_toas s) /\ m' = m
        /\ st_models s' !! model = Some m).
Proof.
  intros Hm Hos Hn. unfold epochalyptica, evaluate_epochs, filenames_of in *.
  rewrite bind_run. unfold get_toas at 1.
  rewrite bind_run. unfold deref at 1. rewrite Hm.
  change (default (mkModel ∅) (Some m)) with m.
  rewrite bind_run. unfold emit at 1.
  rewrite bind_run. unfold emit at 1.
  cbn [st_toas st_models st_trace].
  rewrite bind_run.
  match goal with |- context [foldM ?f ?l ?e ?st] =>
    destruct (epoch_loop_eval model
                (fit_toas m (table (st_toas s)))
                (residuals_dof m (table (st_toas s)))
                (length (table (st_toas s)))
                (length (map (fun t => toa_flags t !! "name") (table (st_toas s))))
                thr l e st m Hm) as [s2 Hloop]
  end.
  rewrite Hloop. cbn [st_toas st_models st_trace]. rewrite Hos.
  rewrite bind_run. unfold emit at 1. cbn [st_toas st_models st_trace].
  match goal with |- context [apply_epoch_cuts _ _ _ _ _ ?etd ?st] =>
    destruct (apply_epoch_cuts_run model tc etd st m names) as [s' [Hrun Htr]];
      [cbn [st_models]; apply lookup_app_l_Some; exact Hm
      | cbn [st_toas]; exact Hn |]
  end.
  rewrite app_nil_l in *.
  destruct (dropped os) as [| etd etds] eqn:Ed.
  - destruct Htr as [Htr Hms]. cbn [st_toas st_models st_trace] in Htr, Hms.
    exists s', (orig_table (st_toas s)), m.
    split; [exact Hrun |]. split.
    + rewrite Htr. unfold opening_events. rewrite <- !app_assoc. reflexivity.
    + intros _. repeat split. rewrite Hms.
      apply lookup_app_l_Some. exact Hm.
  - destruct Htr as [tbl' [m' Htr]]. cbn [st_toas st_models st_trace] in Htr.
    exists s', tbl', m'.
    split; [exact Hrun |]. split.
    + rewrite Htr. unfold opening_events. rewrite <- !app_assoc. reflexivity.
    + discriminate.
Qed.

Lemma file_writes_app (a b : list event) :
  file_writes (a ++ b) = file_writes a ++ file_writes b.
Proof. apply omap_app. Qed.

Lemma file_writes_epochs (os : list epoch_outcome) :
  file_writes (concat (map epoch_events os)) = map eo_line os.
Proof.
  induction os as [| o os IH]; [reflexivity |].
  cbn [map concat]. rewrite file_writes_app, IH.
  unfold epoch_events. destruct (eo_removed o); reflexivity.
Qed.

Lemma file_writes_cut_flags (names : list flagval) (etds : list (option flagval)) :
  file_writes (cut_flag_events names etds) = [].
Proof. induction etds as [| e etds IH]; [reflexivity | exact IH]. Qed.

Lemma file_writes_closing (tc : timingconfiguration) (names : list flagval)
    (etds : list (option flagval)) (tbl : list TOA) (m : TimingModel) :
  file_writes (closing_events tc names etds tbl m) = [].
Proof.
  unfold closing_events. rewrite !file_writes_app, file_writes_cut_flags.
  destruct etds; reflexivity.
Qed.

Lemma epoch_line_format (m : TimingModel) (tbl : list TOA) (chi2_init : float)
    (ndof_init : Z) (thr : float) (filename : option flagval)
    (o : epoch_outcome) :
  eval m tbl chi2_init ndof_init (length tbl) (length tbl) thr filename
  = Return o ->
  exists t0 rest r d,
    epoch_toas filename tbl = t0 :: rest
    /\ toa_flags t0 !! "f" = Some r
    /\ int_of_float (toa_mjd t0) = Return d
    /\ (length tbl - length (remaining_toas filename tbl) = length (t0 :: rest))%nat
    /\ eo_line o = summary_line filename r d (length tbl)
                     (length (remaining_toas filename tbl)) (eo_ftest o)
                     (t0 :: rest).
Proof.
  intros H. apply epoch_eval_inv in H
    as (_ & Hk & Hs & Hf & _ & _ & _ & Hl).
  unfold epoch_line in Hl.
  destruct (mjd (eo_scan o)) as [d |] eqn:Ed; [| discriminate].
  injection Hl as Hl.
  pose proof (epoch_remaining_length filename tbl) as Hlen.
  destruct (epoch_toas filename tbl) as [| t0 rest] eqn:Ee.
  - destruct Hf as (_ & F & _). congruence.
  - destruct Hf as (r & d' & idx & lo & hi & G1 & G2 & _ & G4 & G5 & _).
    exists t0, rest, r, d. unfold getitem in G1.
    destruct (toa_flags t0 !! "f") as [r' |] eqn:Er; [| discriminate].
    injection G1 as ->.
    split; [reflexivity |]. split; [reflexivity |].
    split; [congruence |]. split; [lia |].
    rewrite <- Hl, Hk, G4. unfold summary_line, combined_uncertainty.
    rewrite Hs. reflexivity.
Qed.

(** C8, as the code has it. A completed run writes to [epochdrop.txt]
    exactly the lines of the evaluated epochs, one per distinct file name of
    the table and in iteration order; each line is
    [<filename> <receiver> <MJD:d> <toas_removed:d> <ftest:e> <uncertainty>]
    with the receiver and the integer MJD of the epoch's first row,
    [toas_removed] the initial TOA count minus the count left after masking
    (the number of rows of the epoch) and the uncertainty
    [1/sqrt(sum of 1/error**2)] over the epoch's rows.  The F-test field is
    the [:e] rendering of what the F-test step produced: for the sentinel
    [False] that is [0.000000e+00], the rendering of the number zero. *)
Theorem epochdrop_lines (model : nat) (tc : timingconfiguration)
    (thr : float) (s : state) (m : TimingModel)
    (os : list epoch_outcome) (names : list flagval) :
  NoDup (set_iter (filenames_of s)) ->
  (forall x, x ∈ set_iter (filenames_of s) <-> x ∈ filenames_of s) ->
  st_models s !! model = Some m ->
  evaluate_all m s thr = Return os ->
  map_result (fun t => getitem (toa_flags t) "name") (orig_table (st_toas s))
  = Return names ->
  exists s' added,
    run_epochalyptica model tc thr s = (Return tt, s')
    /\ st_trace s' = st_trace s ++ added
    /\ file_writes added = map eo_line os
    /\ NoDup (map eo_filename os)
    /\ (forall t, t ∈ table (st_toas s) ->
                  toa_flags t !! "name" ∈ map eo_filename os)
    /\ Forall (fun o =>
         let tbl := table (st_toas s) in
         exists t0 rest r d,
           epoch_toas (eo_filename o) tbl = t0 :: rest
           /\ toa_flags t0 !! "f" = Some r
           /\ int_of_float (toa_mjd t0) = Return d
           /\ (length tbl - length (remaining_toas (eo_filename o) tbl)
               = length (t0 :: rest))%nat
           /\ eo_line o = summary_line (eo_filename o) r d (length tbl)
                            (length (remaining_toas (eo_filename o) tbl))
                            (eo_ftest o) (t0 :: rest)) os
    /\ format_e_val (PyBool false) = "0.000000e+00"
    /\ format_e_val (PyBool false) = format_e_val (PyFloat 0).
Proof.
  intros Hnd Hin Hm Hos Hn.
  destruct (epochalyptica_run model tc thr s m os names Hm Hos Hn)
    as (s' & tbl' & m' & Hrun & Htr & _).
  eexists s', _. split; [exact Hrun |]. split; [exact Htr |].
  split.
  { rewrite !file_writes_app, file_writes_epochs, file_writes_closing.
    cbn. rewrite app_nil_r. reflexivity. }
  unfold evaluate_epochs in Hos.
  apply map_result_Forall2 in Hos.
  assert (Hf : map eo_filename os = set_iter (filenames_of s)).
  { clear -Hos. induction Hos as [| x o l os' Hx _ IH]; [reflexivity |].
    cbn [map]. rewrite IH. f_equal. eapply epoch_eval_filename. exact Hx. }
  split; [rewrite Hf; exact Hnd |]. split.
  { intros t Ht. rewrite Hf. apply Hin. unfold filenames_of.
    apply list_elem_of_fmap. exists t. split; [reflexivity | exact Ht]. }
  split; [| split; reflexivity].
  unfold filenames_of in Hos. rewrite length_map in Hos.
  clear -Hos. induction Hos as [| x o l os' Hx _ IH]; constructor; [| exact IH].
  cbn zeta. rewrite (epoch_eval_filename _ _ _ _ _ _ _ _ _ Hx).
  eapply epoch_line_format. exact Hx.
Qed.

(** C6. When the loop records no epoch to drop, after closing the summary
    file [epochalyptica] only logs that nothing was dropped and writes the
    excise tim file from [orig_table] and the unchanged model: no
    [apply_cut_flag], no [apply_cut_select] and no [setup_dmx] comes before
    [write_tim] (the re-masking [apply_cut_select] follows it).  When some
    epoch is dropped, the cut flags, [apply_cut_select] and [setup_dmx] all
    come before [write_tim]. *)
Theorem no_drop_goes_straight_to_write_tim (model : nat)
    (tc : timingconfiguration) (thr : float) (s : state) (m : TimingModel)
    (os : list epoch_outcome) (names : list flagval) :
  st_models s !! model = Some m ->
  evaluate_all m s thr = Return os ->
  map_result (fun t => getitem (toa_flags t) "name") (orig_table (st_toas s))
  = Return names ->
  exists s',
    run_epochalyptica model tc thr s = (Return tt, s')
    /\ (dropped os = [] ->
        st_trace s' = st_trace s ++ opening_events tc s
          ++ concat (map epoch_events os)
          ++ [FileClose;
              LogInfo "No epochs dropped (epochalyptica).";
              WriteTim (orig_table (st_toas s)) m (get_toa_type tc)
                       (excise_timfile tc);
              ApplyCutSelect "resumption after write_tim (excise)"]
        /\ st_models s' !! model = Some m)
    /\ (dropped os <> [] ->
        exists tbl' m',
          st_trace s' = st_trace s ++ opening_events tc s
            ++ concat (map epoch_events os)
            ++ [FileClose]
            ++ cut_flag_events names (dropped os)
            ++ [ApplyCutSelect "epoch drop analysis";
                SetupDmx (get_fratio tc) (get_sw_delay tc);
                WriteTim tbl' m' (get_toa_type tc) (excise_timfile tc);
                ApplyCutSelect "resumption after write_tim (excise)"]).
Proof.
  intros Hm Hos Hn.
  destruct (epochalyptica_run model tc thr s m os names Hm Hos Hn)
    as (s' & tbl' & m' & Hrun & Htr & Hnone).
  exists s'. split; [exact Hrun |]. split.
  - intros Hd. destruct (Hnone Hd) as (-> & -> & Hms).
    split; [| exact Hms]. rewrite Htr, Hd. reflexivity.
  - intros Hd. exists tbl', m'. rewrite Htr. unfold closing_events.
    destruct (dropped os); [contradiction | reflexivity].
Qed.

End CUTS.

End EPOCH_FACTS.

(** ** The outlier-probability pipeline *)

(** Setting a flag of a row: the flag reads back, the rest of the row is
    kept. *)
Lemma set_flag_lookup (k : string) (v : flagval) (row : TOA) :
  toa_flags (set_flag row k v) !! k = Some v.
Proof. unfold set_flag. cbn. apply lookup_insert_eq. Qed.

Lemma same_but_flag_refl (k : string) (row : TOA) : same_but_flag k row row.
Proof. repeat split. Qed.

Lemma same_but_flag_set (k : string) (v : flagval) (row0 row : TOA) :
  same_but_flag k row0 row -> same_but_flag k row0 (set_flag row k v).
Proof.
  intros (H1 & H2 & H3 & H4 & H5). unfold set_flag. repeat split; cbn; try assumption.
  intros k' Hk. rewrite lookup_insert_ne by congruence. apply H5, Hk.
Qed.

(** A row of [orig_table] that received the probability [v]. *)
Lemma flag_written_row (k : string) (v : float) (row row' : TOA) :
  row' = set_flag row k (FlagNum v) ->
  toa_flags row' !! k = Some (FlagNum v) /\ same_but_flag k row row'.
Proof.
  intros ->. split; [apply set_flag_lookup |].
  apply same_but_flag_set, same_but_flag_refl.
Qed.

Section POUT_FACTS.

Variable apply_cut_select_toas : TOAs -> string -> TOAs.
Variable OutlierHMC : PintPulsar -> string -> Z -> Z -> list float.
Variable OutlierGibbs_poutchain : PintPulsar -> string -> Z -> list (list float).
Variable np_mean_axis0 : list (list float) -> list float.

Abbreviation run_calculate_pout :=
  (calculate_pout apply_cut_select_toas OutlierHMC OutlierGibbs_poutchain
                  np_mean_axis0).

Lemma write_pout_flags_unbound (method : string) (indices : list nat)
    (i : nat) (s : state) :
  write_pout_flags method None indices i s
  = match indices with
    | [] => (Return tt, s)
    | _ :: _ => (Raise (UnboundLocalError "pout"), s)
    end.
Proof. destruct indices; reflexivity. Qed.

Lemma write_pout_flags_bound (method : string) (p : list float)
    (indices : list nat) (i : nat) (s : state) :
  exists s2,
    write_pout_flags method (Some p) indices i s
    = match pout_flags_written method p indices i (orig_table (st_toas s)) with
      | Return orig' =>
          (Return tt,
           mkState (mkTOAs (table (st_toas s)) (table_selects (st_toas s)) orig')
                   (st_models s) (st_trace s))
      | Raise e => (Raise e, s2)
      end.
Proof.
  revert i s. induction indices as [| oi rest IH]; intros i s.
  - exists s. cbn. unfold ret. rewrite toas_eta, state_eta. reflexivity.
  - cbn [write_pout_flags pout_flags_written]. rewrite bind_run.
    unfold write_pout_flag.
    destruct (p !! i) as [v |]; [| eexists; reflexivity].
    rewrite bind_run. unfold get_toas at 1.
    destruct (orig_table (st_toas s) !! oi) as [row |]; [| eexists; reflexivity].
    unfold put_toas at 1.
    match goal with |- context [write_pout_flags _ _ _ _ ?st] =>
      destruct (IH (S i) st) as [s2 H2]; rewrite H2
    end.
    cbn [st_toas st_models st_trace table table_selects orig_table].
    exists s2. reflexivity.
Qed.

(** One probability per table row, written to the row's entry of
    [orig_table]. *)
Lemma pout_flags_written_spec (method : string) (p : list float)
    (indices : list nat) (i : nat) (orig : list TOA) :
  (forall k, (k < length indices)%nat -> is_Some (p !! (i + k)%nat)) ->
  (forall oi, oi ∈ indices -> (oi < length orig)%nat) ->
  NoDup indices ->
  exists orig',
    pout_flags_written method p indices i orig = Return orig'
    /\ length orig' = length orig
    /\ (forall k oi, indices !! k = Some oi ->
          exists row v,
            orig !! oi = Some row /\ p !! (i + k)%nat = Some v
            /\ orig' !! oi
               = Some (set_flag row ("pout_" +:+ method) (FlagNum v)))
    /\ (forall j, j ∉ indices -> orig' !! j = orig !! j).
Proof.
  revert i orig. induction indices as [| oi rest IH]; intros i orig Hp Hlt Hnd.
  - exists orig. split; [reflexivity |]. split; [reflexivity |].
    split; [intros k oi H; discriminate | reflexivity].
  - cbn [pout_flags_written].
    destruct (Hp 0%nat ltac:(cbn; lia)) as [v Hv].
    rewrite Nat.add_0_r in Hv. rewrite Hv.
    destruct (lookup_lt_is_Some_2 orig oi (Hlt oi ltac:(left))) as [row Hrow].
    rewrite Hrow.
    apply NoDup_cons in Hnd as [Hoi Hnd].
    set (orig1 := <[oi := set_flag row ("pout_" +:+ method) (FlagNum v)]> orig).
    destruct (IH (S i) orig1) as (orig' & Hw & Hlen & Hset & Hother).
    { intros k Hk. replace (S i + k)%nat with (i + S k)%nat by lia.
      apply Hp. cbn. lia. }
    { intros oi' Hin. subst orig1. rewrite length_insert. apply Hlt. right. exact Hin. }
    { exact Hnd. }
    exists orig'. split; [exact Hw |]. split.
    { rewrite Hlen. subst orig1. apply length_insert. }
    split.
    + intros k oi' Hk. destruct k as [| k].
      * injection Hk as <-. exists row, v. rewrite Nat.add_0_r.
        split; [exact Hrow |]. split; [exact Hv |].
        rewrite (Hother oi Hoi). subst orig1.
        apply list_lookup_insert_eq. eapply lookup_lt_Some. exact Hrow.
      * cbn in Hk. destruct (Hset k oi' Hk) as (row' & v' & H1 & H2 & H3).
        assert (oi' <> oi).
        { intros ->. apply Hoi. eapply list_elem_of_lookup_2. exact Hk. }
        exists row', v'. subst orig1.
        rewrite list_lookup_insert_ne in H1 by congruence.
        split; [exact H1 |]. split; [| exact H3].
        replace (i + S k)%nat with (S i + k)%nat by lia. exact H2.
    + intros j Hj. rewrite Hother.
      * subst orig1. apply list_lookup_insert_ne. intros ->. apply Hj. left.
      * intros Hin. apply Hj. right. exact Hin.
Qed.

Lemma run_sampler_run (model : nat) (tc : timingconfiguration) (s : state)
    (m : TimingModel) :
  st_models s !! model = Some m ->
  let method := get_outlier_method tc in
  let results_dir := "outlier/" +:+ get_outfile_basename tc in
  let ns := get_outlier_samples tc in
  let nb := get_outlier_burn tc in
  run_sampler OutlierHMC OutlierGibbs_poutchain np_mean_axis0 model tc s
  = if String.eqb method "hmc" then
      let epp := mkPintPulsar (table (st_toas s)) m false false in
      (Return (Some (OutlierHMC epp results_dir ns nb)),
       add_events s [CallOutlierHMC epp results_dir ns nb; Print ""])
    else if String.eqb method "gibbs" then
      let epp := mkPintPulsar (table (st_toas s)) m false true in
      (Return (Some (np_mean_axis0 (OutlierGibbs_poutchain epp results_dir ns))),
       add_events s [CallOutlierGibbs epp results_dir ns])
    else
      (Return None,
       add_events s [LogError ("Specified method (" +:+ method
                               +:+ ") is not recognized.")]).
Proof.
  intros Hm. cbv zeta. unfold run_sampler, add_events.
  rewrite bind_run. unfold get_toas at 1.
  rewrite bind_run. unfold deref at 1. rewrite Hm.
  change (default (mkModel ∅) (Some m)) with m.
  destruct (String.eqb (get_outlier_method tc) "hmc").
  - unfold bind, emit, ret, get_entPintPulsar.
    cbn [st_toas st_models st_trace]. rewrite <- app_assoc. reflexivity.
  - destruct (String.eqb (get_outlier_method tc) "gibbs"); reflexivity.
Qed.

(** What follows a sampler that produced [p] (lines 110-120). *)
Lemma calculate_pout_bound (model : nat) (tc : timingconfiguration)
    (s : state) (m : TimingModel) (p : list float) (evs : list event)
    (orig' : list TOA) :
  st_models s !! model = Some m ->
  run_sampler OutlierHMC OutlierGibbs_poutchain np_mean_axis0 model tc s
  = (Return (Some p), add_events s evs) ->
  pout_flags_written (get_outlier_method tc) p
                     (map toa_index (table (st_toas s))) 0
                     (orig_table (st_toas s)) = Return orig' ->
  exists s',
    run_calculate_pout model tc s = (Return tt, s')
    /\ st_trace s' = st_trace s ++ evs
         ++ [WriteTim orig' m (get_toa_type tc) (pout_timfile tc);
             ApplyCutSelect "resumption after write_tim, pout"]
    /\ orig_table (st_toas s')
       = orig_table (apply_cut_select_toas
                       (mkTOAs orig' (table_selects (st_toas s)) orig')
                       "resumption after write_tim, pout").
Proof.
  intros Hm Hs Hw. unfold calculate_pout.
  rewrite bind_run, Hs. rewrite bind_run. unfold get_toas at 1.
  rewrite bind_run.
  match goal with |- context [write_pout_flags ?me ?po ?ix ?i ?st] =>
    destruct (write_pout_flags_bound me p ix i st) as [s2 H2]; rewrite H2
  end.
  unfold add_events. cbn [st_toas st_models st_trace]. rewrite Hw.
  rewrite bind_run. unfold get_toas at 1.
  rewrite bind_run. unfold put_toas at 1.
  cbn [st_toas st_models st_trace table table_selects orig_table].
  rewrite bind_run. unfold write_tim. rewrite bind_run. unfold get_toas at 1.
  rewrite bind_run. unfold deref at 1.
  cbn [st_toas st_models st_trace table table_selects orig_table].
  rewrite Hm. change (default (mkModel ∅) (Some m)) with m.
  unfold emit. cbn [st_toas st_models st_trace table table_selects orig_table].
  unfold apply_cut_select, bind, emit, get_toas, put_toas.
  cbn [st_toas st_models st_trace table table_selects orig_table].
  eexists. split; [reflexivity |].
  cbn [st_toas st_models st_trace]. rewrite <- !app_assoc.
  split; reflexivity.
Qed.

(** C7. For a method other than ['hmc'] and ['gibbs'], [calculate_pout]
    logs an error without raising, and the first use of [pout], in the first
    pass of the flag loop, raises [UnboundLocalError] before any flag is
    written (with an empty table there is no such pass).  For ['hmc'] and
    ['gibbs'] the matching sampler is called and, given one probability per
    row of the table, the [orig_table] entry of each row receives the flag
    [pout_<method>] with that row's probability, before the tim file is
    written: looking the flag up in the entry of the table that is written
    gives the probability, and the entry is otherwise the one of
    [orig_table]. *)
Theorem calculate_pout_by_method (model : nat) (tc : timingconfiguration)
    (s : state) (m : TimingModel) :
  st_models s !! model = Some m ->
  let method := get_outlier_method tc in
  let results_dir := "outlier/" +:+ get_outfile_basename tc in
  let ns := get_outlier_samples tc in
  let nb := get_outlier_burn tc in
  let tbl := table (st_toas s) in
  let orig := orig_table (st_toas s) in
  let flags_written (p : list float) (orig' : list TOA) :=
    forall i t, tbl !! i = Some t ->
      exists row row' v,
        orig !! toa_index t = Some row /\ p !! i = Some v
        /\ orig' !! toa_index t = Some row'
        /\ toa_flags row' !! ("pout_" +:+ method) = Some (FlagNum v)
        /\ same_but_flag ("pout_" +:+ method) row row'
        /\ row' = set_flag row ("pout_" +:+ method) (FlagNum v) in
  let well_indexed (p : list float) :=
    length p = length tbl
    /\ (forall t, t ∈ tbl -> (toa_index t < length orig)%nat)
    /\ NoDup (map toa_index tbl) in
  (method <> "hmc" -> method <> "gibbs" ->
   let logged := add_events s [LogError ("Specified method (" +:+ method
                                         +:+ ") is not recognized.")] in
   run_sampler OutlierHMC OutlierGibbs_poutchain np_mean_axis0 model tc s
   = (Return None, logged)
   /\ (tbl <> [] ->
       run_calculate_pout model tc s = (Raise (UnboundLocalError "pout"), logged))
   /\ (tbl = [] -> exists s', run_calculate_pout model tc s = (Return tt, s')))
  /\ (method = "hmc" ->
      let epp := mkPintPulsar tbl m false false in
      let p := OutlierHMC epp results_dir ns nb in
      well_indexed p ->
      exists s' orig',
        run_calculate_pout model tc s = (Return tt, s')
        /\ st_trace s' = st_trace s
             ++ [CallOutlierHMC epp results_dir ns nb; Print ""]
             ++ [WriteTim orig' m (get_toa_type tc) (pout_timfile tc);
                 ApplyCutSelect "resumption after write_tim, pout"]
        /\ flags_written p orig')
  /\ (method = "gibbs" ->
      let epp := mkPintPulsar tbl m false true in
      let p := np_mean_axis0 (OutlierGibbs_poutchain epp results_dir ns) in
      well_indexed p ->
      exists s' orig',
        run_calculate_pout model tc s = (Return tt, s')
        /\ st_trace s' = st_trace s
             ++ [CallOutlierGibbs epp results_dir ns]
             ++ [WriteTim orig' m (get_toa_type tc) (pout_timfile tc);
                 ApplyCutSelect "resumption after write_tim, pout"]
        /\ flags_written p orig').
Proof.
  intros Hm method results_dir ns nb tbl orig flags_written well_indexed.
  pose proof (run_sampler_run model tc s m Hm) as Hs. cbv zeta in Hs.
  fold method results_dir ns nb tbl in Hs.
  assert (Hflags : forall p, well_indexed p ->
            exists orig',
              pout_flags_written method p (map toa_index tbl) 0 orig = Return orig'
              /\ flags_written p orig').
  { intros p (Hlen & Hlt & Hnd).
    destruct (pout_flags_written_spec method p (map toa_index tbl) 0 orig)
      as (orig' & Hw & _ & Hset & _).
    - intros k Hk. rewrite length_map in Hk. apply lookup_lt_is_Some_2.
      cbn. lia.
    - intros oi Hin. apply list_elem_of_fmap in Hin as (t & -> & Ht).
      apply Hlt. exact Ht.
    - exact Hnd.
    - exists orig'. split; [exact Hw |]. intros i t Hi.
      destruct (Hset i (toa_index t)) as (row & v & H1 & H2 & H3).
      { rewrite list_lookup_fmap, Hi. reflexivity. }
      destruct (flag_written_row ("pout_" +:+ method) v row _ eq_refl)
        as (Hfl & Hsame).
      exists row, (set_flag row ("pout_" +:+ method) (FlagNum v)), v.
      repeat split; try assumption; apply Hsame. }
  split; [| split].
  - intros Hh Hg logged.
    destruct (String.eqb_spec method "hmc") as [| _]; [contradiction |].
    destruct (String.eqb_spec method "gibbs") as [| _]; [contradiction |].
    split; [exact Hs |]. split.
    + intros Hne. unfold calculate_pout. rewrite bind_run, Hs.
      rewrite bind_run. unfold get_toas at 1. rewrite bind_run.
      rewrite write_pout_flags_unbound. unfold add_events.
      cbn [st_toas st_models st_trace]. fold tbl.
      destruct tbl; [contradiction | reflexivity].
    + intros He. unfold calculate_pout. rewrite bind_run, Hs.
      rewrite bind_run. unfold get_toas at 1. rewrite bind_run.
      rewrite write_pout_flags_unbound. unfold add_events.
      cbn [st_toas st_models st_trace]. fold tbl. rewrite He.
      cbn [map]. eexists. reflexivity.
  - intros Hh epp p Hwi.
    destruct (String.eqb_spec method "hmc") as [_ |]; [| contradiction].
    destruct (Hflags p Hwi) as (orig' & Hw & Hfl).
    destruct (calculate_pout_bound model tc s m p _ orig' Hm Hs Hw)
      as (s' & Hrun & Htr & _).
    exists s', orig'. split; [exact Hrun |]. split; [exact Htr | exact Hfl].
  - intros Hg epp p Hwi.
    destruct (String.eqb_spec method "hmc") as [Hh |].
    { rewrite Hg in Hh. discriminate. }
    destruct (String.eqb_spec method "gibbs") as [_ |]; [| contradiction].
    destruct (Hflags p Hwi) as (orig' & Hw & Hfl).
    destruct (calculate_pout_bound model tc s m p _ orig' Hm Hs Hw)
      as (s' & Hrun & Htr & _).
    exists s', orig'. split; [exact Hrun |]. split; [exact Htr | exact Hfl].
Qed.

End POUT_FACTS.

Lemma epoch_loop_restores_state_witness :
  let pre := [Some (FlagStr "a.ff")] in
  let r := foldM Toy.iteration9 pre [] Toy.st9 in
  r = (Return pre, snd r)
  /\ st_toas (snd r) = st_toas Toy.st9
  /\ st_models (snd r) !! 0%nat = Some Toy.model2.
Proof.
  intros pre r.
  assert (Hr : r = (Return pre, snd r)) by (vm_compute; reflexivity).
  split; [exact Hr |].
  destruct (epoch_loop_restores_state Toy.libm_pow Toy.fdtr Toy.fit_toas Toy.residuals_dof
              Toy.str_float 0%nat (Toy.fit_toas Toy.model2 Toy.tbl9)
              (Toy.residuals_dof Toy.model2 Toy.tbl9) 9 9 Toy.ftest_threshold
              pre [] pre Toy.st9 (snd r) Toy.model2 eq_refl Hr)
    as (Ht & _ & _ & Hm & _).
  split; [exact Ht | exact Hm].
Defined.

Lemma no_drop_witness :
  st_models Toy.st_quiet !! 0%nat = Some Toy.model2
  /\ evaluate_epochs Toy.libm_pow Toy.fdtr Toy.fit_toas Toy.residuals_dof Toy.str_float
       Toy.set_iter Toy.model2 Toy.st_quiet Toy.ftest_threshold
     = Return (Toy.evaluate Toy.st_quiet)
  /\ map_result (fun t => getitem (toa_flags t) "name")
                (orig_table (st_toas Toy.st_quiet))
     = Return (Toy.names_of Toy.st_quiet)
  /\ dropped (Toy.evaluate Toy.st_quiet) = []
  /\ exists s',
       Toy.epochalyptica 0%nat Toy.tc Toy.ftest_threshold Toy.st_quiet
       = (Return tt, s')
       /\ st_models s' !! 0%nat = Some Toy.model2.
Proof.
  assert (H1 : st_models Toy.st_quiet !! 0%nat = Some Toy.model2)
    by reflexivity.
  assert (H2 : evaluate_epochs Toy.libm_pow Toy.fdtr Toy.fit_toas Toy.residuals_dof
                 Toy.str_float Toy.set_iter Toy.model2 Toy.st_quiet
                 Toy.ftest_threshold
               = Return (Toy.evaluate Toy.st_quiet))
    by (vm_compute; reflexivity).
  assert (H3 : map_result (fun t => getitem (toa_flags t) "name")
                          (orig_table (st_toas Toy.st_quiet))
               = Return (Toy.names_of Toy.st_quiet))
    by (vm_compute; reflexivity).
  assert (H4 : dropped (Toy.evaluate Toy.st_quiet) = [])
    by (vm_compute; reflexivity).
  split; [exact H1 |]. split; [exact H2 |]. split; [exact H3 |].
  split; [exact H4 |].
  destruct (no_drop_goes_straight_to_write_tim Toy.libm_pow Toy.fdtr Toy.fit_toas
              Toy.residuals_dof Toy.str_float Toy.set_iter
              Toy.apply_cut_flag_toas Toy.apply_cut_select_toas
              Toy.setup_dmx_objs 0%nat Toy.tc Toy.ftest_threshold
              Toy.st_quiet Toy.model2 _ _ H1 H2 H3)
    as (s' & Hrun & Hnone & _).
  exists s'. split; [exact Hrun |]. apply (Hnone H4).
Defined.


Lemma epochdrop_lines_witness :
  NoDup (Toy.set_iter (filenames_of Toy.st9))
  /\ (forall x, x ∈ Toy.set_iter (filenames_of Toy.st9)
                <-> x ∈ filenames_of Toy.st9)
  /\ evaluate_epochs Toy.libm_pow Toy.fdtr Toy.fit_toas Toy.residuals_dof Toy.str_float
       Toy.set_iter Toy.model2 Toy.st9 Toy.ftest_threshold
     = Return (Toy.evaluate Toy.st9)
  /\ exists s' added,
       Toy.epochalyptica 0%nat Toy.tc Toy.ftest_threshold Toy.st9
       = (Return tt, s')
       /\ st_trace s' = st_trace Toy.st9 ++ added
       /\ file_writes added = map eo_line (Toy.evaluate Toy.st9).
Proof.
  assert (H1 : NoDup (Toy.set_iter (filenames_of Toy.st9)))
    by apply NoDup_remove_dups.
  assert (H2 : forall x, x ∈ Toy.set_iter (filenames_of Toy.st9)
                         <-> x ∈ filenames_of Toy.st9)
    by (intros x; apply elem_of_remove_dups).
  assert (H3 : evaluate_epochs Toy.libm_pow Toy.fdtr Toy.fit_toas Toy.residuals_dof
                 Toy.str_float Toy.set_iter Toy.model2 Toy.st9
                 Toy.ftest_threshold
               = Return (Toy.evaluate Toy.st9))
    by (vm_compute; reflexivity).
  split; [exact H1 |]. split; [exact H2 |]. split; [exact H3 |].
  destruct (epochdrop_lines Toy.libm_pow Toy.fdtr Toy.fit_toas Toy.residuals_dof
              Toy.str_float Toy.set_iter Toy.apply_cut_flag_toas
              Toy.apply_cut_select_toas Toy.setup_dmx_objs 0%nat Toy.tc
              Toy.ftest_threshold Toy.st9 Toy.model2 _ (Toy.names_of Toy.st9)
              H1 H2 eq_refl H3 ltac:(vm_compute; reflexivity))
    as (s' & added & Hrun & Htr & Hw & _).
  exists s', added. split; [exact Hrun |]. split; [exact Htr | exact Hw].
Defined.

(** C8, as stated, fails on the sentinel: in the run below the epoch [a.ff]
    gets the sentinel [False], and the line written for it carries the
    number [0.000000e+00] in the F-test field, not the literal [False]. *)
Lemma sentinel_is_written_as_zero :
  let run := Toy.epochalyptica 0%nat Toy.tc Toy.ftest_threshold Toy.st_worse in
  fst run = Return tt
  /\ map eo_ftest (Toy.evaluate Toy.st_worse)
     = [PyBool false; PyFloat 0.015625; PyFloat 0.5]
  /\ file_writes (st_trace (snd run))
     = ["a.ff Rcvr_800 55001 2 0.000000e+00 0.7071067811865475" +:+ newline;
        "b.ff Rcvr_800 55012 4 1.562500e-02 0.5" +:+ newline;
        "c.ff Rcvr_800 55016 3 5.000000e-01 0.5773502691896258" +:+ newline]
  /\ ~ ("a.ff Rcvr_800 55001 2 False 0.7071067811865475" +:+ newline)
       ∈ file_writes (st_trace (snd run)).
Proof.
  intros run.
  assert (Hw : file_writes (st_trace (snd run))
     = ["a.ff Rcvr_800 55001 2 0.000000e+00 0.7071067811865475" +:+ newline;
        "b.ff Rcvr_800 55012 4 1.562500e-02 0.5" +:+ newline;
        "c.ff Rcvr_800 55016 3 5.000000e-01 0.5773502691896258" +:+ newline])
    by (vm_compute; reflexivity).
  split; [vm_compute; reflexivity |].
  split; [vm_compute; reflexivity |].
  split; [exact Hw |].
  rewrite Hw. intros H.
  repeat (apply elem_of_cons in H as [H | H]; [discriminate H |]).
  inversion H.
Qed.

(** The same run drops the sentinel epoch: its rows 0 and 2 are flagged. *)
Example sentinel_epoch_is_cut :
  cut_flag_calls
    (st_trace (snd (Toy.epochalyptica 0%nat Toy.tc Toy.ftest_threshold
                                      Toy.st_worse)))
  = [([0%nat; 2%nat], "epochdrop")].
Proof. vm_compute. reflexivity. Qed.

Lemma dmx_search_witness :
  components Toy.model2 !! "DispersionDMX" = Some Toy.dmx2
  /\ (forall i, (1 <= i <= 2)%nat -> exists lo hi, window Toy.dmx2 i lo hi)
  /\ Toy.dmx2 !! DMXR1 (format_04d 3) = None
  /\ (exists k lo hi, (1 <= k <= 2)%nat /\ window Toy.dmx2 k lo hi
                      /\ strictly_inside lo hi 55012 = true)
  /\ dmx_window Toy.model2 55012 = Return ("0002", 55010%float, 55020%float)
  /\ (forall k lo hi, (1 <= k <= 2)%nat -> window Toy.dmx2 k lo hi ->
                      strictly_inside lo hi 55010 = false)
  /\ dmx_window Toy.model2 55010 = Raise (AttributeError "DMXR1_0003").
Proof.
  assert (H1 : components Toy.model2 !! "DispersionDMX" = Some Toy.dmx2)
    by reflexivity.
  assert (W1 : window Toy.dmx2 1 55000 55010)
    by (split; vm_compute; reflexivity).
  assert (W2 : window Toy.dmx2 2 55010 55020)
    by (split; vm_compute; reflexivity).
  assert (H2 : forall i, (1 <= i <= 2)%nat ->
                         exists lo hi, window Toy.dmx2 i lo hi).
  { intros i Hi.
    assert (i = 1 \/ i = 2)%nat as [-> | ->] by lia.
    - exists 55000%float, 55010%float. exact W1.
    - exists 55010%float, 55020%float. exact W2. }
  assert (H3 : Toy.dmx2 !! DMXR1 (format_04d 3) = None)
    by (vm_compute; reflexivity).
  assert (H4 : exists k lo hi, (1 <= k <= 2)%nat /\ window Toy.dmx2 k lo hi
                               /\ strictly_inside lo hi 55012 = true).
  { exists 2%nat, 55010%float, 55020%float.
    split; [lia |]. split; [exact W2 | vm_compute; reflexivity]. }
  assert (H5 : forall k lo hi, (1 <= k <= 2)%nat -> window Toy.dmx2 k lo hi ->
                               strictly_inside lo hi 55010 = false).
  { intros k lo hi Hk [Hlo Hhi].
    assert (k = 1 \/ k = 2)%nat as [-> | ->] by lia.
    - destruct W1 as [A B]. rewrite A in Hlo. rewrite B in Hhi.
      injection Hlo as <-. injection Hhi as <-. vm_compute. reflexivity.
    - destruct W2 as [A B]. rewrite A in Hlo. rewrite B in Hhi.
      injection Hlo as <-. injection Hhi as <-. vm_compute. reflexivity. }
  split; [exact H1 |]. split; [exact H2 |]. split; [exact H3 |].
  split; [exact H4 |]. split; [| split; [exact H5 |]].
  - destruct (dmx_search_finds_or_raises Toy.model2 Toy.dmx2 55012 H1)
      as (Hret & _ & _ & _).
    apply Hret. exists 2%nat.
    split; [lia |]. split; [reflexivity |]. split; [exact W2 |].
    split; [vm_compute; reflexivity |].
    intros j Hj. assert (j = 1)%nat as -> by lia.
    exists 55000%float, 55010%float.
    split; [exact W1 | vm_compute; reflexivity].
  - destruct (dmx_search_finds_or_raises Toy.model2 Toy.dmx2 55010 H1)
      as (_ & _ & Hgap & _).
    destruct (Hgap 2%nat H2 H3) as (_ & _ & Hraise).
    exact (Hraise H5).
Defined.

(** C10, as stated, fails when the windows are not numbered consecutively:
    the model below has the windows 1 and 3 and no window 2; the TOA at
    55012 lies strictly inside window 3, yet the search does not find it:
    after window 1 the lookup of [DMXR1_0002] raises. *)
Lemma dmx_search_stops_at_gap :
  components Edge.model_gap !! "DispersionDMX" = Some Edge.dmx_gap
  /\ window Edge.dmx_gap 3 55010 55020
  /\ strictly_inside 55010 55020 55012 = true
  /\ dmx_window Edge.model_gap 55012 = Raise (AttributeError "DMXR1_0002").
Proof.
  split; [reflexivity |].
  split; [split; vm_compute; reflexivity |].
  split; vm_compute; reflexivity.
Qed.

Example dmx_search_inside :
  dmx_window Toy.model2 55012 = Return ("0002", 55010%float, 55020%float).
Proof. vm_compute. reflexivity. Qed.

(** C5, as stated, fails: the parameters of window 1 are removed for epoch
    [a.ff], whose first row is in window 1 and whose second row is not. *)
Lemma window_removed_for_straddling_epoch :
  let a := Some (FlagStr "a.ff") in
  exists o,
    Toy.eval_split a = Return o
    /\ eo_removed o = true
    /\ dmxindex (eo_scan o) = Some "0001"
    /\ dmxlower (eo_scan o) = Some 55000%float
    /\ dmxupper (eo_scan o) = Some 55010%float
    /\ default ∅ (components (eo_model o) !! "DispersionDMX")
       = <["DMXR1_0002" := 55010%float]> (<["DMXR2_0002" := 55020%float]>
         (<["DMX_0002" := 0%float]> ∅))
    /\ window_emptied a Toy.tbl_split 55000 55010
    /\ ~ epoch_within a Toy.tbl_split 55000 55010.
Proof.
  intros a.
  destruct (Toy.outcome_split a) as [o |] eqn:E; [| vm_compute in E; discriminate].
  exists o.
  assert (Ho : Toy.eval_split a = Return o).
  { unfold Toy.outcome_split in E. destruct (Toy.eval_split a); congruence. }
  split; [exact Ho |].
  vm_compute in E. injection E as <-.
  split; [reflexivity |]. split; [reflexivity |]. split; [reflexivity |].
  split; [reflexivity |]. split; [vm_compute; reflexivity |]. split.
  - intros t Ht. vm_compute in Ht.
    repeat (apply elem_of_cons in Ht as [-> | Ht]; [vm_compute; reflexivity |]).
    inversion Ht.
  - intros H.
    assert (Hin : Toy.toa 1 55012 "a.ff" 500 ∈ epoch_toas a Toy.tbl_split)
      by (vm_compute; do 2 constructor).
    apply H in Hin. vm_compute in Hin. discriminate.
Qed.

Lemma window_removed_iff_emptied_witness :
  let a := Some (FlagStr "a.ff") in
  exists o t0 rest idx lo hi,
    Toy.eval_split a = Return o
    /\ epoch_toas a Toy.tbl_split = t0 :: rest
    /\ dmx_window Toy.model2 (toa_mjd_float t0) = Return (idx, lo, hi)
    /\ (eo_removed o = true <-> window_emptied a Toy.tbl_split lo hi).
Proof.
  intros a.
  destruct (Toy.outcome_split a) as [o |] eqn:E; [| vm_compute in E; discriminate].
  assert (Ho : Toy.eval_split a = Return o).
  { unfold Toy.outcome_split in E. destruct (Toy.eval_split a); congruence. }
  destruct (window_removed_iff_emptied Toy.libm_pow Toy.fdtr Toy.fit_toas Toy.residuals_dof
              Toy.str_float Toy.model2 Toy.tbl_split _ _ _ _ a o Ho)
    as (t0 & rest & idx & lo & hi & H1 & H2 & _ & H4 & _).
  exists o, t0, rest, idx, lo, hi.
  split; [exact Ho |]. split; [exact H1 |]. split; [exact H2 | exact H4].
Defined.

Lemma calculate_pout_witness :
  (get_outlier_method Toy.tc_unknown <> "hmc"
   /\ get_outlier_method Toy.tc_unknown <> "gibbs"
   /\ Toy.tbl9 <> []
   /\ fst (Toy.calculate_pout 0%nat Toy.tc_unknown Toy.st9)
      = Raise (UnboundLocalError "pout"))
  /\ (get_outlier_method Toy.tc = "hmc"
      /\ exists (s' : state) (orig' : list TOA),
           Toy.calculate_pout 0%nat Toy.tc Toy.st9 = (Return tt, s')
           /\ WriteTim orig' Toy.model2 (get_toa_type Toy.tc)
                        (pout_timfile Toy.tc) ∈ st_trace s'
           /\ forall i t, Toy.tbl9 !! i = Some t ->
                exists row row' v,
                  Toy.tbl9 !! toa_index t = Some row
                  /\ orig' !! toa_index t = Some row'
                  /\ toa_flags row' !! "pout_hmc" = Some (FlagNum v)).
Proof.
  assert (Hm : st_models Toy.st9 !! 0%nat = Some Toy.model2) by reflexivity.
  split.
  - assert (H1 : get_outlier_method Toy.tc_unknown <> "hmc") by discriminate.
    assert (H2 : get_outlier_method Toy.tc_unknown <> "gibbs") by discriminate.
    assert (H3 : Toy.tbl9 <> []) by discriminate.
    split; [exact H1 |]. split; [exact H2 |]. split; [exact H3 |].
    destruct (calculate_pout_by_method Toy.apply_cut_select_toas Toy.OutlierHMC
                Toy.OutlierGibbs_poutchain Toy.np_mean_axis0 0%nat
                Toy.tc_unknown Toy.st9 Toy.model2 Hm) as (Hu & _ & _).
    destruct (Hu H1 H2) as (_ & Hraise & _).
    unfold Toy.calculate_pout. rewrite (Hraise H3). reflexivity.
  - split; [reflexivity |].
    destruct (calculate_pout_by_method Toy.apply_cut_select_toas Toy.OutlierHMC
                Toy.OutlierGibbs_poutchain Toy.np_mean_axis0 0%nat
                Toy.tc Toy.st9 Toy.model2 Hm) as (_ & Hh & _).
    destruct (Hh eq_refl) as (s' & orig' & Hrun & Htr & Hfl).
    + split; [vm_compute; reflexivity |]. split.
      * intros t Ht. change (table (st_toas Toy.st9)) with Toy.tbl9 in Ht.
        unfold Toy.tbl9 in Ht.
        repeat (apply elem_of_cons in Ht as [-> | Ht]; [vm_compute; lia |]).
        inversion Ht.
      * apply (bool_decide_unpack _). vm_compute. exact I.
    + exists s', orig'. split; [exact Hrun |]. split.
      { rewrite Htr. rewrite !elem_of_app. right. right. left. }
      intros i t Hi.
      destruct (Hfl i t Hi) as (row & row' & v & Hr & _ & Ho & Hf & _).
      exists row, row', v. split; [exact Hr |]. split; [exact Ho | exact Hf].
Defined.

(** * Further properties of the module *)

(** ** [Ftest]: which exceptions, and when *)

(** ** More on Python's int-to-float conversion *)

Lemma canonical_exponent_bound (m : positive) (e K : Z) :
  canonical_mantissa prec emax m e = true ->
  Z.pos m <= 2 ^ (K - e) -> e <= K -> K <= 1023 -> e <= 971.
Proof.
  unfold canonical_mantissa. rewrite fexp_eq. intros Hc Hm He HK.
  apply Z.eqb_eq in Hc.
  destruct (Z_le_gt_dec e 971) as [| Hgt]; [assumption | exfalso].
  pose proof (digits2_pos_bounds m) as [Hlo _].
  assert (Hd : Z.pos (digits2_pos m) = 53) by lia.
  rewrite Hd in Hlo. change (53 - 1) with 52 in Hlo.
  assert (2 ^ (K - e) < 2 ^ 52) by (apply Z.pow_lt_mono_r; lia). lia.
Qed.

Lemma float_of_int_nonzero (n : Z) :
  n <> 0 -> Z.abs n < 2 ^ 1023 ->
  exists f m e, float_of_int n = Return f
                /\ Prim2SF f = S754_finite (n <? 0) m e.
Proof.
  intros Hn Hb.
  assert (Hshape : exists (p : positive) (s : bool),
             binary_normalize prec emax n 0 false = binary_round prec emax s p 0
             /\ s = (n <? 0) /\ Z.pos p = Z.abs n).
  { destruct n as [| p | p]; [contradiction | exists p, false | exists p, true];
      repeat split; reflexivity. }
  destruct Hshape as (p & s & Hnorm & Hs & Hp).
  destruct (binary_round_shape s p 0 ltac:(lia)) as (m3 & e3 & Hr & Hc & Hbnd).
  destruct (Hbnd 1023 ltac:(lia) ltac:(lia) ltac:(rewrite Z.sub_0_r; lia))
    as (He3 & Hm3).
  pose proof (canonical_exponent_bound m3 e3 1023 Hc Hm3 He3 ltac:(lia)) as Hfin.
  rewrite (proj2 (Z.leb_le e3 971) Hfin) in Hr.
  assert (Hv : valid_binary (S754_finite s m3 e3) = true).
  { unfold valid_binary, SpecFloat.valid_binary, bounded. rewrite Hc.
    apply andb_true_intro. split; [reflexivity |].
    apply Z.leb_le. change (emax - prec) with 971. exact Hfin. }
  exists (SF2Prim (S754_finite s m3 e3)), m3, e3.
  rewrite <- Hs. split; [| apply Prim2SF_SF2Prim, Hv].
  unfold float_of_int. rewrite Hnorm, Hr.
  assert (Hi : is_infinity (SF2Prim (S754_finite s m3 e3)) = false).
  { unfold is_infinity. rewrite FloatAxioms.eqb_spec, abs_spec.
    rewrite (Prim2SF_SF2Prim _ Hv). reflexivity. }
  cbv zeta. rewrite Hi. reflexivity.
Qed.

Lemma is_zero_spec (x : float) :
  is_zero x = true <-> exists s, Prim2SF x = S754_zero s.
Proof.
  unfold is_zero. rewrite FloatAxioms.eqb_spec.
  change (Prim2SF PrimFloat.zero) with (S754_zero false).
  destruct (Prim2SF x) as [s | s | | s m e]; split;
    try (intros H; discriminate H);
    try (intros [s' H]; discriminate H);
    try (destruct s; intros H; discriminate H).
  - intros _. exists s. reflexivity.
  - intros _. reflexivity.
Qed.

Lemma float_div_int_nonzero (x : float) (n : Z) :
  n <> 0 -> Z.abs n < 2 ^ 1023 ->
  exists f m e, float_of_int n = Return f
                /\ Prim2SF f = S754_finite (n <? 0) m e
                /\ float_div_int x n = Return (x / f)%float.
Proof.
  intros Hn Hb. destruct (float_of_int_nonzero n Hn Hb) as (f & m & e & Hf & Hs).
  exists f, m, e. split; [exact Hf |]. split; [exact Hs |].
  unfold float_div_int. rewrite Hf. cbn [rbind]. unfold float_truediv.
  rewrite (is_zero_finite f _ m e Hs). reflexivity.
Qed.

Section FTEST_ERRORS.

Variable fdtr : Z -> Z -> float -> float.

(** X1. With degrees of freedom below 2^1023 in absolute value, [Ftest]
    returns a float, returns [False], or raises [ZeroDivisionError], and
    nothing else; it raises exactly when chi-squared improved
    ([chi2_2 < chi2_1]) and one of the three divisors is zero: [dof_2 = 0],
    [dof_1 = dof_2], or the quotient [chi2_2 / dof_2] is a zero. *)
Theorem Ftest_raises_only_ZeroDivisionError (chi2_1 : float) (dof_1 : Z)
    (chi2_2 : float) (dof_2 : Z) :
  Z.abs dof_2 < 2 ^ 1023 -> Z.abs (dof_1 - dof_2) < 2 ^ 1023 ->
  ((exists p, Ftest fdtr chi2_1 dof_1 chi2_2 dof_2 = Return (PyFloat p))
   \/ Ftest fdtr chi2_1 dof_1 chi2_2 dof_2 = Return (PyBool false)
   \/ Ftest fdtr chi2_1 dof_1 chi2_2 dof_2 = Raise ZeroDivisionError)
  /\ (Ftest fdtr chi2_1 dof_1 chi2_2 dof_2 = Raise ZeroDivisionError
      <-> (chi2_2 <? chi2_1)%float = true
          /\ (dof_2 = 0 \/ dof_1 = dof_2
              \/ exists fb, float_of_int dof_2 = Return fb
                            /\ is_zero (chi2_2 / fb) = true)).
Proof.
  intros H2 H12.
  destruct (chi2_2 <? chi2_1)%float eqn:Hlt.
  2:{ rewrite (Ftest_not_lower fdtr _ _ _ _ Hlt). split.
      - right. left. reflexivity.
      - split; [discriminate | intros [H _]; discriminate H]. }
  pose proof (float_lt_sub_pos _ _ Hlt) as Hd.
  unfold Ftest. rewrite Hd.
  destruct (Z.eq_dec dof_2 0) as [-> | Hn2].
  { rewrite float_div_int_zero. cbn [rbind]. split.
    - right. right. reflexivity.
    - split; [intros _; split; [reflexivity | left; reflexivity] | reflexivity]. }
  destruct (float_div_int_nonzero chi2_2 dof_2 Hn2 H2) as (fb & mb & eb & Hfb & Hsb & ->).
  cbn [rbind].
  destruct (Z.eq_dec dof_1 dof_2) as [-> | Hn12].
  { rewrite Z.sub_diag, float_div_int_zero. cbn [rbind]. split.
    - right. right. reflexivity.
    - split; [intros _; split; [reflexivity | right; left; reflexivity] | reflexivity]. }
  destruct (float_div_int_nonzero (chi2_1 - chi2_2) (dof_1 - dof_2)
              ltac:(lia) H12) as (fa & ma & ea & Hfa & Hsa & ->).
  cbn [rbind]. unfold float_truediv.
  destruct (is_zero (chi2_2 / fb)) eqn:Hz.
  - split; [right; right; reflexivity |].
    split; [| reflexivity]. intros _. split; [reflexivity |].
    right. right. exists fb. split; [exact Hfb | exact Hz].
  - split; [left; eexists; reflexivity |].
    split; [discriminate |]. intros [_ [H | [H | (fb' & Hfb' & Hz')]]].
    + contradiction.
    + contradiction.
    + rewrite Hfb in Hfb'. injection Hfb' as <-. congruence.
Qed.

(** X2. A refit whose chi-squared is exactly zero, against a positive
    baseline, makes [Ftest] raise [ZeroDivisionError] whatever the degrees
    of freedom (below 2^1023 in absolute value). *)
Theorem Ftest_zero_chi2_raises (chi2_1 : float) (dof_1 : Z)
    (chi2_2 : float) (dof_2 : Z) :
  Z.abs dof_2 < 2 ^ 1023 -> Z.abs (dof_1 - dof_2) < 2 ^ 1023 ->
  is_zero chi2_2 = true -> (0 <? chi2_1)%float = true ->
  Ftest fdtr chi2_1 dof_1 chi2_2 dof_2 = Raise ZeroDivisionError.
Proof.
  intros H2 H12 Hz Hpos.
  apply is_zero_spec in Hz as [s Hs].
  assert (Hlt : (chi2_2 <? chi2_1)%float = true).
  { rewrite ltb_spec in *. rewrite Hs.
    change (Prim2SF 0) with (S754_zero false) in Hpos.
    destruct (Prim2SF chi2_1); exact Hpos. }
  pose proof (float_lt_sub_pos _ _ Hlt) as Hd.
  unfold Ftest. rewrite Hd.
  destruct (Z.eq_dec dof_2 0) as [-> | Hn2].
  { rewrite float_div_int_zero. reflexivity. }
  destruct (float_div_int_nonzero chi2_2 dof_2 Hn2 H2) as (fb & mb & eb & Hfb & Hsb & ->).
  cbn [rbind].
  destruct (Z.eq_dec dof_1 dof_2) as [-> | Hn12].
  { rewrite Z.sub_diag, float_div_int_zero. reflexivity. }
  destruct (float_div_int_nonzero (chi2_1 - chi2_2) (dof_1 - dof_2)
              ltac:(lia) H12) as (fa & ma & ea & Hfa & Hsa & ->).
  cbn [rbind]. unfold float_truediv.
  assert (Hq : is_zero (chi2_2 / fb) = true).
  { apply is_zero_spec. rewrite div_spec, Hs, Hsb. eexists. reflexivity. }
  rewrite Hq. reflexivity.
Qed.

End FTEST_ERRORS.

(** ** What the evaluation of an epoch needs *)


Lemma scan_toa_requires (libm_pow : c_pow)
    (m : TimingModel) (filename : option flagval)
    (i : nat) (t : TOA) (sc sc' : scan) :
  scan_toa libm_pow m filename i t sc = Return sc' ->
  is_Some (toa_flags t !! "name")
  /\ (in_epoch filename t = true -> usable_error libm_pow t).
Proof.
  unfold scan_toa, in_epoch, getitem.
  destruct (toa_flags t !! "name") as [n |]; [| discriminate].
  cbn [rbind]. intros H. split; [eexists; reflexivity |].
  intros Hin. rewrite Hin in H.
  step_rbind H E1. step_rbind H E2. step_rbind H E3.
  match goal with w : (_ * _ * _ * _)%type |- _ =>
    destruct w as [[[tv ix] lo] hi] end.
  step_rbind H E4. step_rbind H E5.
  pose proof (float_pow2_inv _ _ _ E4) as ->.
  unfold float_truediv in E5.
  destruct (is_zero (py_pow2 libm_pow (toa_error t))) eqn:Ez; [discriminate |].
  split; [exact E4 | exact Ez].
Qed.

Lemma scan_table_requires (libm_pow : c_pow)
    (m : TimingModel) (filename : option flagval)
    (tbl : list TOA) (i : nat) (sc0 sc : scan) :
  scan_table libm_pow m filename tbl i sc0 = Return sc ->
  Forall (fun t => is_Some (toa_flags t !! "name")) tbl
  /\ Forall (usable_error libm_pow) (epoch_toas filename tbl).
Proof.
  revert i sc0. induction tbl as [| t tbl IH]; intros i sc0 H.
  - split; constructor.
  - cbn [scan_table] in H. step_rbind H E.
    apply scan_toa_requires in E as (Hn & He).
    apply IH in H as (Hns & Hes).
    split; [constructor; assumption |].
    unfold epoch_toas in *. rewrite filter_cons.
    destruct (decide (in_epoch filename t = true)) as [Hin | Hin];
      [constructor; [apply He, Hin | exact Hes] | exact Hes].
Qed.

Lemma dmx_window_found (m : TimingModel) (x : float) (idx : string)
    (lo hi : float) :
  dmx_window m x = Return (idx, lo, hi) ->
  exists c k, components m !! "DispersionDMX" = Some c
              /\ (1 <= k)%nat /\ idx = format_04d k
              /\ window c k lo hi
              /\ strictly_inside lo hi x = true
              /\ forall j, (1 <= j < k)%nat -> passed c x j.
Proof.
  intros H.
  destruct (components m !! "DispersionDMX") as [c |] eqn:Hc.
  - destruct (dmx_window_search m c x Hc) as (_ & r & Hr & Hw).
    rewrite H in Hw. subst r.
    apply (dmx_search_return m c x Hc) in Hr as (k & Hk & Hi & Hwin & Hin & Hp).
    exists c, k. repeat split; try assumption; apply Hwin.
  - exfalso. unfold dmx_window, dmx_fuel in H. cbn [dmx_search] in H.
    unfold get_component in H. rewrite Hc in H. discriminate H.
Qed.

Section EPOCH_REQUIRES.

Variable libm_pow : c_pow.
Variable fdtr : Z -> Z -> float -> float.
Variable fit_toas : TimingModel -> list TOA -> float.
Variable residuals_dof : TimingModel -> list TOA -> Z.
Variable str_float : float -> string.

(** X3. An epoch is evaluated to the end only if every row of the table
    carries a [name] flag; every row of the epoch has an error whose square
    [float(t[3])**2.0] is computed without an exception and is not zero; and
    the epoch is not empty, its first
    row carries an [f] flag and a finite MJD, and the model has a
    [DispersionDMX] component with a window that strictly contains that
    row's MJD. *)
Theorem epoch_evaluation_requires (m : TimingModel) (tbl : list TOA)
    (chi2_init : float) (ndof_init : Z) (ntoas_init : nat) (thr : float)
    (filename : option flagval) (o : epoch_outcome) :
  epoch_eval libm_pow fdtr fit_toas residuals_dof str_float m tbl chi2_init ndof_init
             ntoas_init (length tbl) thr filename = Return o ->
  Forall (fun t => is_Some (toa_flags t !! "name")) tbl
  /\ Forall (usable_error libm_pow) (epoch_toas filename tbl)
  /\ exists t0 rest c k lo hi,
       epoch_toas filename tbl = t0 :: rest
       /\ is_Some (toa_flags t0 !! "f")
       /\ (exists d, int_of_float (toa_mjd t0) = Return d)
       /\ components m !! "DispersionDMX" = Some c
       /\ (1 <= k)%nat /\ window c k lo hi
       /\ strictly_inside lo hi (toa_mjd_float t0) = true.
Proof.
  intros H.
  assert (Hscan : exists sc, scan_table libm_pow m filename tbl 0
                                        (scan_init (length tbl)) = Return sc).
  { unfold epoch_eval in H.
    destruct (scan_table libm_pow m filename tbl 0 (scan_init (length tbl)))
      as [sc |];
      [eexists; reflexivity | discriminate H]. }
  destruct Hscan as (sc & Hsc).
  apply scan_table_requires in Hsc as (Hn & He).
  split; [exact Hn |]. split; [exact He |].
  apply epoch_eval_inv in H as (_ & _ & _ & Hf & _ & _ & _ & Hl).
  unfold epoch_line in Hl.
  destruct (mjd (eo_scan o)) as [d |] eqn:Ed; [| discriminate].
  destruct (epoch_toas filename tbl) as [| t0 rest] eqn:Ee.
  - destruct Hf as (_ & F & _). congruence.
  - destruct Hf as (r & d' & idx & lo & hi & G1 & G2 & G3 & _).
    apply dmx_window_found in G3 as (c & k & Hc & Hk & _ & Hw & Hin & _).
    exists t0, rest, c, k, lo, hi. split; [reflexivity |].
    split.
    { unfold getitem in G1. destruct (toa_flags t0 !! "f"); [eexists; reflexivity | discriminate]. }
    split; [exists d'; exact G2 |]. repeat split; try assumption; apply Hw.
Qed.

End EPOCH_REQUIRES.

(** ** The trace of a run that fails in the loop *)



Section EMITS.

Variable P : event -> Prop.

Lemma emits_only_silent {A} (c : M A) :
  (forall s, st_trace (snd (c s)) = st_trace s) -> emits_only P c.
Proof.
  intros H s r s' E. exists []. rewrite app_nil_r. split; [| constructor].
  specialize (H s). rewrite E in H. exact H.
Qed.

Lemma emits_only_ret {A} (a : A) : emits_only P (ret a).
Proof. apply emits_only_silent. reflexivity. Qed.

Lemma emits_only_raise {A} (e : exn) : emits_only P (@raise A e).
Proof. apply emits_only_silent. reflexivity. Qed.

Lemma emits_only_lift {A} (r : result A) : emits_only P (lift r).
Proof. apply emits_only_silent. reflexivity. Qed.

Lemma emits_only_get_toas : emits_only P get_toas.
Proof. apply emits_only_silent. reflexivity. Qed.

Lemma emits_only_put_toas (t : TOAs) : emits_only P (put_toas t).
Proof. apply emits_only_silent. reflexivity. Qed.

Lemma emits_only_deref (r : nat) : emits_only P (deref r).
Proof. apply emits_only_silent. reflexivity. Qed.

Lemma emits_only_set_model (r : nat) (m : TimingModel) :
  emits_only P (set_model r m).
Proof. apply emits_only_silent. reflexivity. Qed.

Lemma emits_only_deepcopy (r : nat) : emits_only P (deepcopy r).
Proof. apply emits_only_silent. reflexivity. Qed.

Lemma emits_only_emit (ev : event) : P ev -> emits_only P (emit ev).
Proof.
  intros H s r s' E. injection E as _ <-. exists [ev].
  split; [reflexivity | constructor; [exact H | constructor]].
Qed.

Lemma emits_only_bind {A B} (c : M A) (k : A -> M B) :
  emits_only P c -> (forall a, emits_only P (k a)) -> emits_only P (bind c k).
Proof.
  intros Hc Hk s r s' E. unfold bind in E.
  destruct (c s) as [[a | e] s1] eqn:Ec.
  - destruct (Hc _ _ _ Ec) as (ev1 & T1 & F1).
    destruct (Hk a _ _ _ E) as (ev2 & T2 & F2).
    exists (ev1 ++ ev2). rewrite T2, T1, app_assoc.
    split; [reflexivity | apply Forall_app; split; assumption].
  - injection E as _ <-. exact (Hc _ _ _ Ec).
Qed.

Lemma emits_only_foldM {A B} (f : B -> A -> M B) (l : list A) (b : B) :
  (forall b a, emits_only P (f b a)) -> emits_only P (foldM f l b).
Proof.
  intros Hf. revert b. induction l as [| a l IH]; intros b; cbn [foldM].
  - apply emits_only_ret.
  - apply emits_only_bind; [apply Hf | intros b'; apply IH].
Qed.

End EMITS.


Lemma emits_only_select (mask : list bool) : emits_only loop_event (select mask).
Proof.
  unfold select. apply emits_only_bind; [apply emits_only_get_toas |].
  intros t. apply emits_only_put_toas.
Qed.

Lemma emits_only_unselect : emits_only loop_event unselect.
Proof.
  unfold unselect. apply emits_only_bind; [apply emits_only_get_toas |].
  intros t. destruct (table_selects t);
    [apply emits_only_emit; exact I | apply emits_only_put_toas].
Qed.

Lemma emits_only_remove_param (r : nat) (comp name : string) :
  emits_only loop_event (remove_param r comp name).
Proof.
  unfold remove_param. apply emits_only_bind; [apply emits_only_deref |].
  intros m. apply emits_only_bind; [apply emits_only_lift |].
  intros c. destruct (c !! name);
    [apply emits_only_set_model | apply emits_only_raise].
Qed.

Lemma emits_only_refit_model (model n : nat) (idx : option string) :
  emits_only loop_event (refit_model model n idx).
Proof.
  unfold refit_model. destruct (n =? 0)%nat; [| apply emits_only_ret].
  apply emits_only_bind; [apply emits_only_emit; exact I | intros _].
  apply emits_only_bind; [apply emits_only_deepcopy | intros nm].
  repeat (apply emits_only_bind; [apply emits_only_remove_param | intros _]).
  apply emits_only_ret.
Qed.

Section LOOP_TRACE.

Variable libm_pow : c_pow.
Variable fdtr : Z -> Z -> float -> float.
Variable fit_toas : TimingModel -> list TOA -> float.
Variable residuals_dof : TimingModel -> list TOA -> Z.
Variable str_float : float -> string.
Variable set_iter : list (option flagval) -> list (option flagval).
Variable apply_cut_flag_toas : TOAs -> list nat -> string -> TOAs.
Variable apply_cut_select_toas : TOAs -> string -> TOAs.
Variable setup_dmx_objs :
  TimingModel -> TOAs -> float -> float -> TimingModel * TOAs.

Lemma emits_only_epoch_iteration (model : nat) (chi2_init : float)
    (ndof_init : Z) (ntoas_init nfilenames : nat) (thr : float)
    (etd : list (option flagval)) (filename : option flagval) :
  emits_only loop_event
    (epoch_iteration libm_pow fdtr fit_toas residuals_dof str_float model chi2_init
                     ndof_init ntoas_init nfilenames thr etd filename).
Proof.
  unfold epoch_iteration.
  apply emits_only_bind; [apply emits_only_get_toas | intros toas].
  apply emits_only_bind; [apply emits_only_deref | intros m].
  apply emits_only_bind; [apply emits_only_lift | intros sc].
  apply emits_only_bind; [apply emits_only_select | intros _].
  apply emits_only_bind; [apply emits_only_get_toas | intros masked].
  apply emits_only_bind; [apply emits_only_lift | intros n].
  apply emits_only_bind; [apply emits_only_refit_model | intros newmodel].
  apply emits_only_bind; [apply emits_only_deref | intros nm].
  apply emits_only_bind; [apply emits_only_lift | intros [ftest drop]].
  apply emits_only_bind; [apply emits_only_lift | intros line].
  apply emits_only_bind; [apply emits_only_emit; exact I | intros _].
  apply emits_only_bind; [apply emits_only_unselect | intros _].
  apply emits_only_ret.
Qed.

(** X4. When the evaluation of some epoch raises, [epochalyptica] raises
    the same exception.  By then it has opened [epochdrop.txt], logged the
    number of epochs and emitted loop events only (debug and error logs,
    lines written): the file is not closed, no cut is applied and no tim
    file is written. *)
Theorem epochdrop_file_left_open_on_error (model : nat)
    (tc : timingconfiguration) (thr : float) (s : state) (m : TimingModel)
    (e : exn) :
  st_models s !! model = Some m ->
  evaluate_epochs libm_pow fdtr fit_toas residuals_dof str_float set_iter m s thr
  = Raise e ->
  exists s' evs,
    epochalyptica libm_pow fdtr fit_toas residuals_dof str_float set_iter
                  apply_cut_flag_toas apply_cut_select_toas setup_dmx_objs
                  model tc thr s = (Raise e, s')
    /\ st_trace s' = st_trace s ++ opening_events set_iter tc s ++ evs
    /\ Forall loop_event evs.
Proof.
  intros Hm Hos. unfold epochalyptica, evaluate_epochs, filenames_of in *.
  rewrite bind_run. unfold get_toas at 1.
  rewrite bind_run. unfold deref at 1. rewrite Hm.
  change (default (mkModel ∅) (Some m)) with m.
  rewrite bind_run. unfold emit at 1.
  rewrite bind_run. unfold emit at 1.
  cbn [st_toas st_models st_trace].
  rewrite bind_run.
  match goal with |- context [foldM ?f ?l ?e0 ?st] =>
    destruct (epoch_loop_eval libm_pow fdtr fit_toas residuals_dof str_float model
                (fit_toas m (table (st_toas s)))
                (residuals_dof m (table (st_toas s)))
                (length (table (st_toas s)))
                (length (map (fun t => toa_flags t !! "name") (table (st_toas s))))
                thr l e0 st m Hm) as [s2 Hloop];
    pose proof (emits_only_foldM loop_event f l e0
                  (emits_only_epoch_iteration model _ _ _ _ thr)
                  st (Raise e) s2) as Htr
  end.
  rewrite Hloop in Htr |- *. cbn [st_toas st_models st_trace] in Htr |- *.
  rewrite Hos in Htr |- *.
  destruct (Htr eq_refl) as (evs & Hevs & HP).
  exists s2, evs. split; [reflexivity |]. split; [| exact HP].
  rewrite Hevs. cbn [st_trace]. unfold opening_events, filenames_of.
  rewrite <- !app_assoc. reflexivity.
Qed.

End LOOP_TRACE.

(** ** [calculate_pout]: what it leaves alone, and a sampler that hands
    back too little *)



Lemma pout_flags_written_frame (method : string) (p : list float)
    (indices : list nat) (i : nat) (orig orig' : list TOA) :
  pout_flags_written method p indices i orig = Return orig' ->
  length orig' = length orig
  /\ (forall j, j ∉ indices -> orig' !! j = orig !! j)
  /\ (forall j row', orig' !! j = Some row' ->
        exists row, orig !! j = Some row
                    /\ same_but_flag ("pout_" +:+ method) row row').
Proof.
  revert i orig. induction indices as [| oi rest IH]; intros i orig H.
  - injection H as <-. split; [reflexivity |]. split; [reflexivity |].
    intros j row' Hj. exists row'. split; [exact Hj | apply same_but_flag_refl].
  - cbn [pout_flags_written] in H.
    destruct (p !! i) as [v |]; [| discriminate].
    destruct (orig !! oi) as [row |] eqn:Hrow; [| discriminate].
    apply IH in H as (Hlen & Hout & Hfr).
    split; [rewrite Hlen; apply length_insert |]. split.
    + intros j Hj. rewrite Hout.
      * apply list_lookup_insert_ne. intros ->. apply Hj. left.
      * intros Hin. apply Hj. right. exact Hin.
    + intros j row' Hj. destruct (Hfr j row' Hj) as (row1 & H1 & Hs).
      destruct (decide (oi = j)) as [-> | Hne].
      * rewrite list_lookup_insert_eq in H1 by (eapply lookup_lt_Some; exact Hrow).
        injection H1 as <-. exists row. split; [exact Hrow |].
        destruct Hs as (S1 & S2 & S3 & S4 & S5).
        repeat split; try assumption.
        intros k' Hk. rewrite (S5 k' Hk). cbn. apply lookup_insert_ne. congruence.
      * rewrite list_lookup_insert_ne in H1 by exact Hne.
        exists row1. split; assumption.
Qed.

Lemma pout_flags_written_raises (method : string) (p : list float)
    (indices : list nat) (i : nat) (orig : list TOA) (e : exn) :
  pout_flags_written method p indices i orig = Raise e -> e = IndexError.
Proof.
  revert i orig. induction indices as [| oi rest IH]; intros i orig H;
    [discriminate |].
  cbn [pout_flags_written] in H.
  destruct (p !! i); [| congruence].
  destruct (orig !! oi); [| congruence].
  eapply IH, H.
Qed.

Lemma pout_flags_short (method : string) (p : list float)
    (indices : list nat) (i : nat) (orig : list TOA) :
  (forall oi, oi ∈ indices -> (oi < length orig)%nat) ->
  (i <= length p < i + length indices)%nat ->
  pout_flags_written method p indices i orig = Raise IndexError
  /\ pout_flags_written method p (take (length p - i) indices) i orig
     = Return (pout_flags_progress method p indices i orig).
Proof.
  revert i orig. induction indices as [| oi rest IH]; intros i orig Hv Hl.
  - cbn in Hl. lia.
  - cbn [pout_flags_written pout_flags_progress].
    destruct (p !! i) as [v |] eqn:Hp.
    + apply lookup_lt_Some in Hp as Hi.
      replace (length p - i)%nat with (S (length p - S i)) by lia.
      cbn [take pout_flags_written]. rewrite Hp.
      destruct (lookup_lt_is_Some_2 orig oi (Hv oi ltac:(left))) as [row Hrow].
      rewrite Hrow. apply IH.
      * intros oi' Hin. rewrite length_insert. apply Hv. right. exact Hin.
      * cbn in Hl. lia.
    + apply lookup_ge_None in Hp.
      replace (length p - i)%nat with 0%nat by lia. split; reflexivity.
Qed.

Section POUT_MORE.

Variable apply_cut_select_toas : TOAs -> string -> TOAs.
Variable OutlierHMC : PintPulsar -> string -> Z -> Z -> list float.
Variable OutlierGibbs_poutchain : PintPulsar -> string -> Z -> list (list float).
Variable np_mean_axis0 : list (list float) -> list float.

Lemma write_pout_flags_run (method : string) (p : list float)
    (indices : list nat) (i : nat) (s : state) :
  write_pout_flags method (Some p) indices i s
  = (match pout_flags_written method p indices i (orig_table (st_toas s)) with
     | Return _ => Return tt
     | Raise e => Raise e
     end,
     mkState (mkTOAs (table (st_toas s)) (table_selects (st_toas s))
                     (pout_flags_progress method p indices i
                                          (orig_table (st_toas s))))
             (st_models s) (st_trace s)).
Proof.
  revert i s. induction indices as [| oi rest IH]; intros i s.
  - cbn. unfold ret. rewrite toas_eta, state_eta. reflexivity.
  - cbn [write_pout_flags pout_flags_written pout_flags_progress].
    rewrite bind_run. unfold write_pout_flag.
    destruct (p !! i) as [v |];
      [| unfold raise; rewrite toas_eta, state_eta; reflexivity].
    rewrite bind_run. unfold get_toas at 1.
    destruct (orig_table (st_toas s) !! oi) as [row |];
      [| unfold raise; rewrite toas_eta, state_eta; reflexivity].
    unfold put_toas at 1. rewrite IH.
    cbn [st_toas st_models st_trace table table_selects orig_table].
    reflexivity.
Qed.

(** The sampler stage never fails and leaves the TOAs and the models as
    they are. *)
Lemma run_sampler_total (model : nat) (tc : timingconfiguration) (s : state)
    (m : TimingModel) :
  st_models s !! model = Some m ->
  exists po evs,
    run_sampler OutlierHMC OutlierGibbs_poutchain np_mean_axis0 model tc s
    = (Return po, add_events s evs)
    /\ Forall (fun ev => match ev with
                         | CallOutlierHMC _ _ _ _ | CallOutlierGibbs _ _ _
                         | Print _ | LogError _ => True
                         | _ => False
                         end) evs
    /\ (po = None <-> get_outlier_method tc <> "hmc"
                      /\ get_outlier_method tc <> "gibbs").
Proof.
  intros Hm. pose proof (run_sampler_run OutlierHMC OutlierGibbs_poutchain
                           np_mean_axis0 model tc s m Hm) as H.
  cbv zeta in H. rewrite H.
  destruct (String.eqb_spec (get_outlier_method tc) "hmc") as [E1 | E1].
  - do 2 eexists. split; [reflexivity |]. split; [repeat constructor |].
    split; [discriminate | intros [H1 _]; contradiction].
  - destruct (String.eqb_spec (get_outlier_method tc) "gibbs") as [E2 | E2].
    + do 2 eexists. split; [reflexivity |]. split; [repeat constructor |].
      split; [discriminate | intros [_ H2]; contradiction].
    + do 2 eexists. split; [reflexivity |]. split; [repeat constructor |].
      split; [intros _; split; assumption | reflexivity].
Qed.

Lemma calculate_pout_flags_fail (model : nat) (tc : timingconfiguration)
    (s : state) (p : list float) (evs : list event) (e : exn) :
  run_sampler OutlierHMC OutlierGibbs_poutchain np_mean_axis0 model tc s
  = (Return (Some p), add_events s evs) ->
  pout_flags_written (get_outlier_method tc) p
                     (map toa_index (table (st_toas s))) 0
                     (orig_table (st_toas s)) = Raise e ->
  calculate_pout apply_cut_select_toas OutlierHMC OutlierGibbs_poutchain
                 np_mean_axis0 model tc s
  = (Raise e,
     mkState (mkTOAs (table (st_toas s)) (table_selects (st_toas s))
                (pout_flags_progress (get_outlier_method tc) p
                   (map toa_index (table (st_toas s))) 0
                   (orig_table (st_toas s))))
             (st_models s) (st_trace s ++ evs)).
Proof.
  intros Hs Hw. unfold calculate_pout.
  rewrite bind_run, Hs. rewrite bind_run. unfold get_toas at 1.
  rewrite bind_run, write_pout_flags_run.
  unfold add_events. cbn [st_toas st_models st_trace]. rewrite Hw. reflexivity.
Qed.

(** X5. Whenever [calculate_pout] returns, the table written to the tim
    file has the rows of [orig_table], each changed at most in its
    [pout_<method>] flag: index, MJD, error and every other flag are kept,
    and a row whose index is not in the current selection is not changed at
    all.  No other tim file is written before it. *)
Theorem calculate_pout_frame (model : nat) (tc : timingconfiguration)
    (s s' : state) (m : TimingModel) :
  st_models s !! model = Some m ->
  calculate_pout apply_cut_select_toas OutlierHMC OutlierGibbs_poutchain
                 np_mean_axis0 model tc s = (Return tt, s') ->
  exists evs orig',
    st_trace s' = st_trace s ++ evs
      ++ [WriteTim orig' m (get_toa_type tc) (pout_timfile tc);
          ApplyCutSelect "resumption after write_tim, pout"]
    /\ Forall (fun ev => match ev with WriteTim _ _ _ _ => False | _ => True end) evs
    /\ length orig' = length (orig_table (st_toas s))
    /\ (forall j, j ∉ map toa_index (table (st_toas s)) ->
                  orig' !! j = orig_table (st_toas s) !! j)
    /\ (forall j row', orig' !! j = Some row' ->
          exists row, orig_table (st_toas s) !! j = Some row
                      /\ same_but_flag ("pout_" +:+ get_outlier_method tc)
                                       row row').
Proof.
  intros Hm Hrun.
  destruct (run_sampler_total model tc s m Hm) as (po & evs & Hs & Hevs & _).
  assert (Hnw : Forall (fun ev => match ev with
                                  | WriteTim _ _ _ _ => False | _ => True end) evs).
  { eapply Forall_impl; [exact Hevs |]. intros [] H; try exact I; contradiction. }
  destruct po as [p |].
  - destruct (pout_flags_written (get_outlier_method tc) p
                (map toa_index (table (st_toas s))) 0 (orig_table (st_toas s)))
      as [orig' | e] eqn:Hw.
    + destruct (calculate_pout_bound apply_cut_select_toas OutlierHMC
                  OutlierGibbs_poutchain np_mean_axis0 model tc s m p evs orig'
                  Hm Hs Hw) as (s1 & Hrun1 & Htr & _).
      rewrite Hrun in Hrun1. injection Hrun1 as <-.
      apply pout_flags_written_frame in Hw as (Hlen & Hout & Hfr).
      exists evs, orig'. repeat split; assumption.
    + rewrite (calculate_pout_flags_fail model tc s p evs e Hs Hw) in Hrun.
      discriminate Hrun.
  - unfold calculate_pout in Hrun. rewrite bind_run, Hs in Hrun.
    rewrite bind_run in Hrun. unfold get_toas at 1 in Hrun.
    rewrite bind_run, write_pout_flags_unbound in Hrun.
    unfold add_events in Hrun. cbn [st_toas st_models st_trace] in Hrun.
    destruct (map toa_index (table (st_toas s))) as [| oi rest] eqn:Hidx;
      [| discriminate Hrun].
    rewrite bind_run in Hrun. unfold get_toas at 1 in Hrun.
    rewrite bind_run in Hrun. unfold put_toas at 1 in Hrun.
    cbn [st_toas st_models st_trace table table_selects orig_table] in Hrun.
    rewrite bind_run in Hrun. unfold write_tim in Hrun.
    rewrite bind_run in Hrun. unfold get_toas at 1 in Hrun.
    rewrite bind_run in Hrun. unfold deref at 1 in Hrun.
    cbn [st_toas st_models st_trace table table_selects orig_table] in Hrun.
    rewrite Hm in Hrun. change (default (mkModel ∅) (Some m)) with m in Hrun.
    unfold emit in Hrun.
    cbn [st_toas st_models st_trace table table_selects orig_table] in Hrun.
    unfold apply_cut_select, bind, emit, get_toas, put_toas in Hrun.
    cbn [st_toas st_models st_trace table table_selects orig_table] in Hrun.
    injection Hrun as <-. cbn [st_trace].
    exists evs, (orig_table (st_toas s)).
    split; [rewrite <- !app_assoc; reflexivity |].
    split; [exact Hnw |]. split; [reflexivity |]. split; [reflexivity |].
    intros j row' Hj. exists row'. split; [exact Hj | apply same_but_flag_refl].
Qed.

(** X6. When the sampler hands back fewer probabilities than there are
    selected TOAs (their indices in range and distinct), [calculate_pout]
    raises [IndexError] after the sampler call: no tim file is written and
    the selection is left as it was, but the TOAs that did get a
    probability already carry their [pout_<method>] flag in [orig_table]
    (the flag reads back as the probability, the rest of the row is kept);
    the others are unchanged. *)
Theorem calculate_pout_short_sampler_output (model : nat)
    (tc : timingconfiguration) (s : state) (m : TimingModel) :
  st_models s !! model = Some m ->
  let method := get_outlier_method tc in
  let results_dir := "outlier/" +:+ get_outfile_basename tc in
  let tbl := table (st_toas s) in
  let orig := orig_table (st_toas s) in
  forall (p : list float) (evs : list event),
  (method = "hmc"
   /\ p = OutlierHMC (mkPintPulsar tbl m false false) results_dir
                     (get_outlier_samples tc) (get_outlier_burn tc)
   /\ evs = [CallOutlierHMC (mkPintPulsar tbl m false false) results_dir
                            (get_outlier_samples tc) (get_outlier_burn tc);
             Print ""])
  \/ (method = "gibbs"
      /\ p = np_mean_axis0 (OutlierGibbs_poutchain
                              (mkPintPulsar tbl m false true) results_dir
                              (get_outlier_samples tc))
      /\ evs = [CallOutlierGibbs (mkPintPulsar tbl m false true) results_dir
                                 (get_outlier_samples tc)]) ->
  (length p < length tbl)%nat ->
  (forall t, t ∈ tbl -> (toa_index t < length orig)%nat) ->
  NoDup (map toa_index tbl) ->
  exists s',
    calculate_pout apply_cut_select_toas OutlierHMC OutlierGibbs_poutchain
                   np_mean_axis0 model tc s = (Raise IndexError, s')
    /\ st_trace s' = st_trace s ++ evs
    /\ table (st_toas s') = tbl
    /\ length (orig_table (st_toas s')) = length orig
    /\ (forall i t v, tbl !! i = Some t -> p !! i = Some v ->
          exists row row',
            orig !! toa_index t = Some row
            /\ orig_table (st_toas s') !! toa_index t = Some row'
            /\ toa_flags row' !! ("pout_" +:+ method) = Some (FlagNum v)
            /\ same_but_flag ("pout_" +:+ method) row row'
            /\ row' = set_flag row ("pout_" +:+ method) (FlagNum v))
    /\ (forall i t, tbl !! i = Some t -> p !! i = None ->
          orig_table (st_toas s') !! toa_index t = orig !! toa_index t).
Proof.
  intros Hm method results_dir tbl orig p evs Hcase Hshort Hvalid Hnd.
  assert (Hs : run_sampler OutlierHMC OutlierGibbs_poutchain np_mean_axis0
                 model tc s = (Return (Some p), add_events s evs)).
  { pose proof (run_sampler_run OutlierHMC OutlierGibbs_poutchain
                  np_mean_axis0 model tc s m Hm) as H.
    cbv zeta in H. rewrite H.
    destruct Hcase as [(Hme & -> & ->) | (Hme & -> & ->)];
      unfold method in Hme; rewrite Hme; reflexivity. }
  assert (Hv' : forall oi, oi ∈ map toa_index tbl -> (oi < length orig)%nat).
  { intros oi Hin. apply list_elem_of_fmap in Hin as (t & -> & Ht).
    apply Hvalid, Ht. }
  destruct (pout_flags_short method p (map toa_index tbl) 0 orig Hv')
    as (Hraise & Htake).
  { rewrite length_map. lia. }
  rewrite Nat.sub_0_r in Htake.
  eexists. split; [apply (calculate_pout_flags_fail model tc s p evs IndexError Hs Hraise) |].
  cbn [st_trace st_toas table orig_table].
  split; [reflexivity |]. split; [reflexivity |].
  fold tbl orig method.
  set (orig' := pout_flags_progress method p (map toa_index tbl) 0 orig) in *.
  destruct (pout_flags_written_spec method p (take (length p) (map toa_index tbl))
              0 orig) as (orig2 & Hw & Hlen & Hset & Hother).
  { intros k Hk. rewrite length_take in Hk. apply lookup_lt_is_Some_2. lia. }
  { intros oi Hin. apply Hv'. eapply elem_of_sublist; [exact Hin | apply sublist_take]. }
  { eapply sublist_NoDup; [exact Hnd | apply sublist_take]. }
  rewrite Htake in Hw. injection Hw as <-.
  split; [exact Hlen |]. split.
  - intros i t v Hi Hp.
    destruct (Hset i (toa_index t)) as (row & v' & H1 & H2 & H3).
    { rewrite lookup_take_lt by (eapply lookup_lt_Some; exact Hp).
      rewrite list_lookup_fmap, Hi. reflexivity. }
    cbn in H2. rewrite Hp in H2. injection H2 as <-.
    destruct (flag_written_row ("pout_" +:+ method) v row _ eq_refl)
      as (Hfl & Hsame).
    exists row, (set_flag row ("pout_" +:+ method) (FlagNum v)).
    repeat split; try assumption; apply Hsame.
  - intros i t Hi Hp. apply Hother. intros Hin.
    apply list_elem_of_lookup in Hin as (k & Hk).
    apply lookup_take_Some in Hk as (Hk & Hlt).
    apply lookup_ge_None in Hp.
    assert (Hik : i = k).
    { eapply NoDup_lookup; [exact Hnd | | exact Hk].
      rewrite list_lookup_fmap, Hi. reflexivity. }
    lia.
Qed.

End POUT_MORE.

(** ** Parameter names *)

Lemma DMXR1_eq (a : string) :
  DMXR1 a = String "D" (String "M" (String "X" (String "R" (String "1" (String "_" a))))).
Proof. reflexivity. Qed.

Lemma DMXR2_eq (a : string) :
  DMXR2 a = String "D" (String "M" (String "X" (String "R" (String "2" (String "_" a))))).
Proof. reflexivity. Qed.

Lemma DMX__eq (a : string) :
  DMX_ a = String "D" (String "M" (String "X" (String "_" a))).
Proof. reflexivity. Qed.

Lemma dmx_names_distinct (a b : string) :
  DMXR1 a <> DMXR2 b /\ DMXR1 a <> DMX_ b /\ DMXR2 a <> DMX_ b.
Proof.
  rewrite DMXR1_eq, !DMXR2_eq, !DMX__eq. repeat split; intros H; discriminate H.
Qed.

Lemma DMXR2_inj (a b : string) : DMXR2 a = DMXR2 b -> a = b.
Proof. rewrite !DMXR2_eq. congruence. Qed.

Lemma DMX__inj (a b : string) : DMX_ a = DMX_ b -> a = b.
Proof. rewrite !DMX__eq. congruence. Qed.

Lemma length_zeros (k : nat) : String.length (zeros k) = k.
Proof. induction k as [| k IH]; [reflexivity | cbn; rewrite IH; reflexivity]. Qed.

Lemma string_length_app (a b : string) :
  String.length (a +:+ b) = (String.length a + String.length b)%nat.
Proof.
  induction a as [| c a IH]; [reflexivity |].
  change (String c a +:+ b) with (String c (a +:+ b)). cbn [String.length].
  rewrite IH. reflexivity.
Qed.


Lemma all_short_spec (n : nat) (acc : Decimal.uint) :
  all_short n acc = true ->
  forall i, (i < n)%nat -> short_numeral (Nat.to_little_uint i acc) = true.
Proof.
  revert acc. induction n as [| n IH]; intros acc H i Hi; [lia |].
  cbn [all_short] in H. apply andb_prop in H as [H0 H1].
  destruct i as [| i]; [exact H0 |].
  cbn [Nat.to_little_uint]. apply IH; [exact H1 | lia].
Qed.

Lemma numerals_below_10000 : all_short (100 * 100) Decimal.zero = true.
Proof. vm_compute. reflexivity. Qed.

Lemma digits_below_10000 (i : nat) :
  (i < 100 * 100)%nat ->
  (String.length (NilEmpty.string_of_uint (Nat.to_uint i)) <= 4)%nat.
Proof.
  intros Hi. apply Nat.leb_le.
  exact (all_short_spec _ _ numerals_below_10000 i Hi).
Qed.

(** X10. The zero-padded window index of lines 217-222 can be read back,
    is at least four characters long and exactly four below 10000.  Hence
    the parameter names of different windows never collide, and the three
    names of a window differ from each other and from those of any other
    window. *)
Theorem format_04d_properties (i j : nat) :
  parse_nat (format_04d i) = Some i
  /\ (4 <= String.length (format_04d i))%nat
  /\ ((i < 100 * 100)%nat -> String.length (format_04d i) = 4%nat)
  /\ (DMXR1 (format_04d i) = DMXR1 (format_04d j) -> i = j)
  /\ (DMXR2 (format_04d i) = DMXR2 (format_04d j) -> i = j)
  /\ (DMX_ (format_04d i) = DMX_ (format_04d j) -> i = j)
  /\ DMXR1 (format_04d i) <> DMXR2 (format_04d j)
  /\ DMXR1 (format_04d i) <> DMX_ (format_04d j)
  /\ DMXR2 (format_04d i) <> DMX_ (format_04d j).
Proof.
  split; [apply parse_format_04d |].
  assert (Hlen : String.length (format_04d i)
                 = (4 - String.length (NilEmpty.string_of_uint (Nat.to_uint i))
                    + String.length (NilEmpty.string_of_uint (Nat.to_uint i)))%nat).
  { unfold format_04d. cbv zeta. rewrite string_length_app, length_zeros. reflexivity. }
  split; [rewrite Hlen; lia |]. split.
  { intros Hi. rewrite Hlen.
    pose proof (digits_below_10000 i Hi) as H. lia. }
  split; [intros H; apply format_04d_inj, DMXR1_inj, H |].
  split; [intros H; apply format_04d_inj, DMXR2_inj, H |].
  split; [intros H; apply format_04d_inj, DMX__inj, H |].
  apply dmx_names_distinct.
Qed.

(** ** Removing a window *)

Lemma remove_window_spec (m : TimingModel) (c : gmap string float)
    (idx : string) :
  components m !! "DispersionDMX" = Some c ->
  (is_Some (c !! DMXR1 idx) /\ is_Some (c !! DMXR2 idx)
   /\ is_Some (c !! DMX_ idx) ->
   exists m' c',
     remove_window m idx = Return m'
     /\ components m' = <["DispersionDMX" := c']> (components m)
     /\ size c = (size c' + 3)%nat
     /\ c' !! DMXR1 idx = None /\ c' !! DMXR2 idx = None
     /\ c' !! DMX_ idx = None
     /\ forall k, k <> DMXR1 idx -> k <> DMXR2 idx -> k <> DMX_ idx ->
                  c' !! k = c !! k)
  /\ (c !! DMXR1 idx = None \/ c !! DMXR2 idx = None \/ c !! DMX_ idx = None ->
      remove_window m idx = Raise ValueError).
Proof.
  intros Hc.
  destruct (dmx_names_distinct idx idx) as (N12 & N13 & N23).
  assert (Hstep : forall (m0 : TimingModel) (c0 : gmap string float) name,
             components m0 !! "DispersionDMX" = Some c0 ->
             remove_param_value m0 "DispersionDMX" name
             = match c0 !! name with
               | Some _ => Return (mkModel (<["DispersionDMX" := delete name c0]>
                                              (components m0)))
               | None => Raise ValueError
               end).
  { intros m0 c0 name H0. unfold remove_param_value, get_component.
    rewrite H0. reflexivity. }
  unfold remove_window. rewrite (Hstep m c _ Hc).
  split.
  - intros ([v1 H1] & [v2 H2] & [v3 H3]).
    rewrite H1. cbn [rbind].
    rewrite (Hstep _ (delete (DMXR1 idx) c)) by (cbn; apply lookup_insert_eq).
    rewrite lookup_delete_ne by exact N12. rewrite H2. cbn [rbind].
    rewrite (Hstep _ (delete (DMXR2 idx) (delete (DMXR1 idx) c)))
      by (cbn; apply lookup_insert_eq).
    rewrite !lookup_delete_ne by congruence. rewrite H3.
    cbn [components]. rewrite !insert_insert_eq.
    eexists _, _. split; [reflexivity |]. split; [reflexivity |].
    split.
    { assert (S1 : size c = S (size (delete (DMXR1 idx) c))).
      { rewrite <- (insert_delete_id c (DMXR1 idx) v1 H1) at 1.
        apply map_size_insert_None, lookup_delete_eq. }
      assert (S2 : size (delete (DMXR1 idx) c)
                   = S (size (delete (DMXR2 idx) (delete (DMXR1 idx) c)))).
      { rewrite <- (insert_delete_id (delete (DMXR1 idx) c) (DMXR2 idx) v2) at 1
          by (rewrite lookup_delete_ne by exact N12; exact H2).
        apply map_size_insert_None, lookup_delete_eq. }
      assert (S3 : size (delete (DMXR2 idx) (delete (DMXR1 idx) c))
                   = S (size (delete (DMX_ idx)
                                (delete (DMXR2 idx) (delete (DMXR1 idx) c))))).
      { rewrite <- (insert_delete_id (delete (DMXR2 idx) (delete (DMXR1 idx) c))
                      (DMX_ idx) v3) at 1
          by (rewrite !lookup_delete_ne by congruence; exact H3).
        apply map_size_insert_None, lookup_delete_eq. }
      lia. }
    split.
    { rewrite !lookup_delete_ne by congruence. apply lookup_delete_eq. }
    split.
    { rewrite lookup_delete_ne by congruence. apply lookup_delete_eq. }
    split; [apply lookup_delete_eq |].
    intros k K1 K2 K3. rewrite !lookup_delete_ne by congruence. reflexivity.
  - intros H. destruct (c !! DMXR1 idx) as [v1 |] eqn:H1; [| reflexivity].
    cbn [rbind].
    rewrite (Hstep _ (delete (DMXR1 idx) c)) by (cbn; apply lookup_insert_eq).
    rewrite lookup_delete_ne by exact N12.
    destruct (c !! DMXR2 idx) as [v2 |] eqn:H2; [| reflexivity].
    cbn [rbind].
    rewrite (Hstep _ (delete (DMXR2 idx) (delete (DMXR1 idx) c)))
      by (cbn; apply lookup_insert_eq).
    rewrite !lookup_delete_ne by congruence.
    destruct (c !! DMX_ idx) as [v3 |] eqn:H3; [| reflexivity].
    destruct H as [H | [H | H]]; discriminate H.
Qed.

(** X7. The model refitted at lines 235-242.  With a TOA left in the window
    it is the model itself and nothing changes.  With none, the model is
    deep-copied into a new object, the caller's model stays as it was, and
    the copy loses exactly the three parameters [DMXR1_idx], [DMXR2_idx]
    and [DMX_idx] (three parameters fewer, all others kept), provided the
    three are there; when one of them is missing [remove_param] raises
    [ValueError]. *)
Theorem refit_model_removes_three_parameters (model : nat) (s : state)
    (m : TimingModel) (c : gmap string float) (idx : string) :
  st_models s !! model = Some m ->
  components m !! "DispersionDMX" = Some c ->
  (forall n, n <> 0%nat -> refit_model model n (Some idx) s = (Return model, s))
  /\ (is_Some (c !! DMXR1 idx) /\ is_Some (c !! DMXR2 idx)
      /\ is_Some (c !! DMX_ idx) ->
      exists s' m' c',
        refit_model model 0 (Some idx) s = (Return (length (st_models s)), s')
        /\ length (st_models s) <> model
        /\ st_toas s' = st_toas s
        /\ st_models s' = st_models s ++ [m']
        /\ st_models s' !! model = Some m
        /\ st_trace s' = st_trace s ++ [LogDebug ("Removing DMX range " +:+ idx)]
        /\ components m' = <["DispersionDMX" := c']> (components m)
        /\ size c = (size c' + 3)%nat
        /\ c' !! DMXR1 idx = None /\ c' !! DMXR2 idx = None
        /\ c' !! DMX_ idx = None
        /\ forall k, k <> DMXR1 idx -> k <> DMXR2 idx -> k <> DMX_ idx ->
                     c' !! k = c !! k)
  /\ (c !! DMXR1 idx = None \/ c !! DMXR2 idx = None \/ c !! DMX_ idx = None ->
      exists s', refit_model model 0 (Some idx) s = (Raise ValueError, s')).
Proof.
  intros Hm Hc.
  destruct (remove_window_spec m c idx Hc) as (Hok & Hfail).
  destruct (refit_model_remove model (Some idx) s m Hm) as (s2 & Hrun).
  cbn [str_opt] in Hrun.
  split; [intros n Hn; apply refit_model_keep, Hn |]. split.
  - intros Hall.
    destruct (Hok Hall) as (m' & c' & Hw & Hcomp & Hsize & H1 & H2 & H3 & Hk).
    rewrite Hw in Hrun. eexists _, m', c'. split; [exact Hrun |].
    cbn [st_toas st_models st_trace].
    split; [apply lookup_lt_Some in Hm; lia |].
    split; [reflexivity |]. split; [reflexivity |].
    split; [apply lookup_app_l_Some, Hm |].
    split; [reflexivity |]. repeat split; assumption.
  - intros Hmiss. rewrite (Hfail Hmiss) in Hrun. exists s2. exact Hrun.
Qed.


(** ** The cuts that follow the loop *)

Lemma cut_flag_calls_app (a b : list event) :
  cut_flag_calls (a ++ b) = cut_flag_calls a ++ cut_flag_calls b.
Proof. unfold cut_flag_calls. apply omap_app. Qed.

Lemma cut_flag_calls_epochs (os : list epoch_outcome) :
  cut_flag_calls (concat (map epoch_events os)) = [].
Proof.
  induction os as [| o os IH]; [reflexivity |].
  cbn [map concat]. rewrite cut_flag_calls_app, IH, app_nil_r.
  unfold epoch_events. destruct (eo_removed o); reflexivity.
Qed.

Lemma cut_flag_calls_events (names : list flagval) (etds : list (option flagval)) :
  cut_flag_calls (cut_flag_events names etds)
  = map (fun etd => (where_eq names etd 0, "epochdrop")) etds.
Proof.
  induction etds as [| etd etds IH]; [reflexivity |].
  cbn. f_equal. exact IH.
Qed.

Lemma cut_flag_calls_closing (tc : timingconfiguration) (names : list flagval)
    (etds : list (option flagval)) (tbl : list TOA) (m : TimingModel) :
  cut_flag_calls (closing_events tc names etds tbl m)
  = map (fun etd => (where_eq names etd 0, "epochdrop")) etds.
Proof.
  unfold closing_events.
  rewrite !cut_flag_calls_app, cut_flag_calls_events.
  destruct etds; cbn; rewrite ?app_nil_r; reflexivity.
Qed.

(** [np.where(names == etd)[0]]: the positions that hold the name, in
    increasing order. *)
Lemma where_eq_spec (names : list flagval) (etd : option flagval) (i j : nat) :
  j ∈ where_eq names etd i
  <-> exists k n, j = (i + k)%nat /\ names !! k = Some n
                  /\ flag_eq_opt n etd = true.
Proof.
  revert i. induction names as [| n names IH]; intros i.
  - cbn. split; [intros H; inversion H | intros (k & n & _ & H & _); discriminate H].
  - cbn [where_eq]. destruct (flag_eq_opt n etd) eqn:E.
    + rewrite elem_of_cons, IH. split.
      * intros [-> | (k & n' & -> & Hk & Hn)].
        -- exists 0%nat, n. split; [lia |]. split; [reflexivity | exact E].
        -- exists (S k), n'. split; [lia |]. split; assumption.
      * intros (k & n' & -> & Hk & Hn). destruct k as [| k].
        -- left. lia.
        -- right. exists k, n'. split; [lia |]. split; assumption.
    + rewrite IH. split.
      * intros (k & n' & -> & Hk & Hn). exists (S k), n'.
        split; [lia |]. split; assumption.
      * intros (k & n' & -> & Hk & Hn). destruct k as [| k].
        -- cbn in Hk. injection Hk as <-. congruence.
        -- exists k, n'. split; [lia |]. split; assumption.
Qed.

Lemma where_eq_lower (names : list flagval) (etd : option flagval) (i : nat) :
  Forall (fun j => (i <= j)%nat) (where_eq names etd i).
Proof.
  apply Forall_forall. intros j Hj.
  apply where_eq_spec in Hj as (k & _ & -> & _). lia.
Qed.

Lemma where_eq_sorted (names : list flagval) (etd : option flagval) (i : nat) :
  StronglySorted lt (where_eq names etd i).
Proof.
  revert i. induction names as [| n names IH]; intros i; [constructor |].
  cbn [where_eq]. destruct (flag_eq_opt n etd); [| apply IH].
  constructor; [apply IH |].
  eapply Forall_impl; [apply where_eq_lower |]. intros j Hj. cbn in Hj. lia.
Qed.

Section CUT_FLAGS.

Variable libm_pow : c_pow.
Variable fdtr : Z -> Z -> float -> float.
Variable fit_toas : TimingModel -> list TOA -> float.
Variable residuals_dof : TimingModel -> list TOA -> Z.
Variable str_float : float -> string.
Variable set_iter : list (option flagval) -> list (option flagval).
Variable apply_cut_flag_toas : TOAs -> list nat -> string -> TOAs.
Variable apply_cut_select_toas : TOAs -> string -> TOAs.
Variable setup_dmx_objs :
  TimingModel -> TOAs -> float -> float -> TimingModel * TOAs.

Lemma evaluated_filenames (m : TimingModel) (tbl : list TOA) (chi2_init : float)
    (ndof_init : Z) (ntoas_init nfilenames : nat) (thr : float)
    (epochs : list (option flagval)) (os : list epoch_outcome) :
  map_result (epoch_eval libm_pow fdtr fit_toas residuals_dof str_float m tbl chi2_init
                         ndof_init ntoas_init nfilenames thr) epochs
  = Return os ->
  map eo_filename os = epochs.
Proof.
  intros H. apply map_result_Forall2 in H.
  induction H as [| f o epochs os Hf _ IH]; [reflexivity |].
  cbn [map]. rewrite IH.
  rewrite (epoch_eval_filename _ _ _ _ _ _ _ _ _ _ _ _ _ _ Hf). reflexivity.
Qed.

(** X8. In a completed run [apply_cut_flag] is called exactly once per
    dropped epoch, in loop order, with the flag [epochdrop].  The dropped
    epochs are distinct file names of the current table, namely those whose
    evaluation decided to drop.  The indices passed for an epoch are the
    positions in [orig_table] of the rows whose [name] equals the epoch's,
    selected or not, in increasing order. *)
Theorem cut_flags_follow_dropped_epochs (model : nat)
    (tc : timingconfiguration) (thr : float) (s : state) (m : TimingModel)
    (os : list epoch_outcome) (names : list flagval) :
  NoDup (set_iter (filenames_of s)) ->
  st_models s !! model = Some m ->
  evaluate_epochs libm_pow fdtr fit_toas residuals_dof str_float set_iter m s thr
  = Return os ->
  map_result (fun t => getitem (toa_flags t) "name") (orig_table (st_toas s))
  = Return names ->
  exists s' added,
    epochalyptica libm_pow fdtr fit_toas residuals_dof str_float set_iter
                  apply_cut_flag_toas apply_cut_select_toas setup_dmx_objs
                  model tc thr s = (Return tt, s')
    /\ st_trace s' = st_trace s ++ added
    /\ cut_flag_calls added
       = map (fun etd => (where_eq names etd 0, "epochdrop")) (dropped os)
    /\ NoDup (dropped os)
    /\ (forall etd, etd ∈ dropped os <->
          exists o, o ∈ os /\ eo_filename o = etd /\ eo_drop o = true)
    /\ (forall etd, etd ∈ dropped os -> etd ∈ set_iter (filenames_of s))
    /\ (forall etd j,
          j ∈ where_eq names etd 0
          <-> exists row n, orig_table (st_toas s) !! j = Some row
                            /\ toa_flags row !! "name" = Some n
                            /\ flag_eq_opt n etd = true)
    /\ (forall etd, StronglySorted lt (where_eq names etd 0)).
Proof.
  intros Hnd Hm Hos Hn.
  destruct (epochalyptica_run libm_pow fdtr fit_toas residuals_dof str_float set_iter
              apply_cut_flag_toas apply_cut_select_toas setup_dmx_objs
              model tc thr s m os names Hm Hos Hn)
    as (s' & tbl' & m' & Hrun & Htr & _).
  eexists s', _. split; [exact Hrun |]. split; [exact Htr |].
  split.
  { rewrite !cut_flag_calls_app, cut_flag_calls_epochs, cut_flag_calls_closing.
    reflexivity. }
  pose proof (evaluated_filenames _ _ _ _ _ _ _ _ _ Hos) as Hfn.
  assert (Hsub : sublist (dropped os) (set_iter (filenames_of s))).
  { rewrite <- Hfn. unfold dropped. apply fmap_sublist, sublist_filter. }
  split; [eapply sublist_NoDup; [exact Hnd | exact Hsub] |].
  split.
  { intros etd. unfold dropped. rewrite list_elem_of_fmap. split.
    - intros (o & -> & Ho). apply list_elem_of_filter in Ho as [Hd Ho].
      exists o. repeat split; assumption.
    - intros (o & Ho & <- & Hd). exists o. split; [reflexivity |].
      apply list_elem_of_filter. split; assumption. }
  split; [intros etd Hin; eapply elem_of_sublist; [exact Hin | exact Hsub] |].
  split; [| intros etd; apply where_eq_sorted].
  intros etd j. rewrite where_eq_spec.
  apply map_result_Forall2 in Hn.
  split.
  - intros (k & n & -> & Hk & Hf). cbn.
    destruct (Forall2_lookup_r _ _ _ _ _ Hn Hk) as (row & Hrow & Hg).
    exists row, n. split; [exact Hrow |]. split; [| exact Hf].
    unfold getitem in Hg. destruct (toa_flags row !! "name"); congruence.
  - intros (row & n & Hrow & Hname & Hf).
    destruct (Forall2_lookup_l _ _ _ _ _ Hn Hrow) as (n' & Hn' & Hg).
    unfold getitem in Hg. rewrite Hname in Hg. injection Hg as <-.
    exists j, n. split; [reflexivity |]. split; assumption.
Qed.

End CUT_FLAGS.

(** ** [make_pout_cuts] *)

Section MAKE_POUT_CUTS_FACTS.

Variable apply_ignore_toas : TOAs -> list string -> TOAs.
Variable check_file_outliers_toas : TOAs -> float -> TOAs.
Variable apply_cut_select_toas : TOAs -> string -> TOAs.
Variable setup_dmx_objs :
  TimingModel -> TOAs -> float -> float -> TimingModel * TOAs.

Abbreviation run_make_pout_cuts :=
  (make_pout_cuts apply_ignore_toas check_file_outliers_toas
                  apply_cut_select_toas setup_dmx_objs).
Abbreviation key_cuts_of :=
  (key_cuts apply_ignore_toas apply_cut_select_toas setup_dmx_objs).

(** X9. [make_pout_cuts] does not raise by itself.  With TOA type exactly
    [NB] the file-outlier check runs on what the first [setup_dmx]
    returned, with the given threshold, and [setup_dmx] runs a second time
    on its result.  With any other TOA type the check is skipped, one
    [setup_dmx] runs, the skip is logged, and the threshold has no
    effect. *)
Theorem make_pout_cuts_branches (model : nat) (tc : timingconfiguration)
    (outpct_threshold : float) (s : state) (m : TimingModel) :
  st_models s !! model = Some m ->
  let m1 := fst (key_cuts_of tc m (st_toas s)) in
  let t1 := snd (key_cuts_of tc m (st_toas s)) in
  let fr := get_fratio tc in
  let md := get_sw_delay tc in
  exists s',
    run_make_pout_cuts model tc outpct_threshold s = (Return tt, s')
    /\ (get_toa_type tc = "NB" ->
        let r := setup_dmx_objs m1 (check_file_outliers_toas t1 outpct_threshold)
                                fr md in
        st_toas s' = snd r
        /\ st_models s' = <[model := fst r]> (st_models s)
        /\ st_trace s' = st_trace s
             ++ [ApplyCutSelect "outlier analysis, specified key";
                 SetupDmx fr md; SetupDmx fr md])
    /\ (get_toa_type tc <> "NB" ->
        st_toas s' = t1
        /\ st_models s' = <[model := m1]> (st_models s)
        /\ st_trace s' = st_trace s
             ++ [ApplyCutSelect "outlier analysis, specified key";
                 SetupDmx fr md;
                 LogInfo "Skipping maxout cuts (wideband)."]
        /\ forall thr',
             run_make_pout_cuts model tc thr' s = (Return tt, s')).
Proof.
  intros Hm m1 t1 fr md.
  assert (Hlt : (model < length (st_models s))%nat)
    by (eapply lookup_lt_Some; exact Hm).
  assert (Hpre : forall thr,
    run_make_pout_cuts model tc thr s
    = (if String.eqb (get_toa_type tc) "NB" then
         (let! toas := get_toas in
          put_toas (check_file_outliers_toas toas thr) ;;;
          setup_dmx setup_dmx_objs model fr md)
       else emit (LogInfo "Skipping maxout cuts (wideband)."))%py
        (mkState t1 (<[model := m1]> (st_models s))
                 (st_trace s ++ [ApplyCutSelect "outlier analysis, specified key";
                                 SetupDmx fr md]))).
  { intros thr. unfold make_pout_cuts.
    rewrite bind_run. unfold get_toas at 1.
    rewrite bind_run. unfold put_toas at 1.
    rewrite bind_run, apply_cut_select_run.
    cbn [st_toas st_models st_trace].
    rewrite bind_run.
    rewrite (setup_dmx_run setup_dmx_objs model _ _ _ m) by exact Hm.
    cbn [st_toas st_models st_trace]. rewrite <- app_assoc. reflexivity. }
  destruct (String.eqb_spec (get_toa_type tc) "NB") as [E | E].
  - eexists. split.
    + rewrite Hpre. rewrite bind_run. unfold get_toas at 1.
      rewrite bind_run. unfold put_toas at 1.
      cbn [st_toas st_models st_trace].
      rewrite (setup_dmx_run setup_dmx_objs model _ _ _ m1)
        by (cbn [st_models]; apply list_lookup_insert_eq; exact Hlt).
      reflexivity.
    + split; [| intros H; contradiction]. intros _.
      cbn [st_toas st_models st_trace].
      split; [reflexivity |]. split; [apply list_insert_insert_eq |].
      rewrite <- app_assoc. reflexivity.
  - eexists. split; [rewrite Hpre; reflexivity |].
    split; [intros H; contradiction |]. intros _.
    unfold emit. cbn [st_toas st_models st_trace].
    split; [reflexivity |]. split; [reflexivity |].
    split; [rewrite <- app_assoc; reflexivity |].
    intros thr'. rewrite Hpre. reflexivity.
Qed.

End MAKE_POUT_CUTS_FACTS.

(** ** Iteration order *)

Lemma map_result_cons_inv {A B} (f : A -> result B) (x : A) (l : list A)
    (ys : list B) :
  map_result f (x :: l) = Return ys ->
  exists y ys', f x = Return y /\ map_result f l = Return ys' /\ ys = y :: ys'.
Proof.
  cbn [map_result]. intros H.
  destruct (f x) as [y |]; [| discriminate]. cbn [rbind] in H.
  destruct (map_result f l) as [ys' |]; [| discriminate].
  injection H as <-. exists y, ys'. repeat split.
Qed.

Lemma map_result_cons {A B} (f : A -> result B) (x : A) (l : list A)
    (y : B) (ys : list B) :
  f x = Return y -> map_result f l = Return ys ->
  map_result f (x :: l) = Return (y :: ys).
Proof. intros Hx Hl. cbn [map_result]. rewrite Hx, Hl. reflexivity. Qed.

(** Evaluating the elements in another order gives the same results in
    that order. *)
Lemma map_result_Permutation {A B} (f : A -> result B) (l l' : list A)
    (ys : list B) :
  l ≡ₚ l' -> map_result f l = Return ys ->
  exists ys', map_result f l' = Return ys' /\ ys ≡ₚ ys'.
Proof.
  intros Hp. revert ys. induction Hp as [| x l l' _ IH | x y l | l l' l'' _ IH1 _ IH2];
    intros ys H.
  - exists ys. split; [exact H | reflexivity].
  - apply map_result_cons_inv in H as (y & ys0 & Hx & Hl & ->).
    destruct (IH _ Hl) as (ys' & Hl' & Hperm).
    exists (y :: ys'). split; [apply map_result_cons; assumption |].
    constructor. exact Hperm.
  - apply map_result_cons_inv in H as (b1 & ys0 & H1 & Hl & ->).
    apply map_result_cons_inv in Hl as (b2 & ys1 & H2 & Hl & ->).
    exists (b2 :: b1 :: ys1).
    split; [repeat apply map_result_cons; assumption | apply perm_swap].
  - destruct (IH1 _ H) as (ys1 & H1 & P1).
    destruct (IH2 _ H1) as (ys2 & H2 & P2).
    exists ys2. split; [exact H2 | etransitivity; eassumption].
Qed.

Section ORDER.

Variable libm_pow : c_pow.
Variable fdtr : Z -> Z -> float -> float.
Variable fit_toas : TimingModel -> list TOA -> float.
Variable residuals_dof : TimingModel -> list TOA -> Z.
Variable str_float : float -> string.
Variable apply_cut_flag_toas : TOAs -> list nat -> string -> TOAs.
Variable apply_cut_select_toas : TOAs -> string -> TOAs.
Variable setup_dmx_objs :
  TimingModel -> TOAs -> float -> float -> TimingModel * TOAs.

Lemma evaluate_epochs_Permutation
    (set_iter set_iter' : list (option flagval) -> list (option flagval))
    (m : TimingModel) (s : state) (thr : float) (os : list epoch_outcome) :
  set_iter (filenames_of s) ≡ₚ set_iter' (filenames_of s) ->
  evaluate_epochs libm_pow fdtr fit_toas residuals_dof str_float set_iter m s thr
  = Return os ->
  exists os',
    evaluate_epochs libm_pow fdtr fit_toas residuals_dof str_float set_iter' m s thr
    = Return os'
    /\ os ≡ₚ os'.
Proof.
  intros Hp H. unfold evaluate_epochs in *.
  exact (map_result_Permutation _ _ _ _ Hp H).
Qed.

(** X11. The order in which the set of file names is iterated only
    permutes the results: if [epochalyptica] completes under one order it
    completes under any permutation of it, the lines written to
    [epochdrop.txt] are the same up to order, and so are the
    [apply_cut_flag] calls. *)
Theorem epoch_order_only_permutes
    (set_iter set_iter' : list (option flagval) -> list (option flagval))
    (model : nat) (tc : timingconfiguration) (thr : float) (s : state)
    (m : TimingModel) (os : list epoch_outcome) (names : list flagval) :
  set_iter (filenames_of s) ≡ₚ set_iter' (filenames_of s) ->
  st_models s !! model = Some m ->
  evaluate_epochs libm_pow fdtr fit_toas residuals_dof str_float set_iter m s thr
  = Return os ->
  map_result (fun t => getitem (toa_flags t) "name") (orig_table (st_toas s))
  = Return names ->
  exists s1 s2 added1 added2,
    epochalyptica libm_pow fdtr fit_toas residuals_dof str_float set_iter
                  apply_cut_flag_toas apply_cut_select_toas setup_dmx_objs
                  model tc thr s = (Return tt, s1)
    /\ epochalyptica libm_pow fdtr fit_toas residuals_dof str_float set_iter'
                     apply_cut_flag_toas apply_cut_select_toas setup_dmx_objs
                     model tc thr s = (Return tt, s2)
    /\ st_trace s1 = st_trace s ++ added1
    /\ st_trace s2 = st_trace s ++ added2
    /\ file_writes added1 ≡ₚ file_writes added2
    /\ cut_flag_calls added1 ≡ₚ cut_flag_calls added2.
Proof.
  intros Hp Hm Hos Hn.
  destruct (evaluate_epochs_Permutation set_iter set_iter' m s thr os Hp Hos)
    as (os' & Hos' & Hperm).
  destruct (epochalyptica_run libm_pow fdtr fit_toas residuals_dof str_float set_iter
              apply_cut_flag_toas apply_cut_select_toas setup_dmx_objs
              model tc thr s m os names Hm Hos Hn)
    as (s1 & tbl1 & m1 & Hrun1 & Htr1 & _).
  destruct (epochalyptica_run libm_pow fdtr fit_toas residuals_dof str_float set_iter'
              apply_cut_flag_toas apply_cut_select_toas setup_dmx_objs
              model tc thr s m os' names Hm Hos' Hn)
    as (s2 & tbl2 & m2 & Hrun2 & Htr2 & _).
  eexists s1, s2, _, _.
  split; [exact Hrun1 |]. split; [exact Hrun2 |].
  split; [exact Htr1 |]. split; [exact Htr2 |].
  split.
  - rewrite !file_writes_app, !file_writes_epochs, !file_writes_closing.
    cbn. rewrite !app_nil_r, Hperm. reflexivity.
  - rewrite !cut_flag_calls_app, !cut_flag_calls_epochs, !cut_flag_calls_closing.
    cbn. unfold dropped. rewrite Hperm. reflexivity.
Qed.

End ORDER.

Lemma epoch_order_witness :
  Toy.set_iter (filenames_of Toy.st9) ≡ₚ reverse (Toy.set_iter (filenames_of Toy.st9))
  /\ st_models Toy.st9 !! 0%nat = Some Toy.model2
  /\ exists s1 s2 added1 added2,
       epochalyptica Toy.libm_pow Toy.fdtr Toy.fit_toas Toy.residuals_dof Toy.str_float
         Toy.set_iter Toy.apply_cut_flag_toas Toy.apply_cut_select_toas
         Toy.setup_dmx_objs 0%nat Toy.tc Toy.ftest_threshold Toy.st9
       = (Return tt, s1)
       /\ epochalyptica Toy.libm_pow Toy.fdtr Toy.fit_toas Toy.residuals_dof Toy.str_float
            (fun l => reverse (Toy.set_iter l)) Toy.apply_cut_flag_toas
            Toy.apply_cut_select_toas Toy.setup_dmx_objs 0%nat Toy.tc
            Toy.ftest_threshold Toy.st9
          = (Return tt, s2)
       /\ st_trace s1 = st_trace Toy.st9 ++ added1
       /\ st_trace s2 = st_trace Toy.st9 ++ added2
       /\ file_writes added1 ≡ₚ file_writes added2.
Proof.
  assert (Hp : Toy.set_iter (filenames_of Toy.st9)
               ≡ₚ reverse (Toy.set_iter (filenames_of Toy.st9)))
    by (symmetry; apply reverse_Permutation).
  assert (Hm : st_models Toy.st9 !! 0%nat = Some Toy.model2) by reflexivity.
  split; [exact Hp |]. split; [exact Hm |].
  destruct (epoch_order_only_permutes Toy.libm_pow Toy.fdtr Toy.fit_toas Toy.residuals_dof
              Toy.str_float Toy.apply_cut_flag_toas Toy.apply_cut_select_toas
              Toy.setup_dmx_objs Toy.set_iter (fun l => reverse (Toy.set_iter l))
              0%nat Toy.tc Toy.ftest_threshold Toy.st9 Toy.model2
              (Toy.evaluate Toy.st9) (Toy.names_of Toy.st9)
              Hp Hm ltac:(vm_compute; reflexivity) ltac:(vm_compute; reflexivity))
    as (s1 & s2 & a1 & a2 & H1 & H2 & T1 & T2 & Hw & _).
  exists s1, s2, a1, a2. repeat split; assumption.
Defined.

(** ** The further properties on concrete inputs *)


Lemma Ftest_raises_witness :
  (Z.abs 50 < 2 ^ 1023 /\ Z.abs (50 - 50) < 2 ^ 1023)
  /\ Ftest Toy.fdtr 120 50 100 50 = Raise ZeroDivisionError.
Proof.
  assert (H1 : Z.abs 50 < 2 ^ 1023) by reflexivity.
  assert (H2 : Z.abs (50 - 50) < 2 ^ 1023) by reflexivity.
  split; [split; assumption |].
  apply (proj2 (proj2 (Ftest_raises_only_ZeroDivisionError Toy.fdtr
                         120 50 100 50 H1 H2))).
  split; [reflexivity | right; left; reflexivity].
Defined.

Lemma Ftest_zero_chi2_witness :
  (Z.abs 4 < 2 ^ 1023 /\ Z.abs (5 - 4) < 2 ^ 1023
   /\ is_zero 0 = true /\ (0 <? 1)%float = true)
  /\ Ftest Toy.fdtr 1 5 0 4 = Raise ZeroDivisionError.
Proof.
  assert (H1 : Z.abs 4 < 2 ^ 1023) by reflexivity.
  assert (H2 : Z.abs (5 - 4) < 2 ^ 1023) by reflexivity.
  split; [repeat split; assumption || reflexivity |].
  apply (Ftest_zero_chi2_raises Toy.fdtr 1 5 0 4 H1 H2); reflexivity.
Defined.

Lemma epoch_evaluation_requires_witness :
  exists o,
    Toy.eval_split (Some (FlagStr "a.ff")) = Return o
    /\ Forall (fun t => is_Some (toa_flags t !! "name")) Toy.tbl_split
    /\ Forall (usable_error Toy.libm_pow)
              (epoch_toas (Some (FlagStr "a.ff")) Toy.tbl_split).
Proof.
  destruct (Toy.outcome_split (Some (FlagStr "a.ff"))) as [o |] eqn:E;
    [| vm_compute in E; discriminate].
  assert (Ho : Toy.eval_split (Some (FlagStr "a.ff")) = Return o).
  { unfold Toy.outcome_split in E. destruct (Toy.eval_split _); congruence. }
  destruct (epoch_evaluation_requires Toy.libm_pow Toy.fdtr Toy.fit_toas Toy.residuals_dof
              Toy.str_float Toy.model2 Toy.tbl_split _ _ _ _ _ o Ho)
    as (Hn & He & _).
  exists o. split; [exact Ho |]. split; [exact Hn | exact He].
Defined.

Lemma epochdrop_file_left_open_witness :
  st_models Edge.st_zero_error !! 0%nat = Some Toy.model2
  /\ evaluate_epochs Toy.libm_pow Toy.fdtr Toy.fit_toas Toy.residuals_dof Toy.str_float
       Toy.set_iter Toy.model2 Edge.st_zero_error Toy.ftest_threshold
     = Raise ZeroDivisionError
  /\ exists s' evs,
       Toy.epochalyptica 0%nat Toy.tc Toy.ftest_threshold Edge.st_zero_error
       = (Raise ZeroDivisionError, s')
       /\ st_trace s' = opening_events Toy.set_iter Toy.tc Edge.st_zero_error
                          ++ evs
       /\ Forall loop_event evs.
Proof.
  assert (Hm : st_models Edge.st_zero_error !! 0%nat = Some Toy.model2)
    by reflexivity.
  assert (He : evaluate_epochs Toy.libm_pow Toy.fdtr Toy.fit_toas Toy.residuals_dof
                 Toy.str_float Toy.set_iter Toy.model2 Edge.st_zero_error
                 Toy.ftest_threshold = Raise ZeroDivisionError)
    by (vm_compute; reflexivity).
  split; [exact Hm |]. split; [exact He |].
  destruct (epochdrop_file_left_open_on_error Toy.libm_pow Toy.fdtr Toy.fit_toas
              Toy.residuals_dof Toy.str_float Toy.set_iter
              Toy.apply_cut_flag_toas Toy.apply_cut_select_toas
              Toy.setup_dmx_objs 0%nat Toy.tc Toy.ftest_threshold
              Edge.st_zero_error Toy.model2 ZeroDivisionError Hm He)
    as (s' & evs & Hrun & Htr & Hev).
  exists s', evs. split; [exact Hrun |]. split; [exact Htr | exact Hev].
Defined.

Lemma calculate_pout_frame_witness :
  st_models Toy.st9 !! 0%nat = Some Toy.model2
  /\ exists s' evs orig',
       calculate_pout Toy.apply_cut_select_toas Toy.OutlierHMC
                      Toy.OutlierGibbs_poutchain Toy.np_mean_axis0
                      0%nat Toy.tc Toy.st9 = (Return tt, s')
       /\ st_trace s' = st_trace Toy.st9 ++ evs
            ++ [WriteTim orig' Toy.model2 (get_toa_type Toy.tc) (pout_timfile Toy.tc);
                ApplyCutSelect "resumption after write_tim, pout"]
       /\ length orig' = length (orig_table (st_toas Toy.st9)).
Proof.
  assert (Hm : st_models Toy.st9 !! 0%nat = Some Toy.model2) by reflexivity.
  split; [exact Hm |].
  assert (Hres : fst (calculate_pout Toy.apply_cut_select_toas Toy.OutlierHMC
                        Toy.OutlierGibbs_poutchain Toy.np_mean_axis0
                        0%nat Toy.tc Toy.st9) = Return tt)
    by (vm_compute; reflexivity).
  destruct (calculate_pout Toy.apply_cut_select_toas Toy.OutlierHMC
              Toy.OutlierGibbs_poutchain Toy.np_mean_axis0
              0%nat Toy.tc Toy.st9) as [res s'] eqn:Hrun.
  cbn [fst] in Hres. subst res.
  destruct (calculate_pout_frame Toy.apply_cut_select_toas Toy.OutlierHMC
              Toy.OutlierGibbs_poutchain Toy.np_mean_axis0 0%nat Toy.tc
              Toy.st9 s' Toy.model2 Hm Hrun)
    as (evs & orig' & Htr & _ & Hlen & _).
  exists s', evs, orig'. split; [reflexivity |]. split; [exact Htr | exact Hlen].
Defined.

Lemma calculate_pout_short_witness :
  (length (Edge.OutlierHMC_short
             (mkPintPulsar Toy.tbl9 Toy.model2 false false)
             ("outlier/" +:+ get_outfile_basename Toy.tc)
             (get_outlier_samples Toy.tc) (get_outlier_burn Toy.tc))
   < length Toy.tbl9)%nat
  /\ exists s',
       calculate_pout Toy.apply_cut_select_toas Edge.OutlierHMC_short
                      Toy.OutlierGibbs_poutchain Toy.np_mean_axis0
                      0%nat Toy.tc Toy.st9 = (Raise IndexError, s')
       /\ table (st_toas s') = Toy.tbl9
       /\ length (orig_table (st_toas s')) = length Toy.tbl9
       /\ exists row',
            orig_table (st_toas s') !! 0%nat = Some row'
            /\ toa_flags row' !! "pout_hmc" = Some (FlagNum 1).
Proof.
  assert (Hm : st_models Toy.st9 !! 0%nat = Some Toy.model2) by reflexivity.
  assert (Hs : (length (Edge.OutlierHMC_short
                          (mkPintPulsar Toy.tbl9 Toy.model2 false false)
                          ("outlier/" +:+ get_outfile_basename Toy.tc)
                          (get_outlier_samples Toy.tc) (get_outlier_burn Toy.tc))
                < length Toy.tbl9)%nat) by (vm_compute; lia).
  split; [exact Hs |].
  destruct (calculate_pout_short_sampler_output Toy.apply_cut_select_toas
              Edge.OutlierHMC_short Toy.OutlierGibbs_poutchain
              Toy.np_mean_axis0 0%nat Toy.tc Toy.st9 Toy.model2 Hm
              _ _ (or_introl (conj eq_refl (conj eq_refl eq_refl))) Hs)
    as (s' & Hrun & _ & Ht & Hl & Hfl & _).
  - intros t Ht. change (table (st_toas Toy.st9)) with Toy.tbl9 in Ht.
    unfold Toy.tbl9 in Ht.
    repeat (apply elem_of_cons in Ht as [-> | Ht]; [vm_compute; lia |]).
    inversion Ht.
  - apply (bool_decide_unpack _). vm_compute. exact I.
  - exists s'. split; [exact Hrun |]. split; [exact Ht |].
    split; [exact Hl |].
    destruct (Hfl 0%nat (Toy.toa 0 55001 "a.ff" 500) 1%float
                eq_refl eq_refl) as (row & row' & _ & Ho & Hf & _).
    exists row'. split; [exact Ho | exact Hf].
Defined.

Lemma refit_model_witness :
  st_models Toy.st9 !! 0%nat = Some Toy.model2
  /\ components Toy.model2 !! "DispersionDMX" = Some Toy.dmx2
  /\ (is_Some (Toy.dmx2 !! DMXR1 "0001") /\ is_Some (Toy.dmx2 !! DMXR2 "0001")
      /\ is_Some (Toy.dmx2 !! DMX_ "0001"))
  /\ exists s' m' c',
       refit_model 0 0 (Some "0001") Toy.st9 = (Return 1%nat, s')
       /\ st_models s' = [Toy.model2; m']
       /\ components m' = <["DispersionDMX" := c']> (components Toy.model2)
       /\ size Toy.dmx2 = (size c' + 3)%nat.
Proof.
  assert (Hm : st_models Toy.st9 !! 0%nat = Some Toy.model2) by reflexivity.
  assert (Hc : components Toy.model2 !! "DispersionDMX" = Some Toy.dmx2)
    by reflexivity.
  assert (Hp : is_Some (Toy.dmx2 !! DMXR1 "0001")
               /\ is_Some (Toy.dmx2 !! DMXR2 "0001")
               /\ is_Some (Toy.dmx2 !! DMX_ "0001")).
  { repeat split; vm_compute; eexists; reflexivity. }
  split; [exact Hm |]. split; [exact Hc |]. split; [exact Hp |].
  destruct (refit_model_removes_three_parameters 0%nat Toy.st9 Toy.model2
              Toy.dmx2 "0001" Hm Hc) as (_ & Hok & _).
  destruct (Hok Hp) as (s' & m' & c' & Hrun & _ & _ & Hms & _ & _ & Hcomp & Hsz & _).
  exists s', m', c'. split; [exact Hrun |]. split; [exact Hms |].
  split; [exact Hcomp | exact Hsz].
Defined.

Lemma cut_flags_witness :
  NoDup (Toy.set_iter (filenames_of Toy.st9))
  /\ evaluate_epochs Toy.libm_pow Toy.fdtr Toy.fit_toas Toy.residuals_dof Toy.str_float
       Toy.set_iter Toy.model2 Toy.st9 Toy.ftest_threshold
     = Return (Toy.evaluate Toy.st9)
  /\ dropped (Toy.evaluate Toy.st9) = [Some (FlagStr "a.ff")]
  /\ where_eq (Toy.names_of Toy.st9) (Some (FlagStr "a.ff")) 0 = [0%nat; 2%nat]
  /\ exists s' added,
       Toy.epochalyptica 0%nat Toy.tc Toy.ftest_threshold Toy.st9
       = (Return tt, s')
       /\ st_trace s' = st_trace Toy.st9 ++ added
       /\ cut_flag_calls added
          = map (fun etd => (where_eq (Toy.names_of Toy.st9) etd 0, "epochdrop"))
                (dropped (Toy.evaluate Toy.st9)).
Proof.
  assert (H1 : NoDup (Toy.set_iter (filenames_of Toy.st9)))
    by apply NoDup_remove_dups.
  assert (H3 : evaluate_epochs Toy.libm_pow Toy.fdtr Toy.fit_toas Toy.residuals_dof
                 Toy.str_float Toy.set_iter Toy.model2 Toy.st9
                 Toy.ftest_threshold
               = Return (Toy.evaluate Toy.st9))
    by (vm_compute; reflexivity).
  split; [exact H1 |]. split; [exact H3 |].
  split; [vm_compute; reflexivity |]. split; [vm_compute; reflexivity |].
  destruct (cut_flags_follow_dropped_epochs Toy.libm_pow Toy.fdtr Toy.fit_toas
              Toy.residuals_dof Toy.str_float Toy.set_iter
              Toy.apply_cut_flag_toas Toy.apply_cut_select_toas
              Toy.setup_dmx_objs 0%nat Toy.tc Toy.ftest_threshold Toy.st9
              Toy.model2 _ (Toy.names_of Toy.st9) H1 eq_refl H3
              ltac:(vm_compute; reflexivity))
    as (s' & added & Hrun & Htr & Hc & _).
  exists s', added. split; [exact Hrun |]. split; [exact Htr | exact Hc].
Defined.

Lemma make_pout_cuts_witness :
  st_models Toy.st9 !! 0%nat = Some Toy.model2
  /\ get_toa_type Toy.tc = "NB"
  /\ exists s',
       make_pout_cuts Edge.apply_ignore_toas Edge.check_file_outliers_toas
                      Toy.apply_cut_select_toas Toy.setup_dmx_objs
                      0%nat Toy.tc 8 Toy.st9 = (Return tt, s')
       /\ st_trace s' = [ApplyCutSelect "outlier analysis, specified key";
                         SetupDmx (get_fratio Toy.tc) (get_sw_delay Toy.tc);
                         SetupDmx (get_fratio Toy.tc) (get_sw_delay Toy.tc)].
Proof.
  assert (Hm : st_models Toy.st9 !! 0%nat = Some Toy.model2) by reflexivity.
  split; [exact Hm |]. split; [reflexivity |].
  destruct (make_pout_cuts_branches Edge.apply_ignore_toas
              Edge.check_file_outliers_toas Toy.apply_cut_select_toas
              Toy.setup_dmx_objs 0%nat Toy.tc 8 Toy.st9 Toy.model2 Hm)
    as (s' & Hrun & Hnb & _).
  destruct (Hnb eq_refl) as (_ & _ & Htr).
  exists s'. split; [exact Hrun | exact Htr].
Defined.
